(** * The scheduled job runner of the habit tracker (cron.js)

    A shallow embedding of the cron-driven batch processor: the notification
    helper [createNotification], the reminder dispatch job, the streak scans,
    the digests, the welcome job and the exported test helpers, over an
    explicit model of the Prisma data store and of the collaborators the file
    calls ([pushNotificationController], [ReminderService],
    [streakController]).

    Conventions of the model.
    - An [async] function is a computation in the monad [M]: it reads and
      writes the [World] and either returns or throws an [Err].  Writes made
      before a throw stay made (the store has no transaction around a job).
    - Every call that leaves cron.js (a Prisma query, a push, a service call,
      a console line) is recorded in the world's [trace].  The environment
      [Env] decides, per position in the trace and per call, whether the call
      rejects; a theorem quantified over [Env] holds for every such pattern.
    - Thrown values are [Error] objects (they carry [message] and [stack]).
    - A row that Prisma resolves to is an object with the columns of its
      table, as the migration names them; a property the table does not have
      reads [undefined].
    - The wall clock is read from the world and does not advance inside one
      job invocation; time zones are a fixed offset from UTC. *)

From Stdlib Require Import ZArith List String Ascii Bool Lia.
From Stdlib Require Import Sorted Permutation DecimalString.
Open Scope string_scope.
Import ListNotations.

Open Scope Z_scope.
Open Scope list_scope.

(** ** Values *)

(** A JavaScript [Error]. *)
Record Err := mkErr { message : string; stack : string }.

(** The settled state of a promise. *)
Inductive Outcome (A : Type) :=
| Ok (a : A)
| Throw (e : Err).
Arguments Ok {A} a.
Arguments Throw {A} e.

(** Template literals print integers in decimal: [string_of_Z z] is what
    [`${z}`] gives for a number that is a safe integer.  The numbers the jobs
    print are INTEGER columns of the database (32 bits), counts of rows and
    differences of clock readings.  A number outside the safe range prints
    otherwise in JavaScript (rounded, and in exponent form from 1e21 on); the
    test helpers, which print what the caller passes, are stated for safe
    integers. *)
Definition string_of_Z (z : Z) : string := NilZero.string_of_int (Z.to_int z).

(** [Number.isSafeInteger]: an integer of absolute value at most 2^53 - 1. *)
Definition safe_integer (z : Z) : Prop := Z.abs z <= 9007199254740991.

Definition cat (a b : string) : string := String.append a b.
Infix "+++" := cat (right associativity, at level 60).

(** [s.includes(sub)] / SQL [LIKE '%sub%'] (case sensitive). *)
Fixpoint contains (sub s : string) : bool :=
  if String.prefix sub s then true
  else match s with
       | EmptyString => false
       | String _ rest => contains sub rest
       end.

(** [x || null] on a number and on a string. *)
Definition or_null_Z (x : option Z) : option Z :=
  match x with
  | Some 0 => None
  | _ => x
  end.

Definition or_null_string (x : option string) : option string :=
  match x with
  | Some EmptyString => None
  | _ => x
  end.

(** The values logged as job details. *)
Inductive Json :=
| JNum (n : Z)
| JStr (s : string)
| JNull.

Definition Details := list (string * Json).

(** ** Entities (the columns cron.js reads or writes) *)

Module User.
Record t := mk {
  user_id : Z;
  user_name : string;
  prefersNotifications : bool;
  onVacation : bool;
  dailyGoal : Z;
  registeredAt : Z
}.
End User.

Module Habit.
Record t := mk {
  habit_id : Z;
  user_id : Z;
  name : string;
  is_active : bool;
  color : option string;
  icon : option string
}.
End Habit.

Module HabitStreak.
Record t := mk {
  streak_id : Z;
  habit_id : Z;
  user_id : Z;
  current_streak : Z;
  longest_streak : Z
}.
End HabitStreak.

Module HabitLog.
Record t := mk {
  log_id : Z;
  habit_id : Z;
  user_id : Z;
  completed : bool;
  completed_at : Z
}.
End HabitLog.

Inductive NotificationType :=
| STREAK_MILESTONE | ACHIEVEMENT_UNLOCKED | FRIEND_REQUEST | CHALLENGE_INVITE
| REMINDER | SYSTEM_MESSAGE | BLOG_COMMENT | NEW_MESSAGE | GROUP_INVITATION
| POINTS_AWARDED.

Definition NotificationType_eqb (a b : NotificationType) : bool :=
  match a, b with
  | STREAK_MILESTONE, STREAK_MILESTONE
  | ACHIEVEMENT_UNLOCKED, ACHIEVEMENT_UNLOCKED
  | FRIEND_REQUEST, FRIEND_REQUEST
  | CHALLENGE_INVITE, CHALLENGE_INVITE
  | REMINDER, REMINDER
  | SYSTEM_MESSAGE, SYSTEM_MESSAGE
  | BLOG_COMMENT, BLOG_COMMENT
  | NEW_MESSAGE, NEW_MESSAGE
  | GROUP_INVITATION, GROUP_INVITATION
  | POINTS_AWARDED, POINTS_AWARDED => true
  | _, _ => false
  end.

Module Notification.
(** A row of the Notification table, as [prisma.notification.create]
    resolves to it: an object with the columns as its properties. *)
Record t := mk {
  notification_id : Z;
  user_id : Z;
  title : string;
  content : string;
  type : NotificationType;
  related_id : option Z;
  action_url : option string;
  is_read : bool
}.

(** [notification.id]: the key of the table is the column [notification_id]
    and a row has no property [id], so the read gives [undefined], which is
    [None] here. *)
Definition id (n : t) : option Z := None.
End Notification.

(** The argument of [createNotification]. *)
Module NotificationData.
Record t := mk {
  user_id : Z;
  title : string;
  content : string;
  type : NotificationType;
  related_id : option Z;
  action_url : option string
}.
End NotificationData.

(** The [data] object handed to [prisma.notification.create]. *)
Module NotificationCreate.
Record t := mk {
  user_id : Z;
  title : string;
  content : string;
  type : NotificationType;
  related_id : option Z;
  action_url : option string;
  is_read : bool
}.
End NotificationCreate.

(** The [data] object of a push: the fourth argument of [sendToUser];
    [notificationId] is [None] when it is [undefined]. *)
Module PushData.
Record t := mk {
  type : NotificationType;
  relatedId : option Z;
  actionUrl : option string;
  notificationId : option Z
}.
End PushData.

Module Metadata.
Record t := mk {
  priority : string;
  streakLength : Z;
  habitName : string;
  habitColor : option string;
  habitIcon : option string
}.
End Metadata.

Module ScheduledReminder.
Record t := mk {
  scheduled_reminder_id : Z;
  habit_id : Z;
  user_id : Z;
  scheduled_time : Z;
  reminder_type : string;
  message : string;
  is_sent : bool;
  is_prepared : bool;
  actual_send_time : option Z;
  send_status : option string;
  failure_reason : option string;
  metadata : option Metadata.t
}.
End ScheduledReminder.

(** The [data] object of [prisma.scheduledReminder.create]. *)
Module ReminderCreate.
Record t := mk {
  habit_id : Z;
  user_id : Z;
  scheduled_time : Z;
  reminder_type : string;
  message : string;
  is_sent : bool;
  is_prepared : bool;
  metadata : option Metadata.t
}.
End ReminderCreate.

(** The [data] object of [prisma.scheduledReminder.update]: a field left
    out of the object, or [undefined] in it, is [None] and keeps the column.
    [notification_id] is a property cron.js puts into the object; the
    ScheduledReminder table has no column of that name. *)
Module ReminderUpdate.
Record t := mk {
  is_sent : option bool;
  actual_send_time : option Z;
  notification_id : option Z;
  send_status : option string;
  failure_reason : option string
}.
End ReminderUpdate.

(** ** The data store *)

Record DB := mkDB {
  users : list User.t;
  habits : list Habit.t;
  streaks : list HabitStreak.t;
  habitLogs : list HabitLog.t;
  reminders : list ScheduledReminder.t;
  notifications : list Notification.t;
  (** the SERIAL sequences of the two tables cron.js inserts into *)
  reminder_seq : Z;
  notification_seq : Z
}.

(** Query results with their [include]d relations. *)
Module HabitRow.
Record t := mk {
  habit : Habit.t;
  streak : list HabitStreak.t;
  user : option User.t
}.
End HabitRow.

Module ReminderRow.
Record t := mk {
  reminder : ScheduledReminder.t;
  habit : option Habit.t;
  user : option User.t
}.
End ReminderRow.

(** One group of [prisma.habitLog.groupBy({by: ['habit_id'], _count})]. *)
Module LogGroup.
Record t := mk {
  habit_id : Z;
  _count : Z
}.
End LogGroup.

(** What [streakController.processDailyStreakUpdates] resolves to. *)
Module StreakUpdates.
Record t := mk {
  results : Json;
  message : string
}.
End StreakUpdates.

(** ** Calls that leave cron.js, and the trace *)

Inductive Call :=
| notification_create (data : NotificationCreate.t)
| sendToUser (userId : Z) (title body : string) (data : PushData.t)
| habit_findMany_active (streak_gt : option Z)
| habit_findMany_in (ids : list Z)
| scheduledReminder_findMany_due (now : Z)
| scheduledReminder_findFirst_since
    (habit_id user_id : Z) (reminder_type : string) (since : Z)
| scheduledReminder_create (data : ReminderCreate.t)
| scheduledReminder_update (id : Z) (data : ReminderUpdate.t)
| user_findMany_active
| user_findMany_goal
| user_findMany_new (since : Z)
| habitLog_groupBy (user_id from to : Z)
| habitLog_count (user_id from to : Z)
| isHabitScheduledForDate (h : Habit.t) (date : Z)
| isHabitCompletedForDate (habit_id user_id date : Z)
| isInQuietHours (user_id date : Z)
| processDailyStreakUpdates
| prepareRemindersForNextDay.

(** A line printed by [logJobStatus]. *)
Module JobLog.
Record t := mk {
  timestamp : Z;
  job : string;
  status : string;
  statusColor : string;
  details : Details
}.
End JobLog.

Inductive Event :=
| EvCall (c : Call) (rejected : option Err)
| EvJobStatus (l : JobLog.t)
| EvConsoleError (line : string).

Record World := mkWorld {
  db : DB;
  wall : Z;
  trace : list Event
}.

Definition set_db (d : DB) (w : World) : World :=
  mkWorld d (wall w) (trace w).

Definition record (e : Event) (w : World) : World :=
  mkWorld (db w) (wall w) (trace w ++ [e]).

Definition set_wall (t : Z) (w : World) : World :=
  mkWorld (db w) t (trace w).

(** ** The environment

    [rejects n c]: the call [c], made when [n] events have been recorded,
    rejects with the given error.  The three [ReminderService] predicates and
    the two controllers are not part of cron.js; they are parameters. *)
Record Env := mkEnv {
  rejects : nat -> Call -> option Err;
  svc_isHabitScheduledForDate : Habit.t -> Z -> bool;
  svc_isHabitCompletedForDate : Z -> Z -> Z -> bool;
  svc_isInQuietHours : Z -> Z -> bool;
  ctl_processDailyStreakUpdates : DB -> DB * StreakUpdates.t;
  svc_prepareRemindersForNextDay : DB -> Z -> DB * Z;
  tz_offset : Z
}.

(** ** The monad of asynchronous computations *)

Definition M (A : Type) : Type := World -> Outcome A * World.

Definition ret {A} (a : A) : M A := fun w => (Ok a, w).

Definition bind {A B} (m : M A) (k : A -> M B) : M B := fun w =>
  match m w with
  | (Ok a, w') => k a w'
  | (Throw e, w') => (Throw e, w')
  end.

Definition throw {A} (e : Err) : M A := fun w => (Throw e, w).

(** [try { m } catch (error) { h error }] *)
Definition try_catch {A} (m : M A) (h : Err -> M A) : M A := fun w =>
  match m w with
  | (Ok a, w') => (Ok a, w')
  | (Throw e, w') => h e w'
  end.

Declare Scope async_scope.
Delimit Scope async_scope with async.
Notation "x <- m ;; k" := (bind m (fun x => k))
  (at level 100, m at next level, right associativity) : async_scope.
Notation "m ;; k" := (bind m (fun _ => k))
  (at level 100, right associativity) : async_scope.
Open Scope async_scope.

(** [for (const x of xs) { acc = body(x, acc) }] with the loop's counters
    threaded as [acc]. *)
Fixpoint for_of {A S} (xs : list A) (body : A -> S -> M S) (acc : S) : M S :=
  match xs with
  | [] => ret acc
  | x :: rest => acc' <- body x acc ;; for_of rest body acc'
  end.

Definition exec {A} (m : M A) (w : World) : World := snd (m w).
Definition outcome {A} (m : M A) (w : World) : Outcome A := fst (m w).

(** [new Date()] / [Date.now()] *)
Definition Date_now : M Z := fun w => (Ok (wall w), w).

Definition console_error (line : string) : M unit := fun w =>
  (Ok tt, record (EvConsoleError line) w).

(** A [TypeError] for a property read on [undefined] or [null]. *)
Definition TypeError (what prop : string) : Err :=
  mkErr ("Cannot read properties of " +++ what +++ " (reading '" +++ prop +++ "')")
        "TypeError".

(** ** Prisma queries as functions of the store *)

Definition find_user (d : DB) (uid : Z) : option User.t :=
  find (fun u => User.user_id u =? uid) (users d).

Definition find_habit (d : DB) (hid : Z) : option Habit.t :=
  find (fun h => Habit.habit_id h =? hid) (habits d).

(** [include: { streak: { where: { current_streak: { gt } } } }], or
    [streak: true] when [gt] is [None]. *)
Definition streaks_of (d : DB) (hid : Z) (gt : option Z) : list HabitStreak.t :=
  filter (fun s => (HabitStreak.habit_id s =? hid) &&
                   match gt with
                   | None => true
                   | Some n => n <? HabitStreak.current_streak s
                   end)
         (streaks d).

Definition join_habit (d : DB) (gt : option Z) (h : Habit.t) : HabitRow.t :=
  HabitRow.mk h (streaks_of d (Habit.habit_id h) gt) (find_user d (Habit.user_id h)).

(** [prisma.habit.findMany({ where: { is_active: true }, include })] *)
Definition q_habit_findMany_active (d : DB) (gt : option Z) : list HabitRow.t :=
  map (join_habit d gt) (filter Habit.is_active (habits d)).

(** [prisma.habit.findMany({ where: { habit_id: { in: ids } } })] *)
Definition q_habit_findMany_in (d : DB) (ids : list Z) : list Habit.t :=
  filter (fun h => existsb (Z.eqb (Habit.habit_id h)) ids) (habits d).

(** The [where] of the dispatch query. *)
Definition is_due (now : Z) (r : ScheduledReminder.t) : bool :=
  (ScheduledReminder.scheduled_time r <=? now) &&
  negb (ScheduledReminder.is_sent r) &&
  ScheduledReminder.is_prepared r.

Definition join_reminder (d : DB) (r : ScheduledReminder.t) : ReminderRow.t :=
  ReminderRow.mk r (find_habit d (ScheduledReminder.habit_id r))
                   (find_user d (ScheduledReminder.user_id r)).

Definition q_scheduledReminder_findMany_due (d : DB) (now : Z) : list ReminderRow.t :=
  map (join_reminder d) (filter (is_due now) (reminders d)).

Definition matches_since (hid uid : Z) (ty : string) (since : Z)
    (r : ScheduledReminder.t) : bool :=
  (ScheduledReminder.habit_id r =? hid) &&
  (ScheduledReminder.user_id r =? uid) &&
  String.eqb (ScheduledReminder.reminder_type r) ty &&
  (since <=? ScheduledReminder.scheduled_time r).

Definition q_scheduledReminder_findFirst_since (d : DB) (hid uid : Z)
    (ty : string) (since : Z) : option ScheduledReminder.t :=
  find (matches_since hid uid ty since) (reminders d).

Definition new_reminder (id : Z) (c : ReminderCreate.t) : ScheduledReminder.t :=
  ScheduledReminder.mk id
    (ReminderCreate.habit_id c) (ReminderCreate.user_id c)
    (ReminderCreate.scheduled_time c) (ReminderCreate.reminder_type c)
    (ReminderCreate.message c) (ReminderCreate.is_sent c)
    (ReminderCreate.is_prepared c) None None None
    (ReminderCreate.metadata c).

Definition insert_reminder (d : DB) (c : ReminderCreate.t) : DB :=
  mkDB (users d) (habits d) (streaks d) (habitLogs d)
       (reminders d ++ [new_reminder (reminder_seq d) c])
       (notifications d) (reminder_seq d + 1) (notification_seq d).

Definition new_notification (id : Z) (c : NotificationCreate.t) : Notification.t :=
  Notification.mk id
    (NotificationCreate.user_id c) (NotificationCreate.title c)
    (NotificationCreate.content c) (NotificationCreate.type c)
    (NotificationCreate.related_id c) (NotificationCreate.action_url c)
    (NotificationCreate.is_read c).

Definition insert_notification (d : DB) (c : NotificationCreate.t) : Notification.t * DB :=
  let n := new_notification (notification_seq d) c in
  (n, mkDB (users d) (habits d) (streaks d) (habitLogs d) (reminders d)
           (notifications d ++ [n]) (reminder_seq d) (notification_seq d + 1)).

Definition or_keep {A} (new : option A) (old : A) : A :=
  match new with
  | Some a => a
  | None => old
  end.

Definition or_keep_opt {A} (new : option A) (old : option A) : option A :=
  match new with
  | Some a => Some a
  | None => old
  end.

Definition apply_update (u : ReminderUpdate.t) (r : ScheduledReminder.t)
    : ScheduledReminder.t :=
  ScheduledReminder.mk
    (ScheduledReminder.scheduled_reminder_id r)
    (ScheduledReminder.habit_id r) (ScheduledReminder.user_id r)
    (ScheduledReminder.scheduled_time r) (ScheduledReminder.reminder_type r)
    (ScheduledReminder.message r)
    (or_keep (ReminderUpdate.is_sent u) (ScheduledReminder.is_sent r))
    (ScheduledReminder.is_prepared r)
    (or_keep_opt (ReminderUpdate.actual_send_time u) (ScheduledReminder.actual_send_time r))
    (or_keep_opt (ReminderUpdate.send_status u) (ScheduledReminder.send_status r))
    (or_keep_opt (ReminderUpdate.failure_reason u) (ScheduledReminder.failure_reason r))
    (ScheduledReminder.metadata r).

Definition has_id (id : Z) (r : ScheduledReminder.t) : bool :=
  ScheduledReminder.scheduled_reminder_id r =? id.

Definition update_rows (id : Z) (u : ReminderUpdate.t)
    (rs : list ScheduledReminder.t) : list ScheduledReminder.t :=
  map (fun r => if has_id id r then apply_update u r else r) rs.

Definition RecordNotFound : Err :=
  mkErr "Record to update not found." "PrismaClientKnownRequestError".

(** [prisma.scheduledReminder.update({ where: { scheduled_reminder_id }, data })];
    Prisma rejects when no row has the key. *)
Definition update_reminder (d : DB) (id : Z) (u : ReminderUpdate.t) : Outcome unit * DB :=
  if existsb (has_id id) (reminders d)
  then (Ok tt, mkDB (users d) (habits d) (streaks d) (habitLogs d)
                    (update_rows id u (reminders d))
                    (notifications d) (reminder_seq d) (notification_seq d))
  else (Throw RecordNotFound, d).

Definition q_user_findMany_active (d : DB) : list User.t :=
  filter (fun u => User.prefersNotifications u && negb (User.onVacation u)) (users d).

Definition q_user_findMany_goal (d : DB) : list User.t :=
  filter (fun u => User.prefersNotifications u && negb (User.onVacation u) &&
                   (0 <? User.dailyGoal u))
         (users d).

(** A SYSTEM_MESSAGE notification of user [uid] whose title contains 'Welcome'. *)
Definition is_welcome_of (uid : Z) (n : Notification.t) : bool :=
  (Notification.user_id n =? uid) &&
  NotificationType_eqb (Notification.type n) SYSTEM_MESSAGE &&
  contains "Welcome" (Notification.title n).

Definition q_user_findMany_new (d : DB) (since : Z) : list User.t :=
  filter (fun u => (since <=? User.registeredAt u) &&
                   negb (existsb (is_welcome_of (User.user_id u)) (notifications d)))
         (users d).

Fixpoint bump (hid : Z) (gs : list LogGroup.t) : list LogGroup.t :=
  match gs with
  | [] => [LogGroup.mk hid 1]
  | g :: rest =>
      if LogGroup.habit_id g =? hid
      then LogGroup.mk hid (LogGroup._count g + 1) :: rest
      else g :: bump hid rest
  end.

Definition group_by_habit (logs : list HabitLog.t) : list LogGroup.t :=
  fold_left (fun gs l => bump (HabitLog.habit_id l) gs) logs [].

Definition completed_between (uid from to : Z) (l : HabitLog.t) : bool :=
  (HabitLog.user_id l =? uid) && HabitLog.completed l &&
  (from <=? HabitLog.completed_at l) && (HabitLog.completed_at l <=? to).

(** [groupBy] over the user's completed logs with [gte from], [lte to]. *)
Definition q_habitLog_groupBy (d : DB) (uid from to : Z) : list LogGroup.t :=
  group_by_habit (filter (completed_between uid from to) (habitLogs d)).

Definition completed_within (uid from to : Z) (l : HabitLog.t) : bool :=
  (HabitLog.user_id l =? uid) && HabitLog.completed l &&
  (from <=? HabitLog.completed_at l) && (HabitLog.completed_at l <? to).

(** [count] over the user's completed logs with [gte from], [lt to]. *)
Definition q_habitLog_count (d : DB) (uid from to : Z) : Z :=
  Z.of_nat (List.length (filter (completed_within uid from to) (habitLogs d))).

(** ** Dates *)

Definition MS_PER_HOUR : Z := 60 * 60 * 1000.
Definition MS_PER_DAY : Z := 24 * MS_PER_HOUR.

(** [d.setHours(0, 0, 0, 0)] in local time. *)
Definition local_midnight (offset t : Z) : Z :=
  t - ((t + offset) mod MS_PER_DAY).

(** [d.setHours(20, 0, 0)]: the milliseconds are kept. *)
Definition setHours_20 (offset t : Z) : Z :=
  local_midnight offset t + 20 * MS_PER_HOUR + (t + offset) mod 1000.

(** [d.setDate(d.getDate() + n)] *)
Definition addDays (n t : Z) : Z := t + n * MS_PER_DAY.

(** ** cron.js *)

Definition ESC : string := String (ascii_of_nat 27) "".
(** The double quote of the message templates. *)
Definition dq : string := String (ascii_of_nat 34) "".

(** The colour [logJobStatus] picks for a status. *)
Definition statusColor (status : string) : string :=
  if String.eqb status "started" then ESC +++ "[34m"
  else if String.eqb status "completed" then ESC +++ "[32m"
  else if String.eqb status "failed" then ESC +++ "[31m"
  else if String.eqb status "warning" then ESC +++ "[33m"
  else ESC +++ "[0m".

Definition logJobStatus (jobName status : string) (details : Details) : M unit :=
  fun w =>
    (Ok tt,
     record (EvJobStatus (JobLog.mk (wall w) jobName status (statusColor status) details)) w).

(** [`${Date.now() - startTime}ms`] *)
Definition duration_since (startTime : Z) : M string :=
  now <- Date_now ;;
  ret (string_of_Z (now - startTime) +++ "ms").

(** The shape every handler passed to [cron.schedule] has: log 'started',
    run the body, log 'completed' with the body's details, and log 'failed'
    for whatever the body throws. *)
Definition cron_job (jobName : string) (body : M Details) : M unit :=
  logJobStatus jobName "started" [] ;;
  try_catch
    (details <- body ;;
     logJobStatus jobName "completed" details)
    (fun error =>
       logJobStatus jobName "failed"
         [("error", JStr (message error)); ("stack", JStr (stack error))]).

Definition habit_url (habitId : Z) : string := "/habits/" +++ string_of_Z habitId.

Module TopHabit.
Record t := mk {
  name : string;
  count : Z
}.
End TopHabit.

(** [topHabits.sort((a, b) => b.count - a.count)]: a stable sort, larger
    counts first. *)
Fixpoint insert_desc (x : TopHabit.t) (l : list TopHabit.t) : list TopHabit.t :=
  match l with
  | [] => [x]
  | y :: rest =>
      if TopHabit.count x <? TopHabit.count y
      then y :: insert_desc x rest
      else x :: y :: rest
  end.

Definition sort_by_count_desc (l : list TopHabit.t) : list TopHabit.t :=
  fold_right insert_desc [] l.

(** [xs.join(", ")] *)
Fixpoint join_comma (xs : list string) : string :=
  match xs with
  | [] => ""
  | [x] => x
  | x :: rest => x +++ ", " +++ join_comma rest
  end.

(** [completedHabits.find(ch => ch.habit_id === id)?._count.habit_id || 0] *)
Definition count_for (completedHabits : list LogGroup.t) (id : Z) : Z :=
  match find (fun ch => LogGroup.habit_id ch =? id) completedHabits with
  | Some ch => LogGroup._count ch
  | None => 0
  end.

Definition milestones : list Z := [7; 14; 21; 30; 60; 90; 100; 180; 365].

(** [xs.includes(x)] *)
Definition includes (xs : list Z) (x : Z) : bool := existsb (Z.eqb x) xs.

(** The counts of one dispatch run. *)
Module Results.
Record t := mk {
  processed : Z;
  sent : Z;
  skipped : Z;
  failed : Z
}.
End Results.

Definition incr_sent (r : Results.t) : Results.t :=
  Results.mk (Results.processed r) (Results.sent r + 1) (Results.skipped r) (Results.failed r).
Definition incr_skipped (r : Results.t) : Results.t :=
  Results.mk (Results.processed r) (Results.sent r) (Results.skipped r + 1) (Results.failed r).
Definition incr_failed (r : Results.t) : Results.t :=
  Results.mk (Results.processed r) (Results.sent r) (Results.skipped r) (Results.failed r + 1).

Definition mark_skipped (now : Z) (reason : string) : ReminderUpdate.t :=
  ReminderUpdate.mk (Some true) (Some now) None (Some "SKIPPED") (Some reason).

Definition mark_sent (now : Z) (notification_id : option Z) : ReminderUpdate.t :=
  ReminderUpdate.mk (Some true) (Some now) notification_id (Some "SENT") None.

Definition mark_failed (reason : string) : ReminderUpdate.t :=
  ReminderUpdate.mk None None None (Some "FAILED") (Some reason).

Section Cron.

Variable env : Env.

(** A call that leaves cron.js: recorded, then rejected or run on the store. *)
Definition external {A} (c : Call) (run : DB -> Outcome A * DB) : M A := fun w =>
  let r := rejects env (List.length (trace w)) c in
  let w1 := record (EvCall c r) w in
  match r with
  | Some e => (Throw e, w1)
  | None => let (o, d) := run (db w) in (o, set_db d w1)
  end.

Definition prisma_notification_create (data : NotificationCreate.t) : M Notification.t :=
  external (notification_create data)
    (fun d => let (n, d') := insert_notification d data in (Ok n, d')).

Definition notificationService_sendToUser (userId : Z) (title body : string)
    (data : PushData.t) : M unit :=
  external (sendToUser userId title body data) (fun d => (Ok tt, d)).

Definition prisma_habit_findMany_active (gt : option Z) : M (list HabitRow.t) :=
  external (habit_findMany_active gt) (fun d => (Ok (q_habit_findMany_active d gt), d)).

Definition prisma_habit_findMany_in (ids : list Z) : M (list Habit.t) :=
  external (habit_findMany_in ids) (fun d => (Ok (q_habit_findMany_in d ids), d)).

Definition prisma_scheduledReminder_findMany_due (now : Z) : M (list ReminderRow.t) :=
  external (scheduledReminder_findMany_due now)
    (fun d => (Ok (q_scheduledReminder_findMany_due d now), d)).

Definition prisma_scheduledReminder_findFirst_since (hid uid : Z) (ty : string)
    (since : Z) : M (option ScheduledReminder.t) :=
  external (scheduledReminder_findFirst_since hid uid ty since)
    (fun d => (Ok (q_scheduledReminder_findFirst_since d hid uid ty since), d)).

Definition prisma_scheduledReminder_create (data : ReminderCreate.t) : M unit :=
  external (scheduledReminder_create data) (fun d => (Ok tt, insert_reminder d data)).

Definition prisma_scheduledReminder_update (id : Z) (data : ReminderUpdate.t) : M unit :=
  external (scheduledReminder_update id data) (fun d => update_reminder d id data).

Definition prisma_user_findMany_active : M (list User.t) :=
  external user_findMany_active (fun d => (Ok (q_user_findMany_active d), d)).

Definition prisma_user_findMany_goal : M (list User.t) :=
  external user_findMany_goal (fun d => (Ok (q_user_findMany_goal d), d)).

Definition prisma_user_findMany_new (since : Z) : M (list User.t) :=
  external (user_findMany_new since) (fun d => (Ok (q_user_findMany_new d since), d)).

Definition prisma_habitLog_groupBy (uid from to : Z) : M (list LogGroup.t) :=
  external (habitLog_groupBy uid from to) (fun d => (Ok (q_habitLog_groupBy d uid from to), d)).

Definition prisma_habitLog_count (uid from to : Z) : M Z :=
  external (habitLog_count uid from to) (fun d => (Ok (q_habitLog_count d uid from to), d)).

Definition reminderService_isHabitScheduledForDate (h : Habit.t) (date : Z) : M bool :=
  external (isHabitScheduledForDate h date)
    (fun d => (Ok (svc_isHabitScheduledForDate env h date), d)).

Definition reminderService_isHabitCompletedForDate (hid uid date : Z) : M bool :=
  external (isHabitCompletedForDate hid uid date)
    (fun d => (Ok (svc_isHabitCompletedForDate env hid uid date), d)).

Definition reminderService_isInQuietHours (uid date : Z) : M bool :=
  external (isInQuietHours uid date) (fun d => (Ok (svc_isInQuietHours env uid date), d)).

Definition streakController_processDailyStreakUpdates : M StreakUpdates.t :=
  external processDailyStreakUpdates
    (fun d => let (d', r) := ctl_processDailyStreakUpdates env d in (Ok r, d')).

Definition reminderService_prepareRemindersForNextDay : M Z := fun w =>
  external prepareRemindersForNextDay
    (fun d => let (d', n) := svc_prepareRemindersForNextDay env d (wall w) in (Ok n, d')) w.

(** [createNotification(data)]: the row, then the push; [None] is the
    [undefined] the function resolves to after its [catch]. *)
Definition createNotification (data : NotificationData.t) : M (option Notification.t) :=
  try_catch
    (notification <- prisma_notification_create
       (NotificationCreate.mk
          (NotificationData.user_id data) (NotificationData.title data)
          (NotificationData.content data) (NotificationData.type data)
          (or_null_Z (NotificationData.related_id data))
          (or_null_string (NotificationData.action_url data))
          false) ;;
     notificationService_sendToUser
       (NotificationData.user_id data) (NotificationData.title data)
       (NotificationData.content data)
       (PushData.mk (NotificationData.type data) (NotificationData.related_id data)
                    (NotificationData.action_url data) (Notification.id notification)) ;;
     ret (Some notification))
    (fun error =>
       console_error ("Error creating notification: " +++ message error) ;;
       ret None).

Definition streak_warning_notification (userId : Z) (habitName : string)
    (currentStreak habitId : Z) : NotificationData.t :=
  NotificationData.mk userId "Streak at Risk!"
    ("Your " +++ string_of_Z currentStreak +++ "-day streak for " +++ dq +++ habitName
     +++ dq +++ " will be reset if you don't complete it today!")
    STREAK_MILESTONE (Some habitId) (Some (habit_url habitId)).

Definition streak_warning_reminder (userId : Z) (habitName : string)
    (currentStreak habitId reminderTime : Z) : ReminderCreate.t :=
  ReminderCreate.mk habitId userId reminderTime "STREAK_WARNING"
    ("⚠️ STREAK ALERT: Your " +++ string_of_Z currentStreak +++ "-day streak for "
     +++ dq +++ habitName +++ dq +++ " will be reset tonight if not completed!")
    false true
    (Some (Metadata.mk "high" currentStreak habitName None None)).

Definition createStreakWarningNotification (userId : Z) (habitName : string)
    (currentStreak habitId : Z) : M unit :=
  try_catch
    (createNotification (streak_warning_notification userId habitName currentStreak habitId) ;;
     now <- Date_now ;;
     let reminderTime := setHours_20 (tz_offset env) now in
     if now <? reminderTime
     then prisma_scheduledReminder_create
            (streak_warning_reminder userId habitName currentStreak habitId reminderTime)
     else ret tt)
    (fun error =>
       console_error ("Error creating streak warning notification: " +++ message error)).

Definition createGracePeriodNotification (userId : Z) (habitName : string)
    (streakCount habitId : Z) : M unit :=
  createNotification
    (NotificationData.mk userId "Grace Period Used"
       ("You missed " +++ dq +++ habitName +++ dq
        +++ " yesterday. Your streak is safe for now, but you need to complete it today to keep your "
        +++ string_of_Z streakCount +++ " day streak!")
       SYSTEM_MESSAGE (Some habitId) (Some (habit_url habitId))) ;;
  ret tt.

Definition createStreakResetNotification (userId : Z) (habitName : string)
    (streakBroken habitId : Z) : M unit :=
  createNotification
    (NotificationData.mk userId "Streak Reset"
       ("Your " +++ string_of_Z streakBroken +++ " day streak for " +++ dq +++ habitName
        +++ dq +++ " has been reset because you didn't complete it yesterday.")
       SYSTEM_MESSAGE (Some habitId) (Some (habit_url habitId))) ;;
  ret tt.

Definition topHabitsText (topHabits : list TopHabit.t) : string :=
  match topHabits with
  | [] => "No habits completed this week."
  | _ =>
      "Top habits: " +++
      join_comma
        (map (fun h => TopHabit.name h +++ " (" +++ string_of_Z (TopHabit.count h) +++ " times)")
             (firstn 3 topHabits))
  end.

Definition weekly_summary (userId completedCount : Z) (topHabits : list TopHabit.t)
    : NotificationData.t :=
  let message :=
    "You completed " +++ string_of_Z completedCount +++ " habits this week! "
    +++ topHabitsText topHabits in
  let '(emoji, message) :=
    if completedCount =? 0 then ("🌱", message +++ " Let's set some goals for next week!")
    else if completedCount <? 5 then ("👍", message +++ " You're making progress!")
    else if completedCount <? 15 then ("🎯", message +++ " Great consistency!")
    else if completedCount <? 30 then ("🔥", message +++ " You're on fire!")
    else ("🏆", message +++ " Incredible dedication!") in
  NotificationData.mk userId ("Weekly Summary " +++ emoji) message
    SYSTEM_MESSAGE None (Some "/stats").

Definition createWeeklySummaryNotification (userId completedCount : Z)
    (topHabits : list TopHabit.t) : M unit :=
  createNotification (weekly_summary userId completedCount topHabits) ;;
  ret tt.

(** *** daily-streak-update, '0 0 * * *' *)

Definition daily_streak_update_body : M Details :=
  startTime <- Date_now ;;
  result <- streakController_processDailyStreakUpdates ;;
  duration <- duration_since startTime ;;
  ret [("duration", JStr duration);
       ("results", StreakUpdates.results result);
       ("message", JStr (StreakUpdates.message result))].

Definition daily_streak_update : M unit :=
  cron_job "daily-streak-update" daily_streak_update_body.

(** *** streak-milestone-check, '5 0 * * *' *)

Definition milestone_notification (habit : Habit.t) (current_streak : Z)
    : NotificationData.t :=
  NotificationData.mk (Habit.user_id habit)
    (string_of_Z current_streak +++ "-Day Streak! 🔥")
    ("Amazing! You've maintained your " +++ dq +++ Habit.name habit +++ dq
     +++ " habit for " +++ string_of_Z current_streak +++ " days in a row! Keep going!")
    STREAK_MILESTONE (Some (Habit.habit_id habit))
    (Some (habit_url (Habit.habit_id habit))).

(** One turn of the milestone loop; [continue] is the early [ret]. *)
Definition milestone_step (habit : HabitRow.t) (notificationsSent : Z) : M Z :=
  match HabitRow.streak habit with
  | [] => ret notificationsSent
  | streak :: _ =>
      match HabitRow.user habit with
      | None => throw (TypeError "null" "prefersNotifications")
      | Some user =>
          if negb (User.prefersNotifications user) then ret notificationsSent
          else if (0 <? HabitStreak.current_streak streak) &&
                  includes milestones (HabitStreak.current_streak streak)
          then
            createNotification
              (milestone_notification (HabitRow.habit habit)
                                      (HabitStreak.current_streak streak)) ;;
            ret (notificationsSent + 1)
          else ret notificationsSent
      end
  end.

Definition streak_milestone_check_body : M Details :=
  startTime <- Date_now ;;
  habitsWithStreaks <- prisma_habit_findMany_active None ;;
  notificationsSent <- for_of habitsWithStreaks milestone_step 0 ;;
  duration <- duration_since startTime ;;
  ret [("duration", JStr duration);
       ("habitsChecked", JNum (Z.of_nat (List.length habitsWithStreaks)));
       ("milestoneNotificationsSent", JNum notificationsSent)].

Definition streak_milestone_check : M unit :=
  cron_job "streak-milestone-check" streak_milestone_check_body.

(** *** streak-warning-check, '0 9 * * *' *)

Definition warning_step (habit : HabitRow.t) (warningsCreated : Z) : M Z :=
  match HabitRow.streak habit with
  | [] => ret warningsCreated
  | streak :: _ =>
      match HabitRow.user habit with
      | None => throw (TypeError "null" "onVacation")
      | Some user =>
          if User.onVacation user then ret warningsCreated
          else
            today <- Date_now ;;
            isScheduledToday <-
              reminderService_isHabitScheduledForDate (HabitRow.habit habit) today ;;
            if negb isScheduledToday then ret warningsCreated
            else
              isCompletedToday <-
                reminderService_isHabitCompletedForDate
                  (Habit.habit_id (HabitRow.habit habit))
                  (Habit.user_id (HabitRow.habit habit)) today ;;
              if negb isCompletedToday
              then
                createStreakWarningNotification
                  (Habit.user_id (HabitRow.habit habit))
                  (Habit.name (HabitRow.habit habit))
                  (HabitStreak.current_streak streak)
                  (Habit.habit_id (HabitRow.habit habit)) ;;
                ret (warningsCreated + 1)
              else ret warningsCreated
      end
  end.

Definition streak_warning_check_body : M Details :=
  startTime <- Date_now ;;
  habitsAtRisk <- prisma_habit_findMany_active (Some 2) ;;
  warningsCreated <- for_of habitsAtRisk warning_step 0 ;;
  duration <- duration_since startTime ;;
  ret [("duration", JStr duration);
       ("habitsChecked", JNum (Z.of_nat (List.length habitsAtRisk)));
       ("warningsCreated", JNum warningsCreated)].

Definition streak_warning_check : M unit :=
  cron_job "streak-warning-check" streak_warning_check_body.

(** *** process-reminders, '*/15 * * * *' *)

Definition reminder_notification (row : ReminderRow.t) : NotificationData.t :=
  let reminder := ReminderRow.reminder row in
  NotificationData.mk (ScheduledReminder.user_id reminder)
    match ReminderRow.habit row with
    | Some habit => "Reminder: " +++ Habit.name habit
    | None => "Habit Reminder"
    end
    (ScheduledReminder.message reminder) REMINDER
    (Some (ScheduledReminder.habit_id reminder))
    (Some (habit_url (ScheduledReminder.habit_id reminder))).

(** The [try] block of one turn of the dispatch loop, with its three exits. *)
Definition deliver_reminder (now : Z) (row : ReminderRow.t) (results : Results.t)
    : M Results.t :=
  let reminder := ReminderRow.reminder row in
  let id := ScheduledReminder.scheduled_reminder_id reminder in
  match ReminderRow.user row with
  | None => throw (TypeError "null" "prefersNotifications")
  | Some user =>
      if negb (User.prefersNotifications user) || User.onVacation user
      then
        prisma_scheduledReminder_update id
          (mark_skipped now "User preferences or status") ;;
        ret (incr_skipped results)
      else
        isCompletedToday <-
          reminderService_isHabitCompletedForDate
            (ScheduledReminder.habit_id reminder)
            (ScheduledReminder.user_id reminder) now ;;
        if isCompletedToday
        then
          prisma_scheduledReminder_update id (mark_skipped now "Already completed") ;;
          ret (incr_skipped results)
        else
          notification <- createNotification (reminder_notification row) ;;
          match notification with
          | None => throw (TypeError "undefined" "id")
          | Some n =>
              prisma_scheduledReminder_update id (mark_sent now (Notification.id n)) ;;
              ret (incr_sent results)
          end
  end.

(** Its [catch] block: the row is marked FAILED with the error's message. *)
Definition fail_reminder (row : ReminderRow.t) (results : Results.t) (error : Err)
    : M Results.t :=
  let id := ScheduledReminder.scheduled_reminder_id (ReminderRow.reminder row) in
  console_error ("Error processing reminder " +++ string_of_Z id +++ ": "
                 +++ message error) ;;
  prisma_scheduledReminder_update id (mark_failed (message error)) ;;
  ret (incr_failed results).

(** One turn of the dispatch loop. *)
Definition process_reminder (now : Z) (row : ReminderRow.t) (results : Results.t)
    : M Results.t :=
  try_catch (deliver_reminder now row results) (fail_reminder row results).

Definition results_details (duration : string) (results : Results.t) : Details :=
  [("duration", JStr duration);
   ("processed", JNum (Results.processed results));
   ("sent", JNum (Results.sent results));
   ("skipped", JNum (Results.skipped results));
   ("failed", JNum (Results.failed results))].

(** The body of the dispatch handler, up to the counts it reports. *)
Definition dispatch : M Results.t :=
  now <- Date_now ;;
  dueReminders <- prisma_scheduledReminder_findMany_due now ;;
  for_of dueReminders (process_reminder now)
         (Results.mk (Z.of_nat (List.length dueReminders)) 0 0 0).

Definition process_reminders_body : M Details :=
  startTime <- Date_now ;;
  results <- dispatch ;;
  duration <- duration_since startTime ;;
  ret (results_details duration results).

Definition process_reminders : M unit :=
  cron_job "process-reminders" process_reminders_body.

(** *** streak-preservation-reminder, '0 10,12,14,16,18,20 * * *' *)

Definition preservation_message (habit : Habit.t) (current_streak : Z) : string :=
  "🔥 Don't lose your " +++ string_of_Z current_streak +++ "-day streak for "
  +++ dq +++ Habit.name habit +++ dq +++ "! Complete it now!".

Definition preservation_reminder (now : Z) (habit : Habit.t) (current_streak : Z)
    : ReminderCreate.t :=
  ReminderCreate.mk (Habit.habit_id habit) (Habit.user_id habit) now
    "STREAK_PRESERVATION" (preservation_message habit current_streak)
    false true
    (Some (Metadata.mk "urgent" current_streak (Habit.name habit)
                       (Habit.color habit) (Habit.icon habit))).

Definition preservation_notification (habit : Habit.t) (current_streak : Z)
    : NotificationData.t :=
  NotificationData.mk (Habit.user_id habit) "Urgent Habit Reminder"
    (preservation_message habit current_streak) REMINDER
    (Some (Habit.habit_id habit)) (Some (habit_url (Habit.habit_id habit))).

Definition preservation_step (now : Z) (habit : HabitRow.t) (remindersCreated : Z) : M Z :=
  match HabitRow.streak habit with
  | [] => ret remindersCreated
  | streak :: _ =>
      match HabitRow.user habit with
      | None => throw (TypeError "null" "onVacation")
      | Some user =>
          if User.onVacation user || negb (User.prefersNotifications user)
          then ret remindersCreated
          else
            let h := HabitRow.habit habit in
            isScheduledToday <- reminderService_isHabitScheduledForDate h now ;;
            if negb isScheduledToday then ret remindersCreated
            else
              isCompletedToday <-
                reminderService_isHabitCompletedForDate
                  (Habit.habit_id h) (Habit.user_id h) now ;;
              inQuietHours <- reminderService_isInQuietHours (Habit.user_id h) now ;;
              if negb isCompletedToday && negb inQuietHours
              then
                recentReminder <-
                  prisma_scheduledReminder_findFirst_since
                    (Habit.habit_id h) (Habit.user_id h) "STREAK_PRESERVATION"
                    (now - 2 * 60 * 60 * 1000) ;;
                match recentReminder with
                | Some _ => ret remindersCreated
                | None =>
                    prisma_scheduledReminder_create
                      (preservation_reminder now h (HabitStreak.current_streak streak)) ;;
                    createNotification
                      (preservation_notification h (HabitStreak.current_streak streak)) ;;
                    ret (remindersCreated + 1)
                end
              else ret remindersCreated
      end
  end.

(** The body of the preservation handler, up to the count it reports. *)
Definition preservation_scan : M (list HabitRow.t * Z) :=
  highValueHabits <- prisma_habit_findMany_active (Some 7) ;;
  now <- Date_now ;;
  remindersCreated <- for_of highValueHabits (preservation_step now) 0 ;;
  ret (highValueHabits, remindersCreated).

Definition streak_preservation_reminder_body : M Details :=
  startTime <- Date_now ;;
  scanned <- preservation_scan ;;
  duration <- duration_since startTime ;;
  ret [("duration", JStr duration);
       ("habitsChecked", JNum (Z.of_nat (List.length (fst scanned))));
       ("remindersCreated", JNum (snd scanned))].

Definition streak_preservation_reminder : M unit :=
  cron_job "streak-preservation-reminder" streak_preservation_reminder_body.

(** *** prepare-next-day-reminders, '0 23 * * *' *)

Definition prepare_next_day_reminders_body : M Details :=
  startTime <- Date_now ;;
  preparedCount <- reminderService_prepareRemindersForNextDay ;;
  duration <- duration_since startTime ;;
  ret [("duration", JStr duration); ("preparedCount", JNum preparedCount)].

Definition prepare_next_day_reminders : M unit :=
  cron_job "prepare-next-day-reminders" prepare_next_day_reminders_body.

(** *** weekly-habit-review, '0 9 * * 0' *)

Definition topHabits_of (completedHabits : list LogGroup.t) (habits : list Habit.t)
    : list TopHabit.t :=
  sort_by_count_desc
    (map (fun habit =>
            TopHabit.mk (Habit.name habit) (count_for completedHabits (Habit.habit_id habit)))
         habits).

Definition totalCompletions_of (completedHabits : list LogGroup.t) : Z :=
  fold_left (fun sum h => sum + LogGroup._count h) completedHabits 0.

Definition weekly_step (user : User.t) (reportsGenerated : Z) : M Z :=
  try_catch
    (today <- Date_now ;;
     let oneWeekAgo := addDays (-7) today in
     completedHabits <- prisma_habitLog_groupBy (User.user_id user) oneWeekAgo today ;;
     let habitIds := map LogGroup.habit_id completedHabits in
     habits <- prisma_habit_findMany_in habitIds ;;
     createWeeklySummaryNotification (User.user_id user)
       (totalCompletions_of completedHabits) (topHabits_of completedHabits habits) ;;
     ret (reportsGenerated + 1))
    (fun error =>
       console_error ("Error generating weekly report for user "
                      +++ string_of_Z (User.user_id user) +++ ": " +++ message error) ;;
       ret reportsGenerated).

Definition weekly_habit_review_body : M Details :=
  startTime <- Date_now ;;
  activeUsers <- prisma_user_findMany_active ;;
  reportsGenerated <- for_of activeUsers weekly_step 0 ;;
  duration <- duration_since startTime ;;
  ret [("duration", JStr duration);
       ("usersProcessed", JNum (Z.of_nat (List.length activeUsers)));
       ("reportsGenerated", JNum reportsGenerated)].

Definition weekly_habit_review : M unit :=
  cron_job "weekly-habit-review" weekly_habit_review_body.

(** *** daily-goal-check, '0 22 * * *' *)

Definition goal_notification (user : User.t) (completedCount : Z) : NotificationData.t :=
  NotificationData.mk (User.user_id user) "Daily Goal Achieved! 🎯"
    ("Congratulations! You've completed " +++ string_of_Z completedCount +++ "/"
     +++ string_of_Z (User.dailyGoal user) +++ " habits today. Keep up the great work!")
    ACHIEVEMENT_UNLOCKED None (Some "/stats").

Definition goal_step (today tomorrow : Z) (user : User.t) (notificationsSent : Z) : M Z :=
  completedCount <- prisma_habitLog_count (User.user_id user) today tomorrow ;;
  if User.dailyGoal user <=? completedCount
  then
    createNotification (goal_notification user completedCount) ;;
    ret (notificationsSent + 1)
  else ret notificationsSent.

Definition daily_goal_check_body : M Details :=
  startTime <- Date_now ;;
  now <- Date_now ;;
  let today := local_midnight (tz_offset env) now in
  let tomorrow := addDays 1 today in
  users <- prisma_user_findMany_goal ;;
  notificationsSent <- for_of users (goal_step today tomorrow) 0 ;;
  duration <- duration_since startTime ;;
  ret [("duration", JStr duration);
       ("usersProcessed", JNum (Z.of_nat (List.length users)));
       ("notificationsSent", JNum notificationsSent)].

Definition daily_goal_check : M unit :=
  cron_job "daily-goal-check" daily_goal_check_body.

(** *** new-user-welcome, '*/30 * * * *' *)

Definition welcome_notification (user : User.t) : NotificationData.t :=
  NotificationData.mk (User.user_id user) "Welcome to HabitPulse! 👋"
    "Start tracking your habits and build positive routines. We're excited to have you here!"
    SYSTEM_MESSAGE None (Some "/dashboard").

Definition welcome_step (user : User.t) (welcomesSent : Z) : M Z :=
  try_catch
    (createNotification (welcome_notification user) ;;
     ret (welcomesSent + 1))
    (fun error =>
       console_error ("Error creating welcome notification for user "
                      +++ string_of_Z (User.user_id user) +++ ": " +++ message error) ;;
       ret welcomesSent).

Definition new_user_welcome_body : M Details :=
  startTime <- Date_now ;;
  now <- Date_now ;;
  let thirtyMinutesAgo := now - 30 * 60 * 1000 in
  newUsers <- prisma_user_findMany_new thirtyMinutesAgo ;;
  welcomesSent <- for_of newUsers welcome_step 0 ;;
  duration <- duration_since startTime ;;
  ret [("duration", JStr duration); ("welcomeNotificationsSent", JNum welcomesSent)].

Definition new_user_welcome : M unit :=
  cron_job "new-user-welcome" new_user_welcome_body.

(** The jobs registered with [cron.schedule]: cron expression, job name and
    the body its handler wraps. *)
Definition jobs : list (string * string * M Details) :=
  [("0 0 * * *", "daily-streak-update", daily_streak_update_body);
   ("5 0 * * *", "streak-milestone-check", streak_milestone_check_body);
   ("0 9 * * *", "streak-warning-check", streak_warning_check_body);
   ("*/15 * * * *", "process-reminders", process_reminders_body);
   ("0 10,12,14,16,18,20 * * *", "streak-preservation-reminder",
    streak_preservation_reminder_body);
   ("0 23 * * *", "prepare-next-day-reminders", prepare_next_day_reminders_body);
   ("0 9 * * 0", "weekly-habit-review", weekly_habit_review_body);
   ("0 22 * * *", "daily-goal-check", daily_goal_check_body);
   ("*/30 * * * *", "new-user-welcome", new_user_welcome_body)].

(** The handler [cron.schedule] is given for a job. *)
Definition handler (j : string * string * M Details) : M unit :=
  cron_job (snd (fst j)) (snd j).

End Cron.

(** ** The exported test helpers

    [module.exports] of cron.js: six functions that hand one object to
    [createNotification], and [testHabitReminder]. *)

(** The values of the [NotificationType] enum of the schema
    ([CREATE TYPE "NotificationType" AS ENUM (...)]), by name.  The jobs
    write their types as members of [NotificationType]; the test helpers
    write strings, some of which name no value of the enum. *)
Definition NotificationType_of_string (s : string) : option NotificationType :=
  if String.eqb s "STREAK_MILESTONE" then Some STREAK_MILESTONE
  else if String.eqb s "ACHIEVEMENT_UNLOCKED" then Some ACHIEVEMENT_UNLOCKED
  else if String.eqb s "FRIEND_REQUEST" then Some FRIEND_REQUEST
  else if String.eqb s "CHALLENGE_INVITE" then Some CHALLENGE_INVITE
  else if String.eqb s "REMINDER" then Some REMINDER
  else if String.eqb s "SYSTEM_MESSAGE" then Some SYSTEM_MESSAGE
  else if String.eqb s "BLOG_COMMENT" then Some BLOG_COMMENT
  else if String.eqb s "NEW_MESSAGE" then Some NEW_MESSAGE
  else if String.eqb s "GROUP_INVITATION" then Some GROUP_INVITATION
  else if String.eqb s "POINTS_AWARDED" then Some POINTS_AWARDED
  else None.

(** The object a test helper hands to [createNotification], with [type] as
    the helper wrote it. *)
Module TestNotification.
Record t := mk {
  user_id : Z;
  title : string;
  content : string;
  type : string;
  related_id : option Z;
  action_url : option string
}.
End TestNotification.

(** What [testHabitReminder] resolves to. *)
Module TestResult.
Record t := mk {
  success : bool;
  message : string
}.
End TestResult.

Definition motivationalQuotes : list string :=
  ["Small steps lead to big changes.";
   "Consistency is the key to success.";
   "Every day is a new opportunity to improve.";
   "Your habits shape your future.";
   "Progress, not perfection."].

(** [new Error(`Habit with ID ${habitId} not found`)] *)
Definition HabitNotFound (habitId : Z) : Err :=
  mkErr ("Habit with ID " +++ string_of_Z habitId +++ " not found") "Error".

(** [prisma.habit.findUnique({ where: { habit_id } })].  No job makes this
    call, so whether it rejects is an argument of the lookup and not one more
    question to [rejects], and the trace does not record it; it answers from
    the store and writes nothing. *)
Definition prisma_habit_findUnique (rejected : option Err) (habit_id : Z)
    : M (option Habit.t) := fun w =>
  match rejected with
  | Some e => (Throw e, w)
  | None => (Ok (find_habit (db w) habit_id), w)
  end.

Section TestHelpers.

Variable env : Env.

(** The error [prisma.notification.create] rejects with when [type] is not a
    value of the enum.  The arguments are checked against the schema before
    a query is sent, so such a create writes nothing and is not one of the
    calls the environment decides on: all it leaves is the line
    [createNotification] logs. *)
Variable invalid_type : string -> Err.

(** [createNotification] on an object whose [type] is a string. *)
Definition createNotification_of (data : TestNotification.t) : M (option Notification.t) :=
  match NotificationType_of_string (TestNotification.type data) with
  | Some type =>
      createNotification env
        (NotificationData.mk
           (TestNotification.user_id data) (TestNotification.title data)
           (TestNotification.content data) type
           (TestNotification.related_id data) (TestNotification.action_url data))
  | None =>
      console_error ("Error creating notification: "
                     +++ message (invalid_type (TestNotification.type data))) ;;
      ret None
  end.

Definition testStreakMilestoneNotification (userId : Z) (habitName : string)
    (milestone habitId : Z) : M unit :=
  createNotification_of
    (TestNotification.mk userId
       (string_of_Z milestone +++ "-Day Streak! 🔥")
       ("Amazing! You've maintained your " +++ dq +++ habitName +++ dq
        +++ " habit for " +++ string_of_Z milestone +++ " days in a row!")
       "STREAK_MILESTONE" (Some habitId) (Some (habit_url habitId))) ;;
  ret tt.

Definition testFriendRequestNotification (userId : Z) (senderName : string)
    (requestId : Z) : M unit :=
  createNotification_of
    (TestNotification.mk userId "New Friend Request"
       (senderName +++ " sent you a friend request")
       "SOCIAL_INTERACTION" (Some requestId)
       (Some ("/friends/requests/" +++ string_of_Z requestId))) ;;
  ret tt.

Definition testChallengeInviteNotification (userId : Z) (challengeName : string)
    (challengerId challengeId : Z) : M unit :=
  createNotification_of
    (TestNotification.mk userId "Habit Challenge Invite"
       ("You've been invited to join the " +++ dq +++ challengeName +++ dq
        +++ " challenge!")
       "CHALLENGE_INVITE" (Some challengeId)
       (Some ("/challenges/" +++ string_of_Z challengeId))) ;;
  ret tt.

(** [drawn] is the index [Math.floor(Math.random() * motivationalQuotes.length)]
    comes to; it is below the length of the list. *)
Definition testQuoteOfTheDayNotification (drawn : nat) (userId : Z) : M unit :=
  let randomQuote :=
    nth (Nat.modulo drawn (List.length motivationalQuotes)) motivationalQuotes "" in
  createNotification_of
    (TestNotification.mk userId "Daily Motivation 💡" randomQuote
       "MOTIVATION_QUOTE" None (Some "/inspiration")) ;;
  ret tt.

Definition testGoalReminderNotification (userId : Z) (habitName : string)
    (habitId : Z) : M unit :=
  createNotification_of
    (TestNotification.mk userId "Stay on Track 🎯"
       ("Don't forget to work on your " +++ dq +++ habitName +++ dq +++ " habit today!")
       "GOAL_REMINDER" (Some habitId) (Some (habit_url habitId))) ;;
  ret tt.

Definition testProgressUpdateNotification (userId : Z) (habitName : string)
    (progressPercentage habitId : Z) : M unit :=
  let '(progressMessage, emoji) :=
    if progressPercentage <? 25 then ("You're just getting started!", "🌱")
    else if progressPercentage <? 50 then ("Keep building momentum!", "🚀")
    else if progressPercentage <? 75 then ("You're making great progress!", "🔥")
    else ("Almost there! Stay consistent!", "🏆") in
  createNotification_of
    (TestNotification.mk userId
       (habitName +++ " Progress Update " +++ emoji)
       (progressMessage +++ " You're " +++ string_of_Z progressPercentage
        +++ "% towards your goal.")
       "PROGRESS_UPDATE" (Some habitId) (Some (habit_url habitId +++ "/progress"))) ;;
  ret tt.

(** [message] is [None] when the caller passed none. *)
Definition testHabitReminder (rejected : option Err) (userId habitId : Z)
    (message : option string) : M TestResult.t :=
  habit <- prisma_habit_findUnique rejected habitId ;;
  match habit with
  | None => throw (HabitNotFound habitId)
  | Some habit =>
      let reminderMessage :=
        match or_null_string message with
        | Some m => m
        | None => "Time to work on your habit: " +++ Habit.name habit +++ "!"
        end in
      createNotification_of
        (TestNotification.mk userId ("Reminder: " +++ Habit.name habit)
           reminderMessage "REMINDER" (Some habitId) (Some (habit_url habitId))) ;;
      ret (TestResult.mk true "Test reminder sent")
  end.

End TestHelpers.

(** * Vocabulary of the properties *)

(** ** The tables and the messages, written out

    The rules below are stated on the tables themselves and the messages
    field by field, apart from the queries and the builders of cron.js; the
    properties then say that the code selects by these rules and sends these
    messages. *)

(** The row of the User table with the key [uid]. *)
Definition owner_of (d : DB) (uid : Z) : option User.t :=
  find (fun u => User.user_id u =? uid) (users d).

(** The row of the Habit table with the key [hid]. *)
Definition habit_of (d : DB) (hid : Z) : option Habit.t :=
  find (fun h => Habit.habit_id h =? hid) (habits d).

(** The first streak row of the habit [hid] whose current streak is above
    [n]. *)
Definition streak_above (n : Z) (d : DB) (hid : Z) : option HabitStreak.t :=
  find (fun s => (HabitStreak.habit_id s =? hid) && (n <? HabitStreak.current_streak s))
       (streaks d).

(** The first streak row of the habit [hid]. *)
Definition streak_row (d : DB) (hid : Z) : option HabitStreak.t :=
  find (fun s => HabitStreak.habit_id s =? hid) (streaks d).

(** The current streak of a streak row, 0 when there is none. *)
Definition length_of (s : option HabitStreak.t) : Z :=
  match s with
  | Some s => HabitStreak.current_streak s
  | None => 0
  end.

(** The [related_id] stored for an id: [null] for 0. *)
Definition nonzero (z : Z) : option Z := if z =? 0 then None else Some z.

(** The milestone notification of a habit at a streak of [n] days. *)
Definition milestone_notice (h : Habit.t) (n : Z) : NotificationCreate.t :=
  NotificationCreate.mk (Habit.user_id h)
    (string_of_Z n +++ "-Day Streak! 🔥")
    ("Amazing! You've maintained your " +++ dq +++ Habit.name h +++ dq
     +++ " habit for " +++ string_of_Z n +++ " days in a row! Keep going!")
    STREAK_MILESTONE (nonzero (Habit.habit_id h))
    (Some ("/habits/" +++ string_of_Z (Habit.habit_id h))) false.

(** The warning of a habit whose streak of [n] days is at risk. *)
Definition at_risk_notice (h : Habit.t) (n : Z) : NotificationCreate.t :=
  NotificationCreate.mk (Habit.user_id h) "Streak at Risk!"
    ("Your " +++ string_of_Z n +++ "-day streak for " +++ dq +++ Habit.name h +++ dq
     +++ " will be reset if you don't complete it today!")
    STREAK_MILESTONE (nonzero (Habit.habit_id h))
    (Some ("/habits/" +++ string_of_Z (Habit.habit_id h))) false.

(** The STREAK_WARNING reminder that goes with it, scheduled at [t]. *)
Definition at_risk_reminder (h : Habit.t) (n t : Z) : ReminderCreate.t :=
  ReminderCreate.mk (Habit.habit_id h) (Habit.user_id h) t "STREAK_WARNING"
    ("⚠️ STREAK ALERT: Your " +++ string_of_Z n +++ "-day streak for "
     +++ dq +++ Habit.name h +++ dq +++ " will be reset tonight if not completed!")
    false true
    (Some (Metadata.mk "high" n (Habit.name h) None None)).

(** The text of a preservation reminder and of its notification. *)
Definition urgent_text (h : Habit.t) (n : Z) : string :=
  "🔥 Don't lose your " +++ string_of_Z n +++ "-day streak for "
  +++ dq +++ Habit.name h +++ dq +++ "! Complete it now!".

(** The STREAK_PRESERVATION reminder of a habit, scheduled at [now]. *)
Definition urgent_reminder (now : Z) (h : Habit.t) (n : Z) : ReminderCreate.t :=
  ReminderCreate.mk (Habit.habit_id h) (Habit.user_id h) now "STREAK_PRESERVATION"
    (urgent_text h n) false true
    (Some (Metadata.mk "urgent" n (Habit.name h) (Habit.color h) (Habit.icon h))).

(** The 'Urgent Habit Reminder' notification that goes with it. *)
Definition urgent_notice (h : Habit.t) (n : Z) : NotificationCreate.t :=
  NotificationCreate.mk (Habit.user_id h) "Urgent Habit Reminder" (urgent_text h n)
    REMINDER (nonzero (Habit.habit_id h))
    (Some ("/habits/" +++ string_of_Z (Habit.habit_id h))) false.

(** The congratulation of a user who completed [count] habits today. *)
Definition goal_notice (u : User.t) (count : Z) : NotificationCreate.t :=
  NotificationCreate.mk (User.user_id u) "Daily Goal Achieved! 🎯"
    ("Congratulations! You've completed " +++ string_of_Z count +++ "/"
     +++ string_of_Z (User.dailyGoal u) +++ " habits today. Keep up the great work!")
    ACHIEVEMENT_UNLOCKED None (Some "/stats") false.

(** The title of the notification of a reminder: it names the habit when
    the habit row is there. *)
Definition reminder_title (d : DB) (r : ScheduledReminder.t) : string :=
  match habit_of d (ScheduledReminder.habit_id r) with
  | Some h => "Reminder: " +++ Habit.name h
  | None => "Habit Reminder"
  end.

(** The notification of a dispatched reminder. *)
Definition reminder_notice (d : DB) (r : ScheduledReminder.t) : NotificationCreate.t :=
  NotificationCreate.mk (ScheduledReminder.user_id r) (reminder_title d r)
    (ScheduledReminder.message r) REMINDER
    (nonzero (ScheduledReminder.habit_id r))
    (Some ("/habits/" +++ string_of_Z (ScheduledReminder.habit_id r))) false.

(** Its push: to the owner, with the same title and text; the
    [notificationId] it carries is [undefined]. *)
Definition reminder_push (d : DB) (r : ScheduledReminder.t) : Call :=
  sendToUser (ScheduledReminder.user_id r) (reminder_title d r)
    (ScheduledReminder.message r)
    (PushData.mk REMINDER (Some (ScheduledReminder.habit_id r))
       (Some ("/habits/" +++ string_of_Z (ScheduledReminder.habit_id r))) None).

(** ** Reading a run *)

(** The events a run added to the trace. *)
Definition events_since (w w' : World) : list Event :=
  skipn (List.length (trace w)) (trace w').

(** The [prisma.notification.create] calls in a run of events: every one is
    an invocation of [createNotification]. *)
Definition notification_attempts (evs : list Event) : list NotificationCreate.t :=
  flat_map (fun e => match e with
                     | EvCall (notification_create data) _ => [data]
                     | _ => []
                     end) evs.

(** The [prisma.scheduledReminder.create] calls in a run of events. *)
Definition reminder_attempts (evs : list Event) : list ReminderCreate.t :=
  flat_map (fun e => match e with
                     | EvCall (scheduledReminder_create data) _ => [data]
                     | _ => []
                     end) evs.

(** The lines [logJobStatus] printed in a run of events. *)
Definition job_lines (evs : list Event) : list JobLog.t :=
  flat_map (fun e => match e with
                     | EvJobStatus l => [l]
                     | _ => []
                     end) evs.

(** The [data] object [createNotification] builds from its argument. *)
Definition create_data (data : NotificationData.t) : NotificationCreate.t :=
  NotificationCreate.mk
    (NotificationData.user_id data) (NotificationData.title data)
    (NotificationData.content data) (NotificationData.type data)
    (or_null_Z (NotificationData.related_id data))
    (or_null_string (NotificationData.action_url data))
    false.

Definition push_data (data : NotificationData.t) (n : Notification.t) : PushData.t :=
  PushData.mk (NotificationData.type data) (NotificationData.related_id data)
              (NotificationData.action_url data) (Notification.id n).

Definition push_call (data : NotificationData.t) (n : Notification.t) : Call :=
  sendToUser (NotificationData.user_id data) (NotificationData.title data)
             (NotificationData.content data) (push_data data n).

Definition after_create (data : NotificationData.t) (w : World) : World :=
  set_db (snd (insert_notification (db w) (create_data data)))
         (record (EvCall (notification_create (create_data data)) None) w).

Definition created (data : NotificationData.t) (w : World) : Notification.t :=
  new_notification (notification_seq (db w)) (create_data data).

(** ** Notification-free computations and job lines *)

(** [quiet w w']: from [w] to [w'] the clock did not move and nothing was
    printed by [logJobStatus]. *)
Definition quiet (w w' : World) : Prop :=
  wall w' = wall w /\
  exists evs, trace w' = trace w ++ evs /\ job_lines evs = [].

(** A computation that never calls [logJobStatus]. *)
Definition silent {A} (m : M A) : Prop := forall w, quiet w (exec m w).

(** What a handler returns when its body returns [P]-details. *)
Definition returns {A} (P : A -> Prop) (m : M A) : Prop :=
  forall w a, outcome m w = Ok a -> P a.

(** The details of a 'completed' line start with the duration. *)
Definition timed (details : Details) : Prop :=
  exists d rest, details = ("duration", JStr d) :: rest.

Definition started_line (name : string) (t : Z) : JobLog.t :=
  JobLog.mk t name "started" (statusColor "started") [].

(** The line a handler prints last: 'completed' with the body's details, or
    'failed' with the message and stack of what the body threw. *)
Definition terminal_line (name : string) (t : Z) (o : Outcome Details) : JobLog.t :=
  match o with
  | Ok details => JobLog.mk t name "completed" (statusColor "completed") details
  | Throw e =>
      JobLog.mk t name "failed" (statusColor "failed")
        [("error", JStr (message e)); ("stack", JStr (stack e))]
  end.


(** The tables no notification touches. *)
Definition same_base (w w' : World) : Prop :=
  wall w' = wall w /\
  users (db w') = users (db w) /\
  habits (db w') = habits (db w) /\
  streaks (db w') = streaks (db w) /\
  habitLogs (db w') = habitLogs (db w).

(** One call of [createNotification], summed up: it resolves, makes exactly
    one insert attempt, and adds at most its own row. *)
Definition notified (data : NotificationData.t) (r : option Notification.t)
    (w w' : World) : Prop :=
  same_base w w' /\
  reminders (db w') = reminders (db w) /\
  reminder_seq (db w') = reminder_seq (db w) /\
  (exists evs, trace w' = trace w ++ evs /\
               notification_attempts evs = [create_data data]) /\
  match r with
  | Some n => n = created data w /\
              notifications (db w') = notifications (db w) ++ [n]
  | None => notifications (db w') = notifications (db w) \/
            notifications (db w') = notifications (db w) ++ [created data w]
  end.

(** ** The milestone scan *)

(** Every habit's owner is a row of the User table (the foreign key
    [Habit_user_id_fkey]). *)
Definition owners_present (d : DB) : Prop :=
  forall h, In h (habits d) -> find_user d (Habit.user_id h) <> None.

(** [habit.streak[0]] *)
Definition first_streak (d : DB) (h : Habit.t) : option HabitStreak.t :=
  hd_error (streaks_of d (Habit.habit_id h) None).

(** The rule of the claim, on the tables: the habit is active, its owner
    prefers notifications, and its first streak row has a positive current
    streak that is one of the nine milestones. *)
Definition milestone_reached (d : DB) (h : Habit.t) : bool :=
  Habit.is_active h &&
  match owner_of d (Habit.user_id h) with
  | Some u => User.prefersNotifications u
  | None => false
  end &&
  match streak_row d (Habit.habit_id h) with
  | Some s =>
      (0 <? HabitStreak.current_streak s) &&
      existsb (Z.eqb (HabitStreak.current_streak s)) [7; 14; 21; 30; 60; 90; 100; 180; 365]
  | None => false
  end.

(** The same rule, read off the row the scan's query joins. *)
Definition milestone_due (d : DB) (h : Habit.t) : bool :=
  Habit.is_active h &&
  match find_user d (Habit.user_id h) with
  | Some u => User.prefersNotifications u
  | None => false
  end &&
  match first_streak d h with
  | Some s => (0 <? HabitStreak.current_streak s) &&
              includes [7; 14; 21; 30; 60; 90; 100; 180; 365] (HabitStreak.current_streak s)
  | None => false
  end.

Definition milestone_attempt (d : DB) (h : Habit.t) : NotificationCreate.t :=
  create_data
    (milestone_notification h
       match first_streak d h with
       | Some s => HabitStreak.current_streak s
       | None => 0
       end).

(** What one turn of the milestone loop attempts, read off the joined row. *)
Definition milestone_emit (row : HabitRow.t) : list NotificationCreate.t :=
  match HabitRow.streak row, HabitRow.user row with
  | s :: _, Some u =>
      if User.prefersNotifications u &&
         ((0 <? HabitStreak.current_streak s) &&
          includes milestones (HabitStreak.current_streak s))
      then [create_data (milestone_notification (HabitRow.habit row)
                                                (HabitStreak.current_streak s))]
      else []
  | _, _ => []
  end.

Definition row_has_owner (row : HabitRow.t) : Prop := HabitRow.user row <> None.

(** ** The daily-goal scan *)

(** The user's completed logs dated today, as the scan counts them. *)
Definition completed_today (env : Env) (w : World) (u : User.t) : Z :=
  q_habitLog_count (db w) (User.user_id u)
    (local_midnight (tz_offset env) (wall w))
    (addDays 1 (local_midnight (tz_offset env) (wall w))).

(** The log is a completed log of the user on the local day of [now]. *)
Definition completed_on_day_of (offset now uid : Z) (l : HabitLog.t) : bool :=
  (HabitLog.user_id l =? uid) && HabitLog.completed l &&
  (local_midnight offset (HabitLog.completed_at l) =? local_midnight offset now).

(** The users the claim has the scan consider: notifications on, not on
    vacation, a daily goal above 0. *)
Definition considered_for_goal (u : User.t) : bool :=
  User.prefersNotifications u && negb (User.onVacation u) && (0 <? User.dailyGoal u).

(** The number of the user's completed logs dated today. *)
Definition completions_today (env : Env) (w : World) (u : User.t) : Z :=
  Z.of_nat (List.length
              (filter (completed_on_day_of (tz_offset env) (wall w) (User.user_id u))
                      (habitLogs (db w)))).

(** The rule of the claim: the user is considered and the count is at least
    the goal. *)
Definition goal_reached (env : Env) (w : World) (u : User.t) : bool :=
  considered_for_goal u && (User.dailyGoal u <=? completions_today env w u).

(** The users the scan congratulates, read off its queries: of those the
    first query returns, the ones whose count reaches the goal. *)
Definition goal_achievers (env : Env) (w : World) : list User.t :=
  filter (fun u => User.dailyGoal u <=? completed_today env w u)
         (q_user_findMany_goal (db w)).

Definition goal_attempt (env : Env) (w : World) (u : User.t) : NotificationCreate.t :=
  create_data (goal_notification u (completed_today env w u)).

Definition goal_emit (env : Env) (w : World) (u : User.t) : list NotificationCreate.t :=
  if User.dailyGoal u <=? completed_today env w u then [goal_attempt env w u] else [].

Definition count_never_rejected (env : Env) : Prop :=
  forall n uid from to, rejects env n (habitLog_count uid from to) = None.

(** ** Welcome messages *)

(** How many welcome notifications a user has in the table. *)
Definition welcomes (d : DB) (uid : Z) : nat :=
  List.length (filter (is_welcome_of uid) (notifications d)).

Definition welcome_attempt (u : User.t) : NotificationCreate.t :=
  create_data (welcome_notification u).

(** Successive firings of the job, each with its own environment and
    wall-clock time. *)
Fixpoint welcome_runs (runs : list (Env * Z)) (w : World) : World :=
  match runs with
  | [] => w
  | (env, t) :: rest => welcome_runs rest (exec (new_user_welcome env) (set_wall t w))
  end.

Definition is_user (uid : Z) (u : User.t) : bool := User.user_id u =? uid.

(** ** The at-risk warning scan *)

Definition scheduled_never_rejected (env : Env) : Prop :=
  forall n h date, rejects env n (isHabitScheduledForDate h date) = None.

Definition completed_never_rejected (env : Env) : Prop :=
  forall n hid uid date, rejects env n (isHabitCompletedForDate hid uid date) = None.

(** The rule of the warning scan, on the tables: the habit is active, has a
    streak row with a current streak above 2, its owner is not on vacation,
    it is scheduled today and not completed today. *)
Definition at_risk (env : Env) (w : World) (h : Habit.t) : bool :=
  Habit.is_active h &&
  match streak_above 2 (db w) (Habit.habit_id h) with
  | Some _ => true
  | None => false
  end &&
  match owner_of (db w) (Habit.user_id h) with
  | Some u => negb (User.onVacation u)
  | None => false
  end &&
  svc_isHabitScheduledForDate env h (wall w) &&
  negb (svc_isHabitCompletedForDate env (Habit.habit_id h) (Habit.user_id h) (wall w)).

(** The streak the warning of a habit names. *)
Definition risk_streak (w : World) (h : Habit.t) : Z :=
  length_of (streak_above 2 (db w) (Habit.habit_id h)).

(** 20:00 local time on the local day of [now] (with the milliseconds of
    [now]), for a time zone [offset] milliseconds ahead of UTC. *)
Definition eight_pm (offset now : Z) : Z :=
  now - (now + offset) mod (24 * 60 * 60 * 1000) + 20 * 60 * 60 * 1000
  + (now + offset) mod 1000.

(** The same rule, read off the row the scan's query joins. *)
Definition warning_due (env : Env) (w : World) (h : Habit.t) : bool :=
  Habit.is_active h &&
  match streaks_of (db w) (Habit.habit_id h) (Some 2) with
  | [] => false
  | _ :: _ => true
  end &&
  match find_user (db w) (Habit.user_id h) with
  | Some u => negb (User.onVacation u)
  | None => false
  end &&
  svc_isHabitScheduledForDate env h (wall w) &&
  negb (svc_isHabitCompletedForDate env (Habit.habit_id h) (Habit.user_id h) (wall w)).

Definition warning_attempt (w : World) (h : Habit.t) : NotificationCreate.t :=
  create_data
    (streak_warning_notification (Habit.user_id h) (Habit.name h)
       match streaks_of (db w) (Habit.habit_id h) (Some 2) with
       | s :: _ => HabitStreak.current_streak s
       | [] => 0
       end
       (Habit.habit_id h)).

Definition warning_emit (env : Env) (now : Z) (row : HabitRow.t)
    : list NotificationCreate.t :=
  let h := HabitRow.habit row in
  match HabitRow.streak row, HabitRow.user row with
  | s :: _, Some u =>
      if negb (User.onVacation u) &&
         svc_isHabitScheduledForDate env h now &&
         negb (svc_isHabitCompletedForDate env (Habit.habit_id h) (Habit.user_id h) now)
      then [create_data (streak_warning_notification (Habit.user_id h) (Habit.name h)
                           (HabitStreak.current_streak s) (Habit.habit_id h))]
      else []
  | _, _ => []
  end.

(** The scan runs before 20:00 local time. *)
Definition before_8pm (env : Env) (now : Z) : bool :=
  now <? setHours_20 (tz_offset env) now.

(** The STREAK_WARNING reminder for 20:00 that goes with a warning. *)
Definition warning_reminder (env : Env) (w : World) (h : Habit.t) : ReminderCreate.t :=
  streak_warning_reminder (Habit.user_id h) (Habit.name h)
    match streaks_of (db w) (Habit.habit_id h) (Some 2) with
    | s :: _ => HabitStreak.current_streak s
    | [] => 0
    end
    (Habit.habit_id h) (setHours_20 (tz_offset env) (wall w)).

Definition warning_remind (env : Env) (now : Z) (row : HabitRow.t)
    : list ReminderCreate.t :=
  let h := HabitRow.habit row in
  match HabitRow.streak row, HabitRow.user row with
  | s :: _, Some u =>
      if negb (User.onVacation u) &&
         svc_isHabitScheduledForDate env h now &&
         negb (svc_isHabitCompletedForDate env (Habit.habit_id h) (Habit.user_id h) now) &&
         before_8pm env now
      then [streak_warning_reminder (Habit.user_id h) (Habit.name h)
              (HabitStreak.current_streak s) (Habit.habit_id h)
              (setHours_20 (tz_offset env) now)]
      else []
  | _, _ => []
  end.

(** The same environment with another quiet-hours answer. *)
Definition with_quiet_hours (q : Z -> Z -> bool) (env : Env) : Env :=
  mkEnv (rejects env) (svc_isHabitScheduledForDate env) (svc_isHabitCompletedForDate env)
        q (ctl_processDailyStreakUpdates env) (svc_prepareRemindersForNextDay env)
        (tz_offset env).

(** ** The streak-preservation scan *)

Definition TWO_HOURS : Z := 2 * 60 * 60 * 1000.

(** A STREAK_PRESERVATION reminder of the pair (habit, user). *)
Definition is_preservation_of (hid uid : Z) (r : ScheduledReminder.t) : bool :=
  (ScheduledReminder.habit_id r =? hid) &&
  (ScheduledReminder.user_id r =? uid) &&
  String.eqb (ScheduledReminder.reminder_type r) "STREAK_PRESERVATION".

Definition preservations (d : DB) (hid uid : Z) : nat :=
  List.length (filter (is_preservation_of hid uid) (reminders d)).

(** The dedup query finds a row of the pair scheduled in the last two hours. *)
Definition recently_preserved (d : DB) (now hid uid : Z) : bool :=
  existsb (matches_since hid uid "STREAK_PRESERVATION" (now - TWO_HOURS)) (reminders d).

(** Two rows of one pair are more than two hours apart. *)
Definition apart (r1 r2 : ScheduledReminder.t) : Prop :=
  forall hid uid,
    is_preservation_of hid uid r1 = true ->
    is_preservation_of hid uid r2 = true ->
    TWO_HOURS < Z.abs (ScheduledReminder.scheduled_time r1 - ScheduledReminder.scheduled_time r2).

(** No two STREAK_PRESERVATION rows of one pair lie within two hours. *)
Definition spaced (d : DB) : Prop := ForallOrdPairs apart (reminders d).

(** What one scan at [now] may add to the rows [old]. *)
Definition limited (now : Z) (old added : list ScheduledReminder.t) : Prop :=
  Forall (fun r => ScheduledReminder.reminder_type r = "STREAK_PRESERVATION" /\
                   ScheduledReminder.scheduled_time r = now) added /\
  forall hid uid,
    (List.length (filter (is_preservation_of hid uid) added) <= 1)%nat /\
    (existsb (matches_since hid uid "STREAK_PRESERVATION" (now - TWO_HOURS)) old = true ->
     filter (is_preservation_of hid uid) added = []).

Definition adds_limited (now : Z) (w0 w : World) : Prop :=
  exists added,
    reminders (db w) = reminders (db w0) ++ added /\
    limited now (reminders (db w0)) added.

(** ** The weekly digest *)

(** Larger counts first. *)
Definition by_count_desc (a b : TopHabit.t) : Prop := TopHabit.count b <= TopHabit.count a.

(** [groupBy] counts: a habit's group holds the number of its logs. *)
Definition logs_of (hid : Z) (logs : list HabitLog.t) : Z :=
  Z.of_nat (List.length (filter (fun l => HabitLog.habit_id l =? hid) logs)).

(** A completed log of the user in the seven days up to [now], both ends
    included. *)
Definition in_trailing_week (now uid : Z) (l : HabitLog.t) : bool :=
  (HabitLog.user_id l =? uid) && HabitLog.completed l &&
  (now - 7 * (24 * 60 * 60 * 1000) <=? HabitLog.completed_at l) &&
  (HabitLog.completed_at l <=? now).

(** The user's completed logs of the trailing seven days. *)
Definition week_logs (w : World) (u : User.t) : list HabitLog.t :=
  filter (in_trailing_week (wall w) (User.user_id u)) (habitLogs (db w)).

(** The habits the user has such a log of, each with the number of those
    logs, in table order. *)
Definition week_entries (w : World) (u : User.t) : list TopHabit.t :=
  map (fun h => TopHabit.mk (Habit.name h) (logs_of (Habit.habit_id h) (week_logs w u)))
      (filter (fun h => 0 <? logs_of (Habit.habit_id h) (week_logs w u)) (habits (db w))).

(** What the summary says of the top habits: the first three, each with its
    count. *)
Definition top_three_text (top : list TopHabit.t) : string :=
  match top with
  | [] => "No habits completed this week."
  | _ =>
      "Top habits: " +++
      join_comma
        (map (fun h => TopHabit.name h +++ " (" +++ string_of_Z (TopHabit.count h) +++ " times)")
             (firstn 3 top))
  end.

(** A weekly summary of the user [uid] for [total] completions and the top
    habits [top]: a SYSTEM_MESSAGE 'Weekly Summary ...' that links to the
    statistics and whose text starts with the total and the top habits. *)
Definition is_weekly_summary (uid total : Z) (top : list TopHabit.t)
    (c : NotificationCreate.t) : Prop :=
  NotificationCreate.user_id c = uid /\
  NotificationCreate.type c = SYSTEM_MESSAGE /\
  String.prefix "Weekly Summary " (NotificationCreate.title c) = true /\
  String.prefix ("You completed " +++ string_of_Z total +++ " habits this week! "
                 +++ top_three_text top)
                (NotificationCreate.content c) = true /\
  NotificationCreate.related_id c = None /\
  NotificationCreate.action_url c = Some "/stats" /\
  NotificationCreate.is_read c = false.

Definition week_groups (w : World) (u : User.t) : list LogGroup.t :=
  q_habitLog_groupBy (db w) (User.user_id u) (addDays (-7) (wall w)) (wall w).

Definition week_topHabits (w : World) (u : User.t) : list TopHabit.t :=
  topHabits_of (week_groups w u)
    (q_habit_findMany_in (db w) (map LogGroup.habit_id (week_groups w u))).

(** The summary the digest builds for a user on world [w]. *)
Definition weekly_attempt (w : World) (u : User.t) : NotificationCreate.t :=
  create_data
    (weekly_summary (User.user_id u) (totalCompletions_of (week_groups w u))
                    (week_topHabits w u)).

Definition weekly_error_line (u : User.t) (e : Err) : Event :=
  EvConsoleError ("Error generating weekly report for user "
                  +++ string_of_Z (User.user_id u) +++ ": " +++ message e).

Definition weekly_queries_never_rejected (env : Env) : Prop :=
  (forall n uid from to, rejects env n (habitLog_groupBy uid from to) = None) /\
  (forall n ids, rejects env n (habit_findMany_in ids) = None).

(** The users picked by a list of flags. *)
Fixpoint pick {A} (flags : list bool) (xs : list A) : list A :=
  match flags, xs with
  | true :: fs, x :: rest => x :: pick fs rest
  | false :: fs, _ :: rest => pick fs rest
  | _, _ => []
  end.

Fixpoint count_true (flags : list bool) : Z :=
  match flags with
  | [] => 0
  | true :: fs => 1 + count_true fs
  | false :: fs => count_true fs
  end.

(** ** The dispatch loop *)

(** What one turn of the dispatch loop decides for its reminder. *)
Inductive Verdict :=
| Skipped (reason : string)
| Sent
| Failed (reason : string).

(** The [data] a verdict is recorded with. *)
Definition verdict_update (now : Z) (v : Verdict) : ReminderUpdate.t :=
  match v with
  | Skipped reason => mark_skipped now reason
  | Sent => mark_sent now None
  | Failed reason => mark_failed reason
  end.

Definition tally_one (v : Verdict) (r : Results.t) : Results.t :=
  match v with
  | Skipped _ => incr_skipped r
  | Sent => incr_sent r
  | Failed _ => incr_failed r
  end.

Definition tally (vs : list Verdict) (r : Results.t) : Results.t :=
  fold_left (fun r v => tally_one v r) vs r.

(** The owner has disabled notifications or is on vacation. *)
Definition blocked (u : User.t) : bool :=
  negb (User.prefersNotifications u) || User.onVacation u.

Definition completed_now (env : Env) (now : Z) (row : ReminderRow.t) : bool :=
  svc_isHabitCompletedForDate env
    (ScheduledReminder.habit_id (ReminderRow.reminder row))
    (ScheduledReminder.user_id (ReminderRow.reminder row)) now.

Definition failed_update_never_rejected (env : Env) : Prop :=
  forall n id reason, rejects env n (scheduledReminder_update id (mark_failed reason)) = None.

Definition never_rejects (env : Env) : Prop := forall n c, rejects env n c = None.

Definition row_id (row : ReminderRow.t) : Z :=
  ScheduledReminder.scheduled_reminder_id (ReminderRow.reminder row).

Definition notifications_grow (w w' : World) : Prop :=
  exists added, notifications (db w') = notifications (db w) ++ added.

Definition is_sent_verdict (v : Verdict) : bool :=
  match v with Sent => true | _ => false end.
Definition is_skipped_verdict (v : Verdict) : bool :=
  match v with Skipped _ => true | _ => false end.
Definition is_failed_verdict (v : Verdict) : bool :=
  match v with Failed _ => true | _ => false end.

Definition how_many (p : Verdict -> bool) (vs : list Verdict) : Z :=
  Z.of_nat (List.length (filter p vs)).

(** The reminder is in the due set of a run at [now]: scheduled at or
    before [now], not sent, prepared. *)
Definition in_due_set (now : Z) (r : ScheduledReminder.t) : bool :=
  (ScheduledReminder.scheduled_time r <=? now) &&
  negb (ScheduledReminder.is_sent r) &&
  ScheduledReminder.is_prepared r.

(** The row with its outcome columns set. *)
Definition with_outcome (is_sent : bool) (actual_send_time : option Z)
    (send_status failure_reason : option string) (r : ScheduledReminder.t)
    : ScheduledReminder.t :=
  ScheduledReminder.mk
    (ScheduledReminder.scheduled_reminder_id r)
    (ScheduledReminder.habit_id r) (ScheduledReminder.user_id r)
    (ScheduledReminder.scheduled_time r) (ScheduledReminder.reminder_type r)
    (ScheduledReminder.message r)
    is_sent (ScheduledReminder.is_prepared r)
    actual_send_time send_status failure_reason
    (ScheduledReminder.metadata r).

(** What a verdict leaves in the row.  SKIPPED and SENT stamp the row as
    sent at [now]; FAILED records the reason and leaves [is_sent] and the
    send time as they were. *)
Definition settle (now : Z) (v : Verdict) (r : ScheduledReminder.t) : ScheduledReminder.t :=
  match v with
  | Skipped reason =>
      with_outcome true (Some now) (Some "SKIPPED") (Some reason) r
  | Sent =>
      with_outcome true (Some now) (Some "SENT") (ScheduledReminder.failure_reason r) r
  | Failed reason =>
      with_outcome (ScheduledReminder.is_sent r) (ScheduledReminder.actual_send_time r)
                   (Some "FAILED") (Some reason) r
  end.

(** The verdict of a turn that threw [e] after recording [k] events: the
    [catch] logs the error and records FAILED with its message, two events
    more. *)
Definition caught (e : Err) (k : nat) : Verdict * nat :=
  (Failed (message e), (k + 2)%nat).

(** The error of reading [id] from the [undefined] that [createNotification]
    resolves to when its insert or its push was rejected. *)
Definition NoNotification : Err := TypeError "undefined" "id".

(** The rule of one turn of the dispatch loop, for the reminder [r] of the
    store [d], the turn starting when [n] events are recorded: the verdict,
    and the number of events the turn records.  In order:
    - the owner has disabled notifications or is on vacation: SKIPPED with
      'User preferences or status';
    - else the habit is completed today: SKIPPED with 'Already completed';
    - else a notification is created and pushed, and the reminder is SENT;
    - FAILED with the message of the error, when the owner row is missing,
      when the completion check or the update that records SKIPPED or SENT
      is rejected, and when the insert or the push of the notification is
      rejected (the error is then that of reading [id] from [undefined]). *)
Definition turn (env : Env) (d : DB) (now : Z) (r : ScheduledReminder.t) (n : nat)
    : Verdict * nat :=
  let id := ScheduledReminder.scheduled_reminder_id r in
  let hid := ScheduledReminder.habit_id r in
  let uid := ScheduledReminder.user_id r in
  match owner_of d uid with
  | None => caught (TypeError "null" "prefersNotifications") 0
  | Some u =>
      if negb (User.prefersNotifications u) || User.onVacation u
      then
        match rejects env n (scheduledReminder_update id
                               (mark_skipped now "User preferences or status")) with
        | Some e => caught e 1
        | None => (Skipped "User preferences or status", 1%nat)
        end
      else
        match rejects env n (isHabitCompletedForDate hid uid now) with
        | Some e => caught e 1
        | None =>
            if svc_isHabitCompletedForDate env hid uid now
            then
              match rejects env (S n) (scheduledReminder_update id
                                         (mark_skipped now "Already completed")) with
              | Some e => caught e 2
              | None => (Skipped "Already completed", 2%nat)
              end
            else
              match rejects env (S n) (notification_create (reminder_notice d r)) with
              | Some _ => caught NoNotification 3
              | None =>
                  match rejects env (S (S n)) (reminder_push d r) with
                  | Some _ => caught NoNotification 4
                  | None =>
                      match rejects env (S (S (S n)))
                                    (scheduledReminder_update id (mark_sent now None)) with
                      | Some e => caught e 4
                      | None => (Sent, 4%nat)
                      end
                  end
              end
        end
  end.

(** The verdicts of the turns of a run over the due reminders, the first
    turn starting when [n] events are recorded. *)
Fixpoint verdicts (env : Env) (d : DB) (now : Z) (n : nat)
    (due : list ScheduledReminder.t) : list Verdict :=
  match due with
  | [] => []
  | r :: rest =>
      fst (turn env d now r n) :: verdicts env d now (n + snd (turn env d now r n)) rest
  end.

(** A reminder marked SENT had its notification created and pushed: both
    calls were made and not rejected, and the row is in the table. *)
Definition delivered (d : DB) (r : ScheduledReminder.t) (evs : list Event)
    (after : DB) : Prop :=
  In (EvCall (notification_create (reminder_notice d r)) None) evs /\
  In (EvCall (reminder_push d r) None) evs /\
  exists id, In (new_notification id (reminder_notice d r)) (notifications after).

(** What became of one due reminder of the run from [w] to [w']. *)
Definition dispatched (w w' : World) (r : ScheduledReminder.t) (v : Verdict) : Prop :=
  find (has_id (ScheduledReminder.scheduled_reminder_id r)) (reminders (db w')) =
  Some (settle (wall w) v r) /\
  (v = Sent -> delivered (db w) r (events_since w w') (db w')).

(** ** Concrete environments and worlds *)

Definition no_updates : DB -> DB * StreakUpdates.t := fun d => (d, StreakUpdates.mk JNull "ok").
Definition nothing_prepared : DB -> Z -> DB * Z := fun d _ => (d, 0).

(** Nothing is rejected; every habit is scheduled, none completed, nobody
    in quiet hours. *)
Definition calm : Env :=
  mkEnv (fun _ _ => None) (fun _ _ => true) (fun _ _ _ => false) (fun _ _ => false)
        no_updates nothing_prepared 0.

(** As [calm], with every user in quiet hours. *)
Definition hushed : Env := with_quiet_hours (fun _ _ => true) calm.

Definition ConnectionLost : Err := mkErr "Connection lost" "PrismaClientKnownRequestError".

(** As [calm], but every [scheduledReminder.update] is rejected. *)
Definition updates_down : Env :=
  mkEnv (fun _ c => match c with
                    | scheduledReminder_update _ _ => Some ConnectionLost
                    | _ => None
                    end)
        (fun _ _ => true) (fun _ _ _ => false) (fun _ _ => false)
        no_updates nothing_prepared 0.

Definition PushFailed : Err := mkErr "Push service unavailable" "Error".

(** As [calm], but every push is rejected. *)
Definition push_down : Env :=
  mkEnv (fun _ c => match c with
                    | sendToUser _ _ _ _ => Some PushFailed
                    | _ => None
                    end)
        (fun _ _ => true) (fun _ _ _ => false) (fun _ _ => false)
        no_updates nothing_prepared 0.

Definition ann : User.t := User.mk 1 "ann" true false 1 1000.
Definition run : Habit.t := Habit.mk 10 1 "Run" true None None.
Definition run_streak : HabitStreak.t := HabitStreak.mk 100 10 1 7 7.
Definition run_log : HabitLog.t := HabitLog.mk 1000 10 1 true 1500.
Definition run_reminder : ScheduledReminder.t :=
  ScheduledReminder.mk 5 10 1 1000 "REMINDER" "Time to run" false true
                       None None None None.

Definition demo_db : DB := mkDB [ann] [run] [run_streak] [run_log] [run_reminder] [] 6 1.
Definition demo : World := mkWorld demo_db 2000 [].

(** A long streak for the preservation scan. *)
Definition run_long_streak : HabitStreak.t := HabitStreak.mk 100 10 1 9 9.
Definition keen : World :=
  mkWorld (mkDB [ann] [run] [run_long_streak] [run_log] [run_reminder] [] 6 1) 2000 [].

(** ** The two statements that fail, as the specification words them *)

(** The rule of the warning scan as the claim states it: the rule of the
    scan and, besides, the owner not in quiet hours. *)
Definition warning_due_stated (env : Env) (w : World) (h : Habit.t) : bool :=
  at_risk env w h && negb (svc_isInQuietHours env (Habit.user_id h) (wall w)).

Definition warning_claim_stated (env : Env) (w : World) : Prop :=
  notification_attempts (events_since w (exec (streak_warning_check_body env) w)) =
  map (fun h => at_risk_notice h (risk_streak w h))
      (filter (warning_due_stated env w) (habits (db w))).

Definition terminal_status (s : option string) : bool :=
  match s with
  | Some s => String.eqb s "SENT" || String.eqb s "SKIPPED" || String.eqb s "FAILED"
  | None => false
  end.

(** The dispatch contract as the claim states it: the run returns counts
    with processed = number of due reminders = sent + skipped + failed, and
    every due reminder ends SENT, SKIPPED or FAILED. *)
Definition dispatch_claim_stated (env : Env) (w : World) : Prop :=
  let due := filter (is_due (wall w)) (reminders (db w)) in
  (exists results,
      outcome (dispatch env) w = Ok results /\
      Results.processed results = Z.of_nat (List.length due) /\
      Results.processed results =
        Results.sent results + Results.skipped results + Results.failed results) /\
  (forall r, In r due ->
             exists r', find (has_id (ScheduledReminder.scheduled_reminder_id r))
                             (reminders (db (exec (dispatch env) w))) = Some r' /\
                        terminal_status (ScheduledReminder.send_status r') = true).

(** ** What a run conserves *)

(** [stable R m]: [R] relates the world [m] starts from to the world it
    leaves, whether it returns or throws. *)
Definition stable (R : World -> World -> Prop) {A} (m : M A) : Prop :=
  forall w, R w (exec m w).

(** A relation on stores, read on worlds; the clock stays where it was. *)
Definition on_db (RD : DB -> DB -> Prop) (w w' : World) : Prop :=
  wall w' = wall w /\ RD (db w) (db w').

(** The tables cron.js only reads. *)
Definition same_tables (d d' : DB) : Prop :=
  users d' = users d /\
  habits d' = habits d /\
  streaks d' = streaks d /\
  habitLogs d' = habitLogs d.

(** Rows are added at the end of the two tables cron.js inserts into; no row
    of them is changed or removed. *)
Definition appended (d d' : DB) : Prop :=
  same_tables d d' /\
  (exists added, notifications d' = notifications d ++ added) /\
  (exists added, reminders d' = reminders d ++ added).

(** The columns of a reminder outside the outcome of its dispatch. *)
Definition same_reminder (r r' : ScheduledReminder.t) : Prop :=
  ScheduledReminder.scheduled_reminder_id r' = ScheduledReminder.scheduled_reminder_id r /\
  ScheduledReminder.habit_id r' = ScheduledReminder.habit_id r /\
  ScheduledReminder.user_id r' = ScheduledReminder.user_id r /\
  ScheduledReminder.scheduled_time r' = ScheduledReminder.scheduled_time r /\
  ScheduledReminder.reminder_type r' = ScheduledReminder.reminder_type r /\
  ScheduledReminder.message r' = ScheduledReminder.message r /\
  ScheduledReminder.is_prepared r' = ScheduledReminder.is_prepared r /\
  ScheduledReminder.metadata r' = ScheduledReminder.metadata r.

(** No reminder is added or removed, and each keeps the columns above. *)
Definition restamped (d d' : DB) : Prop :=
  same_tables d d' /\
  (exists added, notifications d' = notifications d ++ added) /\
  Forall2 same_reminder (reminders d) (reminders d') /\
  reminder_seq d' = reminder_seq d.

(** The six scans: every job of cron.js but the dispatch and the two that
    only call a collaborator. *)
Definition scans (env : Env) : list (string * string * M Details) :=
  filter (fun j => negb (existsb (String.eqb (snd (fst j)))
                           ["daily-streak-update"; "process-reminders";
                            "prepare-next-day-reminders"]))
         (jobs env).

(** The seven jobs whose work is done in cron.js itself; the other two only
    call [streakController] and [ReminderService]. *)
Definition own_jobs (env : Env) : list (string * string * M Details) :=
  filter (fun j => negb (existsb (String.eqb (snd (fst j)))
                           ["daily-streak-update"; "prepare-next-day-reminders"]))
         (jobs env).

(** ** The notifications a job creates *)

(** What the notifications of the jobs have in common. *)
Definition job_notification (c : NotificationCreate.t) : Prop :=
  NotificationCreate.is_read c = false /\
  NotificationCreate.action_url c <> None /\
  match NotificationCreate.type c with
  | STREAK_MILESTONE | REMINDER | ACHIEVEMENT_UNLOCKED => True
  | SYSTEM_MESSAGE =>
      NotificationCreate.title c = "Welcome to HabitPulse! 👋" \/
      String.prefix "Weekly Summary " (NotificationCreate.title c) = true
  | _ => False
  end.

(** From [w] to [w'] every notification the run tried to create is in [P]. *)
Definition attempts_in (P : NotificationCreate.t -> Prop) (w w' : World) : Prop :=
  exists evs, trace w' = trace w ++ evs /\ Forall P (notification_attempts evs).

(** ** The calls of a run *)

(** The calls a run of events made, each with what it was rejected with. *)
Definition calls (evs : list Event) : list (Call * option Err) :=
  flat_map (fun e => match e with
                     | EvCall c r => [(c, r)]
                     | _ => []
                     end) evs.

(** ** The reminders a scan schedules *)

(** A relation on stores, read on the worlds of a run that starts at [now]. *)
Definition at_time (now : Z) (RD : DB -> DB -> Prop) (w w' : World) : Prop :=
  wall w = now -> wall w' = now /\ RD (db w) (db w').

(** Reminders are added at the end of the table, each of them in [Q]. *)
Definition adding (Q : ScheduledReminder.t -> Prop) (d d' : DB) : Prop :=
  exists added, reminders d' = reminders d ++ added /\ Forall Q added.

(** The dispatch query selects the row at [t] exactly when [t0 <= t]. *)
Definition due_from (t0 : Z) (r : ScheduledReminder.t) : Prop :=
  forall t, is_due t r = (t0 <=? t).

(** ** After a dispatch run *)

(** The row's status is FAILED. *)
Definition is_failed (r : ScheduledReminder.t) : bool :=
  match ScheduledReminder.send_status r with
  | Some s => String.eqb s "FAILED"
  | None => false
  end.

(** Every reminder's owner is a row of the User table (the foreign key
    [ScheduledReminder_user_id_fkey]). *)
Definition reminder_owners_present (d : DB) : Prop :=
  forall r, In r (reminders d) -> find_user d (ScheduledReminder.user_id r) <> None.

(** ** The test helpers *)

(** The reminder text [testHabitReminder] sends: the caller's, or the
    default when the caller's is missing or empty. *)
Definition test_reminder_message (message : option string) (habit : Habit.t) : string :=
  match or_null_string message with
  | Some m => m
  | None => "Time to work on your habit: " +++ Habit.name habit +++ "!"
  end.

Definition test_reminder_notification (userId habitId : Z) (message : option string)
    (habit : Habit.t) : NotificationData.t :=
  NotificationData.mk userId ("Reminder: " +++ Habit.name habit)
    (test_reminder_message message habit) REMINDER
    (Some habitId) (Some (habit_url habitId)).

(** The line [createNotification] logs for a [type] outside the enum. *)
Definition refused_line (invalid_type : string -> Err) (type : string) : Event :=
  EvConsoleError ("Error creating notification: " +++ message (invalid_type type)).

(** ** What the counters count *)

(** Every [prisma.notification.create] is rejected. *)
Definition creates_always_rejected (env : Env) : Prop :=
  forall n data, rejects env n (notification_create data) <> None.

(** ** The rule of the preservation scan *)

(** The calls of the preservation scan other than its first query and the
    work of [createNotification] are never rejected. *)
Definition preservation_queries_return (env : Env) : Prop :=
  scheduled_never_rejected env /\
  completed_never_rejected env /\
  (forall n uid date, rejects env n (isInQuietHours uid date) = None) /\
  (forall n hid uid ty since,
      rejects env n (scheduledReminder_findFirst_since hid uid ty since) = None) /\
  (forall n data, rejects env n (scheduledReminder_create data) = None).

(** The rule of the scan, on the tables: the habit is active, has a streak
    row with a current streak above 7, its owner is not on vacation and has
    notifications on, it is scheduled today and not completed today, the
    owner is not in quiet hours, and no STREAK_PRESERVATION reminder of the
    habit and its owner is scheduled within the two hours before now. *)
Definition in_need (env : Env) (w : World) (h : Habit.t) : bool :=
  Habit.is_active h &&
  match streak_above 7 (db w) (Habit.habit_id h) with
  | Some _ => true
  | None => false
  end &&
  match owner_of (db w) (Habit.user_id h) with
  | Some u => negb (User.onVacation u) && User.prefersNotifications u
  | None => false
  end &&
  svc_isHabitScheduledForDate env h (wall w) &&
  negb (svc_isHabitCompletedForDate env (Habit.habit_id h) (Habit.user_id h) (wall w)) &&
  negb (svc_isInQuietHours env (Habit.user_id h) (wall w)) &&
  negb (existsb
          (fun r => (ScheduledReminder.habit_id r =? Habit.habit_id h) &&
                    (ScheduledReminder.user_id r =? Habit.user_id h) &&
                    String.eqb (ScheduledReminder.reminder_type r) "STREAK_PRESERVATION" &&
                    (wall w - 2 * 60 * 60 * 1000 <=? ScheduledReminder.scheduled_time r))
          (reminders (db w))).

(** The streak the reminder of a habit names. *)
Definition need_streak (w : World) (h : Habit.t) : Z :=
  length_of (streak_above 7 (db w) (Habit.habit_id h)).

(** The same rule, read off the row the scan's query joins. *)
Definition preservation_due (env : Env) (w : World) (h : Habit.t) : bool :=
  Habit.is_active h &&
  match streaks_of (db w) (Habit.habit_id h) (Some 7) with
  | [] => false
  | _ :: _ => true
  end &&
  match find_user (db w) (Habit.user_id h) with
  | Some u => negb (User.onVacation u) && User.prefersNotifications u
  | None => false
  end &&
  svc_isHabitScheduledForDate env h (wall w) &&
  negb (svc_isHabitCompletedForDate env (Habit.habit_id h) (Habit.user_id h) (wall w)) &&
  negb (svc_isInQuietHours env (Habit.user_id h) (wall w)) &&
  negb (recently_preserved (db w) (wall w) (Habit.habit_id h) (Habit.user_id h)).

(** [habit.streak[0].current_streak] of the scan's query. *)
Definition long_streak (w : World) (h : Habit.t) : Z :=
  match streaks_of (db w) (Habit.habit_id h) (Some 7) with
  | s :: _ => HabitStreak.current_streak s
  | [] => 0
  end.

(** What the scan creates for a habit: the reminder and the notification. *)
Definition preservation_pair (now : Z) (h : Habit.t) (current_streak : Z)
    : ReminderCreate.t * NotificationCreate.t :=
  (preservation_reminder now h current_streak,
   create_data (preservation_notification h current_streak)).

(** What one turn of the preservation loop creates, read off the joined row
    and the reminders [old] the scan found in the table. *)
Definition preservation_emit (env : Env) (now : Z) (old : list ScheduledReminder.t)
    (row : HabitRow.t) : list (ReminderCreate.t * NotificationCreate.t) :=
  let h := HabitRow.habit row in
  match HabitRow.streak row, HabitRow.user row with
  | s :: _, Some u =>
      if negb (User.onVacation u || negb (User.prefersNotifications u)) &&
         svc_isHabitScheduledForDate env h now &&
         (negb (svc_isHabitCompletedForDate env (Habit.habit_id h) (Habit.user_id h) now) &&
          negb (svc_isInQuietHours env (Habit.user_id h) now)) &&
         negb (existsb (matches_since (Habit.habit_id h) (Habit.user_id h)
                          "STREAK_PRESERVATION" (now - TWO_HOURS)) old)
      then [preservation_pair now h (HabitStreak.current_streak s)]
      else []
  | _, _ => []
  end.

(** ** The notifications of a dispatch run *)

(** The reminders a dispatch run notifies: the owner is there, has
    notifications on and is not on vacation, and the habit is not completed
    today. *)
Definition sendable (env : Env) (now : Z) (row : ReminderRow.t) : bool :=
  match ReminderRow.user row with
  | Some u => negb (blocked u) && negb (completed_now env now row)
  | None => false
  end.

Definition dispatch_emit (env : Env) (now : Z) (row : ReminderRow.t)
    : list NotificationCreate.t :=
  if sendable env now row then [create_data (reminder_notification row)] else [].

(** The same on the tables: the owner row is there, with notifications on
    and not on vacation, and the habit is not completed today. *)
Definition to_notify (env : Env) (d : DB) (now : Z) (r : ScheduledReminder.t) : bool :=
  match owner_of d (ScheduledReminder.user_id r) with
  | Some u =>
      User.prefersNotifications u && negb (User.onVacation u) &&
      negb (svc_isHabitCompletedForDate env (ScheduledReminder.habit_id r)
              (ScheduledReminder.user_id r) now)
  | None => false
  end.

(** ** The rejections that end a run *)

(** From [w] to [w'] every event the run recorded is in [P]. *)
Definition events_in (P : Event -> Prop) (w w' : World) : Prop :=
  exists evs, trace w' = trace w ++ evs /\ Forall P evs.

(** The event is not a rejected call of [F]. *)
Definition spares (F : Call -> bool) (e : Event) : Prop :=
  match e with
  | EvCall c (Some _) => F c = false
  | _ => True
  end.

(** [fails_on F m]: when a call of [F] is rejected in a run of [m], the run
    throws what the call was rejected with. *)
Definition fails_on (F : Call -> bool) {A} (m : M A) : Prop :=
  forall w, exists evs,
    trace (exec m w) = trace w ++ evs /\
    forall c e, F c = true -> In (EvCall c (Some e)) evs -> outcome m w = Throw e.

(** The calls of a job that no [try] of cron.js stands around: the first
    query of every job, the queries and service calls inside the loops of the
    warning, preservation and daily-goal scans, the reminder the preservation
    scan creates, and the update by which the dispatch records FAILED (the one
    update that leaves [is_sent] out). *)
Definition fatal (jobName : string) (c : Call) : bool :=
  match c with
  | notification_create _ | sendToUser _ _ _ _ => false
  | habit_findMany_in _ | habitLog_groupBy _ _ _ => false
  | isHabitCompletedForDate _ _ _ => negb (String.eqb jobName "process-reminders")
  | scheduledReminder_create _ => String.eqb jobName "streak-preservation-reminder"
  | scheduledReminder_update _ data =>
      match ReminderUpdate.is_sent data with
      | None => true
      | Some _ => false
      end
  | _ => true
  end.

(** The line a handler logs for a body that threw [e]. *)
Definition failed_line (jobName : string) (t : Z) (e : Err) : Event :=
  EvJobStatus (terminal_line jobName t (Throw e)).

(** [throws_only F E m]: a run of [m] throws only what a call of [F] was
    rejected with, or an error in [E]. *)
Definition throws_only (F : Call -> bool) (E : Err -> Prop) {A} (m : M A) : Prop :=
  forall w, exists evs,
    trace (exec m w) = trace w ++ evs /\
    forall e, outcome m w = Throw e ->
              E e \/ exists c, F c = true /\ In (EvCall c (Some e)) evs.

(** The errors of a row that is not there: an update of a reminder that has
    no row, and a habit whose owner has no row. *)
Definition missing_row (e : Err) : Prop :=
  e = RecordNotFound \/
  e = TypeError "null" "prefersNotifications" \/
  e = TypeError "null" "onVacation".

(** ** Concrete inputs of the further properties *)

(** An error for a [type] outside the enum. *)
Definition NotInEnum (type : string) : Err :=
  mkErr ("Invalid value for argument `type`: " +++ type) "PrismaClientValidationError".

(** The entry of the dispatch job in the list of jobs. *)
Definition dispatch_entry (env : Env) : string * string * M Details :=
  ("*/15 * * * *", "process-reminders", process_reminders_body env).

(** * Properties *)

(** ** Reading the trace *)

Lemma events_since_app w w' evs :
  trace w' = trace w ++ evs -> events_since w w' = evs.
Proof.
  unfold events_since. intros ->.
  rewrite skipn_app, skipn_all, Nat.sub_diag. reflexivity.
Qed.

Lemma notification_attempts_app a b :
  notification_attempts (a ++ b) = notification_attempts a ++ notification_attempts b.
Proof. apply flat_map_app. Qed.

Lemma job_lines_app a b : job_lines (a ++ b) = job_lines a ++ job_lines b.
Proof. apply flat_map_app. Qed.

Lemma reminder_attempts_app a b :
  reminder_attempts (a ++ b) = reminder_attempts a ++ reminder_attempts b.
Proof. apply flat_map_app. Qed.

(** ** [createNotification] *)

(** The three ways a call of [createNotification] can go, as equations. *)
Lemma createNotification_create_rejected env data w e :
  rejects env (List.length (trace w)) (notification_create (create_data data)) = Some e ->
  createNotification env data w =
  (Ok None,
   record (EvConsoleError ("Error creating notification: " +++ message e))
     (record (EvCall (notification_create (create_data data)) (Some e)) w)).
Proof.
  intros H. unfold createNotification, try_catch, bind, prisma_notification_create, external.
  fold (create_data data). rewrite H. reflexivity.
Qed.

Lemma createNotification_push_rejected env data w e :
  rejects env (List.length (trace w)) (notification_create (create_data data)) = None ->
  rejects env (List.length (trace (after_create data w)))
          (push_call data (created data w)) = Some e ->
  createNotification env data w =
  (Ok None,
   record (EvConsoleError ("Error creating notification: " +++ message e))
     (record (EvCall (push_call data (created data w)) (Some e)) (after_create data w))).
Proof.
  intros H1 H2.
  unfold createNotification, try_catch, bind, prisma_notification_create,
    notificationService_sendToUser, external.
  fold (create_data data). rewrite H1. cbn [insert_notification fst snd].
  fold (created data w). fold (push_data data (created data w)).
  fold (push_call data (created data w)).
  change (set_db _ (record (EvCall (notification_create (create_data data)) None) w))
    with (after_create data w).
  rewrite H2. reflexivity.
Qed.

Lemma createNotification_delivered env data w :
  rejects env (List.length (trace w)) (notification_create (create_data data)) = None ->
  rejects env (List.length (trace (after_create data w)))
          (push_call data (created data w)) = None ->
  createNotification env data w =
  (Ok (Some (created data w)),
   record (EvCall (push_call data (created data w)) None) (after_create data w)).
Proof.
  intros H1 H2.
  unfold createNotification, try_catch, bind, prisma_notification_create,
    notificationService_sendToUser, external.
  fold (create_data data). rewrite H1. cbn [insert_notification fst snd].
  fold (created data w). fold (push_data data (created data w)).
  fold (push_call data (created data w)).
  change (set_db _ (record (EvCall (notification_create (create_data data)) None) w))
    with (after_create data w).
  rewrite H2. reflexivity.
Qed.

(** C9.  [createNotification] never throws: whatever the environment does
    to the row insert and to the push, the call resolves; when either is
    rejected it resolves to [undefined] ([None]) after logging the error;
    and a push rejected after the insert leaves the inserted row in the
    table. *)
Theorem createNotification_never_throws :
  forall (env : Env) (data : NotificationData.t) (w : World),
    let run := createNotification env data in
    let line e := EvConsoleError ("Error creating notification: " +++ message e) in
    (exists r, outcome run w = Ok r) /\
    (forall e,
        rejects env (List.length (trace w)) (notification_create (create_data data)) = Some e ->
        outcome run w = Ok None /\
        In (line e) (events_since w (exec run w)) /\
        notifications (db (exec run w)) = notifications (db w)) /\
    (rejects env (List.length (trace w)) (notification_create (create_data data)) = None ->
     (forall e,
         rejects env (List.length (trace (after_create data w)))
                 (push_call data (created data w)) = Some e ->
         outcome run w = Ok None /\
         In (line e) (events_since w (exec run w)) /\
         notifications (db (exec run w)) = notifications (db w) ++ [created data w]) /\
     (rejects env (List.length (trace (after_create data w)))
              (push_call data (created data w)) = None ->
      outcome run w = Ok (Some (created data w)) /\
      notifications (db (exec run w)) = notifications (db w) ++ [created data w])).
Proof.
  intros env data w run line. unfold run, outcome, exec.
  split; [|split].
  - destruct (rejects env (List.length (trace w))
                (notification_create (create_data data))) as [e|] eqn:Hc.
    + rewrite (createNotification_create_rejected _ _ _ _ Hc). cbn [fst]. eauto.
    + destruct (rejects env (List.length (trace (after_create data w)))
                  (push_call data (created data w))) as [e|] eqn:Hp.
      * rewrite (createNotification_push_rejected _ _ _ _ Hc Hp). cbn [fst]. eauto.
      * rewrite (createNotification_delivered _ _ _ Hc Hp). cbn [fst]. eauto.
  - intros e Hc. rewrite (createNotification_create_rejected _ _ _ _ Hc).
    cbn [fst snd]. repeat split.
    erewrite events_since_app.
    2:{ cbn [record trace]. rewrite <- app_assoc. reflexivity. }
    cbn. auto.
  - intros Hc. split.
    + intros e Hp. rewrite (createNotification_push_rejected _ _ _ _ Hc Hp).
      cbn [fst snd]. split; [reflexivity|split; [|reflexivity]].
      erewrite events_since_app.
      2:{ cbn [record trace after_create set_db]. rewrite <- !app_assoc. reflexivity. }
      cbn. auto.
    + intros Hp. rewrite (createNotification_delivered _ _ _ Hc Hp).
      cbn [fst snd]. split; reflexivity.
Qed.

(** ** What a computation leaves alone *)

Lemma quiet_refl w : quiet w w.
Proof. split; [reflexivity|]. exists []. rewrite app_nil_r. auto. Qed.

Lemma quiet_trans w1 w2 w3 : quiet w1 w2 -> quiet w2 w3 -> quiet w1 w3.
Proof.
  intros [Hw1 (e1 & He1 & Hj1)] [Hw2 (e2 & He2 & Hj2)]. split; [congruence|].
  exists (e1 ++ e2). rewrite He2, He1, app_assoc, job_lines_app, Hj1, Hj2. auto.
Qed.

Lemma silent_ret {A} (a : A) : silent (ret a).
Proof. intros w. apply quiet_refl. Qed.

Lemma silent_throw {A} (e : Err) : silent (@throw A e).
Proof. intros w. apply quiet_refl. Qed.

Lemma silent_Date_now : silent Date_now.
Proof. intros w. apply quiet_refl. Qed.

Lemma silent_bind {A B} (m : M A) (k : A -> M B) :
  silent m -> (forall a, silent (k a)) -> silent (bind m k).
Proof.
  intros Hm Hk w. specialize (Hm w). unfold exec, bind in *.
  destruct (m w) as [[a|e] w1]; cbn [snd] in *; [|exact Hm].
  eapply quiet_trans; [exact Hm|]. apply (Hk a w1).
Qed.

Lemma silent_try_catch {A} (m : M A) (h : Err -> M A) :
  silent m -> (forall e, silent (h e)) -> silent (try_catch m h).
Proof.
  intros Hm Hh w. specialize (Hm w). unfold exec, try_catch in *.
  destruct (m w) as [[a|e] w1]; cbn [snd] in *; [exact Hm|].
  eapply quiet_trans; [exact Hm|]. apply (Hh e w1).
Qed.

Lemma quiet_record_call w c r : quiet w (record (EvCall c r) w).
Proof. split; [reflexivity|]. exists [EvCall c r]. auto. Qed.

Lemma silent_external env {A} c (run : DB -> Outcome A * DB) : silent (external env c run).
Proof.
  intros w. unfold exec, external.
  destruct (rejects env (List.length (trace w)) c).
  - apply quiet_record_call.
  - destruct (run (db w)) as [o d]. cbn [snd].
    split; [reflexivity|]. exists [EvCall c None]. auto.
Qed.

Lemma silent_console_error line : silent (console_error line).
Proof. intros w. split; [reflexivity|]. exists [EvConsoleError line]. auto. Qed.

Lemma silent_for_of {A S} (xs : list A) (body : A -> S -> M S) (acc : S) :
  (forall x s, silent (body x s)) -> silent (for_of xs body acc).
Proof.
  intros Hb. revert acc. induction xs as [|x xs IH]; intros acc; cbn [for_of].
  - apply silent_ret.
  - apply silent_bind; [apply Hb|]. intros a. apply IH.
Qed.

Lemma silent_prepareRemindersForNextDay env :
  silent (reminderService_prepareRemindersForNextDay env).
Proof.
  intros w. unfold reminderService_prepareRemindersForNextDay.
  apply (silent_external env prepareRemindersForNextDay).
Qed.

Create HintDb silent.
#[export] Hint Resolve silent_ret silent_throw silent_Date_now silent_console_error
  silent_prepareRemindersForNextDay : silent.

(** Walks a computation built from the constructs above. *)
Ltac silent_step :=
  match goal with
  | |- silent (bind _ _) => apply silent_bind; [|intros]
  | |- silent (try_catch _ _) => apply silent_try_catch; [|intros]
  | |- silent (for_of _ _ _) => apply silent_for_of; intros
  | |- silent (external _ _ _) => apply silent_external
  | |- silent (match ?x with _ => _ end) => destruct x
  | |- silent _ => solve [auto with silent]
  end.

Ltac silent_walk := repeat silent_step.

Lemma silent_createNotification env data : silent (createNotification env data).
Proof.
  unfold createNotification, prisma_notification_create, notificationService_sendToUser.
  silent_walk.
Qed.
#[export] Hint Resolve silent_createNotification : silent.

Lemma silent_createStreakWarningNotification env u n c h :
  silent (createStreakWarningNotification env u n c h).
Proof.
  unfold createStreakWarningNotification, prisma_scheduledReminder_create. silent_walk.
Qed.
#[export] Hint Resolve silent_createStreakWarningNotification : silent.

Lemma returns_ret {A} (P : A -> Prop) a : P a -> returns P (ret a).
Proof. intros H w a' E. inversion E. subst. exact H. Qed.

Lemma returns_bind {A B} (P : B -> Prop) (m : M A) (k : A -> M B) :
  (forall a, returns P (k a)) -> returns P (bind m k).
Proof.
  intros Hk w b. unfold outcome, bind. destruct (m w) as [[a|e] w1].
  - apply Hk.
  - cbn. discriminate.
Qed.

Ltac timed_walk :=
  repeat (apply returns_bind; intros); apply returns_ret; unfold timed, results_details; eauto.

(** ** The job boundary *)

Lemma cron_job_run name (body : M Details) w :
  let w1 := record (EvJobStatus (started_line name (wall w))) w in
  cron_job name body w =
  (Ok tt,
   record (EvJobStatus (terminal_line name (wall (exec body w1)) (outcome body w1)))
          (exec body w1)).
Proof.
  unfold cron_job, bind, try_catch, logJobStatus, exec, outcome. cbn [fst snd].
  fold (started_line name (wall w)).
  destruct (body (record (EvJobStatus (started_line name (wall w))) w)) as [[d|e] w2];
    reflexivity.
Qed.


Lemma silent_milestone_step env h n : silent (milestone_step env h n).
Proof. unfold milestone_step. silent_walk. Qed.

Lemma silent_warning_step env h n : silent (warning_step env h n).
Proof.
  unfold warning_step, reminderService_isHabitScheduledForDate,
    reminderService_isHabitCompletedForDate.
  silent_walk.
Qed.

Lemma silent_process_reminder env now row r : silent (process_reminder env now row r).
Proof.
  unfold process_reminder, deliver_reminder, fail_reminder,
    prisma_scheduledReminder_update, reminderService_isHabitCompletedForDate.
  silent_walk.
Qed.

Lemma silent_preservation_step env now h n : silent (preservation_step env now h n).
Proof.
  unfold preservation_step, reminderService_isHabitScheduledForDate,
    reminderService_isHabitCompletedForDate, reminderService_isInQuietHours,
    prisma_scheduledReminder_findFirst_since, prisma_scheduledReminder_create.
  silent_walk.
Qed.

Lemma silent_weekly_step env u n : silent (weekly_step env u n).
Proof.
  unfold weekly_step, prisma_habitLog_groupBy, prisma_habit_findMany_in,
    createWeeklySummaryNotification.
  silent_walk.
Qed.

Lemma silent_goal_step env a b u n : silent (goal_step env a b u n).
Proof. unfold goal_step, prisma_habitLog_count. silent_walk. Qed.

Lemma silent_welcome_step env u n : silent (welcome_step env u n).
Proof. unfold welcome_step. silent_walk. Qed.

#[export] Hint Resolve silent_milestone_step silent_warning_step silent_process_reminder
  silent_preservation_step silent_weekly_step silent_goal_step silent_welcome_step : silent.

Lemma silent_jobs env :
  Forall (fun j => silent (snd j) /\ returns timed (snd j)) (jobs env).
Proof.
  unfold jobs.
  repeat (apply Forall_cons; [cbn [snd]; split|]); try apply Forall_nil.
  all: try (unfold daily_streak_update_body, streak_milestone_check_body,
            streak_warning_check_body, process_reminders_body, dispatch,
            streak_preservation_reminder_body, preservation_scan,
            prepare_next_day_reminders_body, weekly_habit_review_body,
            daily_goal_check_body, new_user_welcome_body, duration_since,
            streakController_processDailyStreakUpdates, prisma_habit_findMany_active,
            prisma_scheduledReminder_findMany_due, prisma_user_findMany_active,
            prisma_user_findMany_goal, prisma_user_findMany_new).
  all: first [ solve [silent_walk] | solve [timed_walk] ].
Qed.


(** ** What [createNotification] changes *)

Lemma same_base_refl w : same_base w w.
Proof. repeat split. Qed.

Lemma same_base_trans w1 w2 w3 : same_base w1 w2 -> same_base w2 w3 -> same_base w1 w3.
Proof.
  intros (a1 & a2 & a3 & a4 & a5) (b1 & b2 & b3 & b4 & b5).
  repeat split; congruence.
Qed.

Lemma same_base_record w e : same_base w (record e w).
Proof. repeat split. Qed.

Lemma createNotification_notified env data w :
  exists r w', createNotification env data w = (Ok r, w') /\ notified data r w w'.
Proof.
  destruct (rejects env (List.length (trace w))
              (notification_create (create_data data))) as [e|] eqn:Hc.
  - rewrite (createNotification_create_rejected _ _ _ _ Hc).
    eexists _, _. split; [reflexivity|].
    unfold notified. repeat split; auto.
    eexists. cbn [record trace]. rewrite <- app_assoc. split; reflexivity.
  - destruct (rejects env (List.length (trace (after_create data w)))
                (push_call data (created data w))) as [e|] eqn:Hp.
    + rewrite (createNotification_push_rejected _ _ _ _ Hc Hp).
      eexists _, _. split; [reflexivity|].
      unfold notified. repeat split; auto.
      eexists. cbn [record trace after_create set_db]. rewrite <- !app_assoc.
      split; reflexivity.
    + rewrite (createNotification_delivered _ _ _ Hc Hp).
      eexists _, _. split; [reflexivity|].
      unfold notified. repeat split; auto.
      eexists. cbn [record trace after_create set_db]. rewrite <- !app_assoc.
      split; reflexivity.
Qed.

(** ** Loops that emit notifications *)

Section EmittingLoop.

Context {A : Type}.
Variable body : A -> Z -> M Z.
Variable keeps : World -> Prop.
Variable good : A -> Prop.
Variable emit : A -> list NotificationCreate.t.

(** One turn on a good element returns, keeps the invariant, attempts the
    notifications [emit] lists and counts them. *)
Hypothesis turn : forall x acc w,
    keeps w -> good x ->
    exists w' evs,
      body x acc w = (Ok (acc + Z.of_nat (List.length (emit x))), w') /\
      keeps w' /\
      trace w' = trace w ++ evs /\
      notification_attempts evs = emit x.

Lemma for_of_emits xs : forall acc w,
    keeps w -> Forall good xs ->
    exists w' evs,
      for_of xs body acc w = (Ok (acc + Z.of_nat (List.length (flat_map emit xs))), w') /\
      keeps w' /\
      trace w' = trace w ++ evs /\
      notification_attempts evs = flat_map emit xs.
Proof.
  induction xs as [|x xs IH]; intros acc w Hk Hg.
  - exists w, []. cbn. rewrite Z.add_0_r, app_nil_r. auto.
  - inversion Hg as [|? ? Hx Hxs]; subst.
    destruct (turn x acc w Hk Hx) as (w1 & e1 & E1 & K1 & T1 & N1).
    destruct (IH (acc + Z.of_nat (List.length (emit x))) w1 K1 Hxs)
      as (w2 & e2 & E2 & K2 & T2 & N2).
    exists w2, (e1 ++ e2). cbn [for_of flat_map]. unfold bind. rewrite E1, E2.
    repeat split.
    + f_equal. f_equal. rewrite length_app, Nat2Z.inj_add. lia.
    + exact K2.
    + rewrite T2, T1, app_assoc. reflexivity.
    + rewrite notification_attempts_app, N1, N2. reflexivity.
Qed.

End EmittingLoop.

Section ReadingLoop.

Context {A S X : Type}.
Variable body : A -> S -> M S.
Variable keeps : World -> Prop.
Variable good : A -> Prop.
Variable read : list Event -> list X.
Variable emit : A -> list X.

Hypothesis read_app : forall a b, read (a ++ b) = read a ++ read b.

Hypothesis turn : forall x acc w,
    keeps w -> good x ->
    exists acc' w' evs,
      body x acc w = (Ok acc', w') /\
      keeps w' /\
      trace w' = trace w ++ evs /\
      read evs = emit x.

Lemma for_of_reads xs : forall acc w,
    keeps w -> Forall good xs ->
    exists acc' w' evs,
      for_of xs body acc w = (Ok acc', w') /\
      keeps w' /\
      trace w' = trace w ++ evs /\
      read evs = flat_map emit xs.
Proof.
  induction xs as [|x xs IH]; intros acc w Hk Hg.
  - exists acc, w, []. cbn. rewrite app_nil_r.
    split; [reflexivity|split; [exact Hk|split; [reflexivity|]]].
    pose proof (read_app [] []) as H. cbn [app] in H.
    apply (f_equal (@List.length X)) in H. rewrite length_app in H.
    destruct (read []); [reflexivity|cbn [List.length] in H; lia].
  - inversion Hg as [|? ? Hx Hxs]; subst.
    destruct (turn x acc w Hk Hx) as (a1 & w1 & e1 & E1 & K1 & T1 & N1).
    destruct (IH a1 w1 K1 Hxs) as (a2 & w2 & e2 & E2 & K2 & T2 & N2).
    exists a2, w2, (e1 ++ e2). cbn [for_of flat_map]. unfold bind. rewrite E1, E2.
    split; [reflexivity|split; [exact K2|split]].
    + rewrite T2, T1, app_assoc. reflexivity.
    + rewrite read_app, N1, N2. reflexivity.
Qed.

End ReadingLoop.

(** ** The queries and the builders against the tables and the messages *)

Lemma hd_error_filter {A} (p : A -> bool) (l : list A) :
  hd_error (filter p l) = find p l.
Proof.
  induction l as [|x l IH]; [reflexivity|].
  cbn. destruct (p x); [reflexivity|exact IH].
Qed.

(** [habit.streak[0]] of a query with [streak: { where: { current_streak:
    { gt: n } } }] is the first streak row of the habit above [n]. *)
Lemma first_streak_above d hid n :
  hd_error (streaks_of d hid (Some n)) = streak_above n d hid.
Proof. unfold streaks_of, streak_above. apply hd_error_filter. Qed.

(** [habit.streak[0]] of a query with [streak: true] is the first streak row
    of the habit. *)
Lemma first_streak_any d hid : hd_error (streaks_of d hid None) = streak_row d hid.
Proof.
  unfold streaks_of, streak_row. rewrite hd_error_filter.
  induction (streaks d) as [|s l IH]; [reflexivity|].
  cbn [find]. rewrite andb_true_r, IH. reflexivity.
Qed.

Lemma or_null_nonzero z : or_null_Z (Some z) = nonzero z.
Proof. destruct z; reflexivity. Qed.

Lemma filter_and {A} (p q : A -> bool) (l : list A) :
  filter p (filter q l) = filter (fun x => q x && p x) l.
Proof.
  induction l as [|x l IH]; [reflexivity|].
  cbn. destruct (q x); cbn; [destruct (p x)|]; rewrite IH; reflexivity.
Qed.

(** The notifications and reminders the code builds are the ones written
    out. *)
Lemma milestone_notice_built h n :
  create_data (milestone_notification h n) = milestone_notice h n.
Proof.
  unfold create_data, milestone_notification, milestone_notice.
  cbn [NotificationData.user_id NotificationData.title NotificationData.content
       NotificationData.type NotificationData.related_id NotificationData.action_url].
  rewrite or_null_nonzero. reflexivity.
Qed.

Lemma at_risk_notice_built h n :
  create_data (streak_warning_notification (Habit.user_id h) (Habit.name h) n
                 (Habit.habit_id h)) =
  at_risk_notice h n.
Proof.
  unfold create_data, streak_warning_notification, at_risk_notice.
  cbn [NotificationData.user_id NotificationData.title NotificationData.content
       NotificationData.type NotificationData.related_id NotificationData.action_url].
  rewrite or_null_nonzero. reflexivity.
Qed.

Lemma at_risk_reminder_built h n t :
  streak_warning_reminder (Habit.user_id h) (Habit.name h) n (Habit.habit_id h) t =
  at_risk_reminder h n t.
Proof. reflexivity. Qed.

Lemma urgent_notice_built h n :
  create_data (preservation_notification h n) = urgent_notice h n.
Proof.
  unfold create_data, preservation_notification, urgent_notice.
  cbn [NotificationData.user_id NotificationData.title NotificationData.content
       NotificationData.type NotificationData.related_id NotificationData.action_url].
  rewrite or_null_nonzero. reflexivity.
Qed.

Lemma goal_notice_built u n : create_data (goal_notification u n) = goal_notice u n.
Proof. reflexivity. Qed.

(** ** The milestone scan *)

Lemma milestone_turn env row acc w :
  True -> row_has_owner row ->
  exists w' evs,
    milestone_step env row acc w =
      (Ok (acc + Z.of_nat (List.length (milestone_emit row))), w') /\
    True /\
    trace w' = trace w ++ evs /\
    notification_attempts evs = milestone_emit row.
Proof.
  intros _ Hu. unfold milestone_step, milestone_emit, row_has_owner in *.
  destruct (HabitRow.streak row) as [|s ss].
  { exists w, []. cbn. rewrite Z.add_0_r, app_nil_r. auto. }
  destruct (HabitRow.user row) as [u|]; [|congruence].
  destruct (User.prefersNotifications u); cbn [negb andb].
  2:{ exists w, []. cbn. rewrite Z.add_0_r, app_nil_r. auto. }
  destruct ((0 <? HabitStreak.current_streak s) &&
            includes milestones (HabitStreak.current_streak s)).
  2:{ exists w, []. cbn. rewrite Z.add_0_r, app_nil_r. auto. }
  destruct (createNotification_notified env
              (milestone_notification (HabitRow.habit row) (HabitStreak.current_streak s)) w)
    as (r & w' & E & _ & _ & _ & (evs & T & N) & _).
  exists w', evs. unfold bind. rewrite E. cbn. auto.
Qed.

Lemma milestone_rows d hs :
  (forall h, In h hs -> find_user d (Habit.user_id h) <> None) ->
  Forall row_has_owner (map (join_habit d None) (filter Habit.is_active hs)) /\
  flat_map milestone_emit (map (join_habit d None) (filter Habit.is_active hs)) =
  map (milestone_attempt d) (filter (milestone_due d) hs).
Proof.
  induction hs as [|h hs IH]; intros Ho; [cbn; auto|].
  destruct IH as [IH1 IH2]; [intros; apply Ho; right; assumption|].
  assert (Hh := Ho h (or_introl eq_refl)).
  cbn [filter]. unfold milestone_due at 1. unfold first_streak.
  destruct (Habit.is_active h); cbn [andb map flat_map]; [|auto].
  split; [constructor; [exact Hh|exact IH1]|].
  rewrite IH2. unfold milestone_emit at 1, join_habit at 1 2. cbn [HabitRow.streak HabitRow.user HabitRow.habit].
  destruct (find_user d (Habit.user_id h)) as [u|]; [|congruence].
  destruct (streaks_of d (Habit.habit_id h) None) as [|s ss] eqn:Es; cbn [hd_error].
  { rewrite andb_false_r. reflexivity. }
  fold milestones.
  destruct (User.prefersNotifications u &&
            ((0 <? HabitStreak.current_streak s) &&
             includes milestones (HabitStreak.current_streak s))); [|reflexivity].
  cbn [map app]. unfold milestone_attempt, first_streak. rewrite Es. reflexivity.
Qed.

(** The rule the query's rows are read by is the rule on the tables. *)
Lemma milestone_rule d h :
  milestone_due d h = milestone_reached d h /\
  milestone_attempt d h = milestone_notice h (length_of (streak_row d (Habit.habit_id h))).
Proof.
  unfold milestone_due, milestone_reached, milestone_attempt, first_streak.
  rewrite first_streak_any, milestone_notice_built. split; reflexivity.
Qed.

(** C4.  When the population query returns and every habit has its owner,
    the milestone scan completes, and the notifications it creates are, in
    table order, exactly those of the habits that are active, whose owner
    prefers notifications, and whose first streak row has a positive current
    streak equal to one of 7, 14, 21, 30, 60, 90, 100, 180, 365; the count it
    reports is their number.  The notification is for the owner of the habit,
    of type STREAK_MILESTONE, titled with the streak ('7-Day Streak! ...'),
    and it links to the habit. *)
Theorem milestone_scan_exact :
  forall (env : Env) (w : World),
    rejects env (List.length (trace w)) (habit_findMany_active None) = None ->
    owners_present (db w) ->
    let scan := streak_milestone_check_body env in
    let due := filter (milestone_reached (db w)) (habits (db w)) in
    (exists details,
        outcome scan w = Ok details /\
        In ("milestoneNotificationsSent", JNum (Z.of_nat (List.length due))) details) /\
    notification_attempts (events_since w (exec scan w)) =
    map (fun h => milestone_notice h (length_of (streak_row (db w) (Habit.habit_id h)))) due.
Proof.
  intros env w Hq Ho scan due. unfold scan, outcome, exec.
  destruct (milestone_rows (db w) (habits (db w)) Ho) as [Hg Hf].
  assert (Hdue : filter (milestone_due (db w)) (habits (db w)) = due).
  { apply filter_ext. intros h. apply milestone_rule. }
  rewrite Hdue in Hf.
  rewrite (map_ext _ _ (fun h => proj2 (milestone_rule (db w) h))) in Hf.
  unfold streak_milestone_check_body, duration_since, prisma_habit_findMany_active.
  unfold bind, Date_now, external, ret.
  rewrite Hq. cbn [fst snd].
  destruct (for_of_emits (milestone_step env) (fun _ => True) row_has_owner milestone_emit
              (milestone_turn env) (q_habit_findMany_active (db w) None) 0
              (set_db (db w) (record (EvCall (habit_findMany_active None) None) w)) I Hg)
    as (w' & evs & E & _ & T & N).
  rewrite E. cbn [fst snd].
  unfold q_habit_findMany_active in *. rewrite Hf in *.
  rewrite length_map in *.
  split.
  - eexists. split; [reflexivity|]. cbn. rewrite length_map. auto.
  - erewrite events_since_app.
    2:{ rewrite T. cbn [trace set_db record]. rewrite <- app_assoc. reflexivity. }
    cbn [app notification_attempts flat_map]. exact N.
Qed.

(** ** The daily-goal scan *)

Lemma goal_turn env w0 (Hc : count_never_rejected env) u acc w :
  same_base w0 w -> True ->
  exists w' evs,
    goal_step env (local_midnight (tz_offset env) (wall w0))
              (addDays 1 (local_midnight (tz_offset env) (wall w0))) u acc w =
      (Ok (acc + Z.of_nat (List.length (goal_emit env w0 u))), w') /\
    same_base w0 w' /\
    trace w' = trace w ++ evs /\
    notification_attempts evs = goal_emit env w0 u.
Proof.
  intros Hb _. unfold goal_step, prisma_habitLog_count. unfold bind, external.
  rewrite Hc. cbn [fst snd db set_db record].
  assert (Eq : q_habitLog_count (db w) (User.user_id u)
                 (local_midnight (tz_offset env) (wall w0))
                 (addDays 1 (local_midnight (tz_offset env) (wall w0)))
               = completed_today env w0 u).
  { unfold completed_today, q_habitLog_count.
    destruct Hb as (_ & _ & _ & _ & ->). reflexivity. }
  rewrite Eq. unfold goal_emit.
  destruct (User.dailyGoal u <=? completed_today env w0 u).
  - destruct (createNotification_notified env (goal_notification u (completed_today env w0 u))
                (set_db (db w) (record (EvCall (habitLog_count (User.user_id u)
                   (local_midnight (tz_offset env) (wall w0))
                   (addDays 1 (local_midnight (tz_offset env) (wall w0)))) None) w)))
      as (r & w' & E & B & _ & _ & (evs & T & N) & _).
    rewrite E. eexists w', (_ :: evs). split; [reflexivity|]. split; [|split].
    + eapply same_base_trans; [exact Hb|]. eapply same_base_trans; [|exact B].
      repeat split.
    + rewrite T. cbn [trace set_db record]. rewrite <- app_assoc. reflexivity.
    + cbn. exact N.
  - eexists _, [_]. split; [cbn; rewrite Z.add_0_r; reflexivity|].
    split; [|split; reflexivity].
    eapply same_base_trans; [exact Hb|]. repeat split.
Qed.

Lemma flat_map_if_filter {A B} (p : A -> bool) (f : A -> B) (xs : list A) :
  flat_map (fun x => if p x then [f x] else []) xs = map f (filter p xs).
Proof.
  induction xs as [|x xs IH]; [reflexivity|].
  cbn. destruct (p x); cbn; rewrite IH; reflexivity.
Qed.

(** The scan on one world: it completes and attempts exactly the
    congratulations of [goal_achievers]. *)
Lemma daily_goal_scan_run env w :
  rejects env (List.length (trace w)) user_findMany_goal = None ->
  count_never_rejected env ->
  (exists details,
      outcome (daily_goal_check_body env) w = Ok details /\
      In ("notificationsSent", JNum (Z.of_nat (List.length (goal_achievers env w)))) details) /\
  notification_attempts (events_since w (exec (daily_goal_check_body env) w)) =
    map (goal_attempt env w) (goal_achievers env w) /\
  same_base w (exec (daily_goal_check_body env) w).
Proof.
  intros Hq Hc. unfold outcome, exec.
  unfold daily_goal_check_body, duration_since, prisma_user_findMany_goal.
  unfold bind, Date_now, external, ret.
  rewrite Hq. cbn [fst snd].
  destruct (for_of_emits
              (goal_step env (local_midnight (tz_offset env) (wall w))
                             (addDays 1 (local_midnight (tz_offset env) (wall w))))
              (same_base w) (fun _ => True) (goal_emit env w)
              (goal_turn env w Hc) (q_user_findMany_goal (db w)) 0
              (set_db (db w) (record (EvCall user_findMany_goal None) w)))
    as (w' & evs & E & B & T & N).
  { repeat split. }
  { apply Forall_forall. auto. }
  rewrite E. cbn [fst snd].
  unfold goal_emit in *. rewrite flat_map_if_filter in *.
  fold (goal_achievers env w) in *. rewrite length_map in *.
  split; [|split].
  - eexists. split; [reflexivity|]. cbn. auto.
  - erewrite events_since_app.
    2:{ rewrite T. cbn [trace set_db record]. rewrite <- app_assoc. reflexivity. }
    cbn [app notification_attempts flat_map]. exact N.
  - exact B.
Qed.

Lemma goal_achievers_same_base env w w2 :
  same_base w w2 ->
  goal_achievers env w2 = goal_achievers env w /\
  forall u, goal_attempt env w2 u = goal_attempt env w u.
Proof.
  intros (Hw & Hu & _ & _ & Hl).
  assert (Hc : forall u, completed_today env w2 u = completed_today env w u).
  { intros u. unfold completed_today, q_habitLog_count. rewrite Hl, Hw. reflexivity. }
  split.
  - unfold goal_achievers, q_user_findMany_goal. rewrite Hu.
    apply filter_ext. intros u. rewrite Hc. reflexivity.
  - intros u. unfold goal_attempt. rewrite Hc. reflexivity.
Qed.

Lemma same_local_day offset now t :
  (local_midnight offset now <=? t) && (t <? addDays 1 (local_midnight offset now)) =
  (local_midnight offset t =? local_midnight offset now).
Proof.
  unfold local_midnight, addDays.
  assert (Hd : 0 < MS_PER_DAY) by (unfold MS_PER_DAY, MS_PER_HOUR; lia).
  pose proof (Z.div_mod (now + offset) MS_PER_DAY ltac:(lia)) as En.
  pose proof (Z.div_mod (t + offset) MS_PER_DAY ltac:(lia)) as Et.
  pose proof (Z.mod_pos_bound (now + offset) MS_PER_DAY Hd) as Bn.
  pose proof (Z.mod_pos_bound (t + offset) MS_PER_DAY Hd) as Bt.
  set (qn := (now + offset) / MS_PER_DAY) in *. set (qt := (t + offset) / MS_PER_DAY) in *.
  set (rn := (now + offset) mod MS_PER_DAY) in *. set (rt := (t + offset) mod MS_PER_DAY) in *.
  destruct (Z.eqb_spec (t - rt) (now - rn)) as [Heq|Hne].
  - apply andb_true_intro. split; [apply Z.leb_le|apply Z.ltb_lt]; lia.
  - apply andb_false_iff.
    destruct (Z.leb_spec (now - rn) t) as [Hle|]; [|left; reflexivity].
    right. apply Z.ltb_ge.
    assert (qt <> qn) by (intros ->; lia).
    assert (qn <= qt) by nia.
    nia.
Qed.

(** The count of the scan's query is the number of the user's completed
    logs dated today; the users of its first query are those the claim has it
    consider; its notification is the congratulation written out. *)
Lemma goal_rule env w :
  goal_achievers env w = filter (goal_reached env w) (users (db w)) /\
  forall u, goal_attempt env w u = goal_notice u (completions_today env w u).
Proof.
  assert (Hc : forall u, completed_today env w u = completions_today env w u).
  { intros u. unfold completed_today, completions_today, q_habitLog_count. f_equal. f_equal.
    apply filter_ext. intros l. unfold completed_within, completed_on_day_of.
    rewrite <- andb_assoc. rewrite same_local_day. reflexivity. }
  split.
  - unfold goal_achievers, q_user_findMany_goal. rewrite filter_and.
    apply filter_ext. intros u. unfold goal_reached, considered_for_goal.
    rewrite Hc. reflexivity.
  - intros u. unfold goal_attempt. rewrite Hc. apply goal_notice_built.
Qed.

(** C8.  When its queries return, the daily-goal scan completes, and the
    congratulations it creates are exactly those of the users with
    notifications on, not on vacation and with a daily goal above 0 whose
    number of completed logs dated today is at least their goal: an
    ACHIEVEMENT_UNLOCKED notification 'Daily Goal Achieved! ...' that names
    the count and the goal.  Nothing in that rule reads the Notification
    table: on any world with the same users, logs and clock the scan creates
    the same notifications again, in particular on the world its own first
    run left behind. *)
Theorem daily_goal_scan_exact :
  forall (env : Env) (w : World),
    rejects env (List.length (trace w)) user_findMany_goal = None ->
    count_never_rejected env ->
    let scan := daily_goal_check_body env in
    let achievers := filter (goal_reached env w) (users (db w)) in
    (exists details,
        outcome scan w = Ok details /\
        In ("notificationsSent", JNum (Z.of_nat (List.length achievers))) details) /\
    notification_attempts (events_since w (exec scan w)) =
      map (fun u => goal_notice u (completions_today env w u)) achievers /\
    same_base w (exec scan w) /\
    (forall w2,
        same_base w w2 ->
        rejects env (List.length (trace w2)) user_findMany_goal = None ->
        notification_attempts (events_since w2 (exec scan w2)) =
        notification_attempts (events_since w (exec scan w))).
Proof.
  intros env w Hq Hc scan achievers.
  destruct (daily_goal_scan_run env w Hq Hc) as (H1 & H2 & H3).
  destruct (goal_rule env w) as [Ha Hn].
  rewrite Ha in H1, H2. fold achievers in H1, H2.
  rewrite (map_ext _ _ Hn) in H2.
  repeat split; try assumption; try apply H3.
  intros w2 Hb Hq2.
  destruct (daily_goal_scan_run env w2 Hq2 Hc) as (_ & H2' & _).
  unfold scan. rewrite H2', H2. rewrite <- (map_ext _ _ Hn).
  fold achievers. unfold achievers. rewrite <- Ha.
  destruct (goal_achievers_same_base env w w2 Hb) as [-> Hs].
  apply map_ext. exact Hs.
Qed.

(** ** The welcome job *)

Lemma is_welcome_of_created u uid w :
  is_welcome_of uid (created (welcome_notification u) w) = (User.user_id u =? uid).
Proof.
  unfold is_welcome_of, created, new_notification, create_data, welcome_notification.
  cbn [Notification.user_id Notification.type Notification.title
       NotificationCreate.user_id NotificationCreate.type NotificationCreate.title
       NotificationData.user_id NotificationData.type NotificationData.title
       NotificationType_eqb].
  replace (contains "Welcome" "Welcome to HabitPulse! 👋") with true by reflexivity.
  rewrite !andb_true_r. reflexivity.
Qed.

Lemma welcome_step_run env u acc w :
  exists w',
    welcome_step env u acc w = (Ok (acc + 1), w') /\
    users (db w') = users (db w) /\
    (exists evs, trace w' = trace w ++ evs /\ notification_attempts evs = [welcome_attempt u]) /\
    forall uid,
      (welcomes (db w') uid <= welcomes (db w) uid + (if is_user uid u then 1 else 0))%nat.
Proof.
  unfold welcome_step, try_catch, bind.
  destruct (createNotification_notified env (welcome_notification u) w)
    as (r & w' & E & (_ & Hu & _) & _ & _ & Hev & Hn).
  rewrite E. exists w'. cbn [ret]. repeat split; auto.
  intros uid. unfold welcomes, is_user.
  assert (Hcases : notifications (db w') = notifications (db w) \/
                   notifications (db w') =
                   notifications (db w) ++ [created (welcome_notification u) w]).
  { destruct r as [n|]; [|exact Hn]. destruct Hn as [-> ->]. auto. }
  destruct Hcases as [-> | ->]; [lia|].
  rewrite filter_app, length_app. cbn [filter].
  rewrite is_welcome_of_created.
  destruct (User.user_id u =? uid); cbn [List.length]; lia.
Qed.

Lemma welcome_loop env xs : forall acc w,
  exists acc' w',
    for_of xs (welcome_step env) acc w = (Ok acc', w') /\
    users (db w') = users (db w) /\
    (exists evs, trace w' = trace w ++ evs /\
                 notification_attempts evs = map welcome_attempt xs) /\
    forall uid,
      (welcomes (db w') uid <=
       welcomes (db w) uid + List.length (filter (is_user uid) xs))%nat.
Proof.
  induction xs as [|u xs IH]; intros acc w.
  - exists acc, w. cbn. split; [reflexivity|split; [reflexivity|split]].
    + exists []. rewrite app_nil_r. auto.
    + intros uid. lia.
  - destruct (welcome_step_run env u acc w) as (w1 & E1 & U1 & (e1 & T1 & N1) & C1).
    destruct (IH (acc + 1) w1) as (acc' & w2 & E2 & U2 & (e2 & T2 & N2) & C2).
    exists acc', w2. cbn [for_of]. unfold bind. rewrite E1, E2.
    repeat split.
    + congruence.
    + exists (e1 ++ e2). rewrite T2, T1, app_assoc, notification_attempts_app, N1, N2.
      auto.
    + intros uid. specialize (C1 uid). specialize (C2 uid). cbn [filter].
      destruct (is_user uid u); cbn [List.length]; lia.
Qed.

Lemma filter_none {A} (p : A -> bool) (xs : list A) :
  (forall x, In x xs -> p x = false) -> filter p xs = [].
Proof.
  induction xs as [|x xs IH]; intros H; [reflexivity|].
  cbn. rewrite (H x (or_introl eq_refl)). apply IH. intros y Hy. apply H. right. exact Hy.
Qed.

Lemma filter_is_user_NoDup uid (xs : list User.t) :
  NoDup (map User.user_id xs) -> (List.length (filter (is_user uid) xs) <= 1)%nat.
Proof.
  induction xs as [|u xs IH]; intros Hnd; cbn [filter map List.length] in *; [lia|].
  inversion Hnd as [|? ? Hni Hnd']; subst. specialize (IH Hnd').
  unfold is_user at 1. destruct (Z.eqb_spec (User.user_id u) uid) as [Eu|]; [|exact IH].
  assert (filter (is_user uid) xs = []) as ->; [|cbn; lia].
  apply filter_none. intros v Hv.
  unfold is_user. destruct (Z.eqb_spec (User.user_id v) uid) as [Ev|]; [|reflexivity].
  exfalso. apply Hni. rewrite Eu, <- Ev. apply in_map. exact Hv.
Qed.

Lemma NoDup_map_filter {A B} (f : A -> B) (p : A -> bool) (xs : list A) :
  NoDup (map f xs) -> NoDup (map f (filter p xs)).
Proof.
  induction xs as [|x xs IH]; intros Hnd; cbn; [constructor|].
  inversion Hnd as [|? ? Hni Hnd']; subst.
  destruct (p x); [|auto]. cbn. constructor; [|auto].
  intros Hin. apply Hni. apply in_map_iff in Hin. destruct Hin as (y & Ey & Hy).
  apply filter_In in Hy. apply in_map_iff. exists y. tauto.
Qed.

(** A user who already has a welcome notification is not selected. *)
Lemma welcomed_not_selected d since uid :
  (0 < welcomes d uid)%nat ->
  filter (is_user uid) (q_user_findMany_new d since) = [].
Proof.
  intros Hw. apply filter_none.
  intros u Hu. unfold q_user_findMany_new in Hu. apply filter_In in Hu.
  destruct Hu as [_ Hu]. apply andb_prop in Hu. destruct Hu as [_ Hu].
  unfold is_user. destruct (Z.eqb_spec (User.user_id u) uid) as [Eu|]; [|reflexivity].
  exfalso. rewrite Eu in Hu. apply negb_true_iff in Hu.
  unfold welcomes in Hw.
  destruct (filter (is_welcome_of uid) (notifications d)) as [|n ns] eqn:Ef;
    [cbn in Hw; lia|].
  assert (Hin : In n (filter (is_welcome_of uid) (notifications d)))
    by (rewrite Ef; left; reflexivity).
  apply filter_In in Hin.
  assert (existsb (is_welcome_of uid) (notifications d) = true)
    by (apply existsb_exists; exists n; exact Hin).
  congruence.
Qed.

(** The query of the welcome job, in terms of [welcomes]. *)
Lemma q_user_findMany_new_welcomes d since :
  q_user_findMany_new d since =
  filter (fun u => (since <=? User.registeredAt u) &&
                   (welcomes d (User.user_id u) =? 0)%nat)
         (users d).
Proof.
  unfold q_user_findMany_new. apply filter_ext. intros u. f_equal.
  unfold welcomes. induction (notifications d) as [|n ns IH]; [reflexivity|].
  cbn [existsb filter]. destruct (is_welcome_of (User.user_id u) n); [reflexivity|].
  exact IH.
Qed.

(** The body of the welcome job on one world. *)
Lemma welcome_body_run env w :
  let w' := exec (new_user_welcome_body env) w in
  let since := wall w - 30 * 60 * 1000 in
  users (db w') = users (db w) /\
  (exists evs,
      trace w' = trace w ++ evs /\
      (rejects env (List.length (trace w)) (user_findMany_new since) = None ->
       notification_attempts evs =
       map welcome_attempt (q_user_findMany_new (db w) since))) /\
  forall uid,
    NoDup (map User.user_id (users (db w))) ->
    (welcomes (db w) uid <= 1)%nat -> (welcomes (db w') uid <= 1)%nat.
Proof.
  cbv zeta. unfold exec.
  unfold new_user_welcome_body, duration_since, prisma_user_findMany_new.
  unfold bind, Date_now, external, ret.
  destruct (rejects env (List.length (trace w)) (user_findMany_new (wall w - 30 * 60 * 1000)))
    as [e|] eqn:Hq; cbn [fst snd].
  { split; [reflexivity|split; [|auto]]. eexists. split; [reflexivity|discriminate]. }
  destruct (welcome_loop env (q_user_findMany_new (db w) (wall w - 30 * 60 * 1000)) 0
              (set_db (db w) (record (EvCall (user_findMany_new (wall w - 30 * 60 * 1000)) None) w)))
    as (acc' & w2 & E & U & (evs & T & N) & C).
  rewrite E. cbn [fst snd].
  split; [exact U|split].
  - eexists. split.
    + rewrite T. cbn [trace set_db record]. rewrite <- app_assoc. reflexivity.
    + intros _. cbn [app notification_attempts flat_map]. exact N.
  - intros uid Hnd Hle. specialize (C uid). cbn [db set_db record] in C.
    destruct (welcomes (db w) uid) as [|k] eqn:Ek.
    + pose proof (filter_is_user_NoDup uid (q_user_findMany_new (db w) (wall w - 30 * 60 * 1000))
                    (NoDup_map_filter _ _ _ Hnd)). lia.
    + rewrite (welcomed_not_selected (db w) (wall w - 30 * 60 * 1000) uid) in C
        by (rewrite Ek; lia).
      cbn [List.length] in C. lia.
Qed.

Lemma welcome_handler_run env w :
  exec (new_user_welcome env) w =
  record (EvJobStatus
            (terminal_line "new-user-welcome"
               (wall (exec (new_user_welcome_body env)
                        (record (EvJobStatus (started_line "new-user-welcome" (wall w))) w)))
               (outcome (new_user_welcome_body env)
                        (record (EvJobStatus (started_line "new-user-welcome" (wall w))) w))))
         (exec (new_user_welcome_body env)
               (record (EvJobStatus (started_line "new-user-welcome" (wall w))) w)).
Proof.
  unfold new_user_welcome. unfold exec at 1. rewrite cron_job_run. reflexivity.
Qed.

(** C10.  The welcome job creates at most one welcome notification per
    user over all of its runs: with user ids unique, a user who has at most
    one welcome row (a SYSTEM_MESSAGE whose title contains 'Welcome') before
    a sequence of runs has at most one after it, whatever the environment
    does in each run.  Each run whose query returns attempts a welcome only
    for the users registered in the last 30 minutes that have no such row. *)
Theorem welcome_at_most_once :
  forall (runs : list (Env * Z)) (w : World) (uid : Z),
    NoDup (map User.user_id (users (db w))) ->
    (welcomes (db w) uid <= 1)%nat ->
    (welcomes (db (welcome_runs runs w)) uid <= 1)%nat /\
    (forall env,
        let w1 := record (EvJobStatus (started_line "new-user-welcome" (wall w))) w in
        let since := wall w - 30 * 60 * 1000 in
        rejects env (List.length (trace w1)) (user_findMany_new since) = None ->
        notification_attempts (events_since w (exec (new_user_welcome env) w)) =
        map welcome_attempt
            (filter (fun u => (since <=? User.registeredAt u) &&
                              (welcomes (db w) (User.user_id u) =? 0)%nat)
                    (users (db w)))).
Proof.
  intros runs w uid Hnd Hle. split.
  - revert w Hnd Hle. induction runs as [|[env t] runs IH]; intros w Hnd Hle; [exact Hle|].
    cbn [welcome_runs]. rewrite welcome_handler_run.
    pose proof (welcome_body_run env
                  (record (EvJobStatus (started_line "new-user-welcome" (wall (set_wall t w))))
                          (set_wall t w))) as H.
    cbv zeta in H. destruct H as (U & _ & C).
    apply IH.
    + cbn [db record]. rewrite U. exact Hnd.
    + cbn [db record]. apply C; assumption.
  - intros env w1 since Hq. rewrite welcome_handler_run.
    pose proof (welcome_body_run env w1) as H. cbv zeta in H.
    destruct H as (_ & (evs & T & A) & _). specialize (A Hq).
    fold w1. erewrite events_since_app.
    2:{ cbn [trace record]. rewrite T. unfold w1. cbn [trace record].
        rewrite <- !app_assoc. reflexivity. }
    rewrite !notification_attempts_app. cbn [notification_attempts flat_map app].
    rewrite app_nil_r, A. unfold w1. cbn [db record wall].
    rewrite q_user_findMany_new_welcomes. reflexivity.
Qed.

(** ** The at-risk warning scan *)

(** [createNotification] makes no reminder. *)
Lemma createNotification_no_reminders env data w evs :
  trace (exec (createNotification env data) w) = trace w ++ evs ->
  reminder_attempts evs = [].
Proof.
  unfold exec.
  destruct (rejects env (List.length (trace w))
              (notification_create (create_data data))) as [e|] eqn:Hc.
  - rewrite (createNotification_create_rejected _ _ _ _ Hc). cbn [snd trace record].
    rewrite <- app_assoc. intros H. apply app_inv_head in H. subst evs. reflexivity.
  - destruct (rejects env (List.length (trace (after_create data w)))
                (push_call data (created data w))) as [e|] eqn:Hp.
    + rewrite (createNotification_push_rejected _ _ _ _ Hc Hp).
      cbn [snd trace record after_create set_db]. rewrite <- !app_assoc.
      intros H. apply app_inv_head in H. subst evs. reflexivity.
    + rewrite (createNotification_delivered _ _ _ Hc Hp).
      cbn [snd trace record after_create set_db]. rewrite <- !app_assoc.
      intros H. apply app_inv_head in H. subst evs. reflexivity.
Qed.

Lemma createStreakWarningNotification_run env u n c h w :
  exists w' evs,
    createStreakWarningNotification env u n c h w = (Ok tt, w') /\
    wall w' = wall w /\
    trace w' = trace w ++ evs /\
    notification_attempts evs = [create_data (streak_warning_notification u n c h)] /\
    reminder_attempts evs =
      (if before_8pm env (wall w)
       then [streak_warning_reminder u n c h (setHours_20 (tz_offset env) (wall w))]
       else []).
Proof.
  unfold createStreakWarningNotification, try_catch, bind.
  destruct (createNotification_notified env (streak_warning_notification u n c h) w)
    as (r & w1 & E & (Hw & _) & _ & _ & (evs & T & N) & _).
  assert (R : reminder_attempts evs = []).
  { apply (createNotification_no_reminders env (streak_warning_notification u n c h) w).
    unfold exec. rewrite E. exact T. }
  rewrite E. unfold Date_now, before_8pm. rewrite Hw.
  destruct (wall w <? setHours_20 (tz_offset env) (wall w)).
  - unfold prisma_scheduledReminder_create, external.
    destruct (rejects env (List.length (trace w1)) _) as [e|].
    + eexists _, (evs ++ [_; _]). split; [reflexivity|]. split; [exact Hw|].
      cbn [trace record]. rewrite T, <- !app_assoc. split; [reflexivity|].
      rewrite notification_attempts_app, reminder_attempts_app, N, R. split; reflexivity.
    + eexists _, (evs ++ [_]). split; [reflexivity|]. split; [exact Hw|].
      cbn [trace record set_db]. rewrite T, <- !app_assoc. split; [reflexivity|].
      rewrite notification_attempts_app, reminder_attempts_app, N, R. split; reflexivity.
  - exists w1, evs. auto.
Qed.

(** One turn of the warning loop: what it counts, notifies and schedules. *)
Lemma warning_turn_full env now
    (Hs : scheduled_never_rejected env) (Hc : completed_never_rejected env) row acc w :
  wall w = now -> row_has_owner row ->
  exists w' evs,
    warning_step env row acc w =
      (Ok (acc + Z.of_nat (List.length (warning_emit env now row))), w') /\
    wall w' = now /\
    trace w' = trace w ++ evs /\
    notification_attempts evs = warning_emit env now row /\
    reminder_attempts evs = warning_remind env now row.
Proof.
  intros Hw Hu. unfold warning_step, warning_emit, warning_remind, row_has_owner in *.
  destruct (HabitRow.streak row) as [|s ss].
  { exists w, []. cbn. rewrite Z.add_0_r, app_nil_r. auto. }
  destruct (HabitRow.user row) as [u|]; [|congruence].
  destruct (User.onVacation u); cbn [negb andb].
  { exists w, []. cbn. rewrite Z.add_0_r, app_nil_r. auto. }
  unfold bind, Date_now, reminderService_isHabitScheduledForDate,
    reminderService_isHabitCompletedForDate, external.
  rewrite Hs, Hw. cbn [fst snd db set_db record trace].
  destruct (svc_isHabitScheduledForDate env (HabitRow.habit row) now); cbn [negb andb].
  2:{ eexists _, [_]. cbn [List.length Z.of_nat]. rewrite Z.add_0_r.
      split; [reflexivity|split; [exact Hw|split; [reflexivity|split; reflexivity]]]. }
  rewrite Hc. cbn [fst snd].
  destruct (svc_isHabitCompletedForDate env _ _ now); cbn [negb andb].
  { eexists _, [_; _]. cbn [List.length Z.of_nat]. rewrite Z.add_0_r.
    split; [reflexivity|split; [exact Hw|split]].
    - cbn [trace set_db record]. rewrite <- app_assoc. reflexivity.
    - split; reflexivity. }
  match goal with
  | |- context [createStreakWarningNotification env ?a ?b ?c ?d ?w0] =>
      destruct (createStreakWarningNotification_run env a b c d w0)
        as (w' & evs & E & Hw' & T & N & R)
  end.
  cbn [wall set_db record] in Hw', R. rewrite Hw in R.
  rewrite E. eexists w', (_ :: _ :: evs). split; [reflexivity|]. split; [|split; [|split]].
  - rewrite Hw'. exact Hw.
  - rewrite T. cbn [trace set_db record]. rewrite <- !app_assoc. reflexivity.
  - cbn. exact N.
  - change (reminder_attempts evs =
            (if before_8pm env now
             then [streak_warning_reminder (Habit.user_id (HabitRow.habit row))
                     (Habit.name (HabitRow.habit row)) (HabitStreak.current_streak s)
                     (Habit.habit_id (HabitRow.habit row))
                     (setHours_20 (tz_offset env) now)]
             else [])).
    exact R.
Qed.

Lemma warning_turn env now
    (Hs : scheduled_never_rejected env) (Hc : completed_never_rejected env) row acc w :
  wall w = now -> row_has_owner row ->
  exists w' evs,
    warning_step env row acc w =
      (Ok (acc + Z.of_nat (List.length (warning_emit env now row))), w') /\
    wall w' = now /\
    trace w' = trace w ++ evs /\
    notification_attempts evs = warning_emit env now row.
Proof.
  intros Hw Hu.
  destruct (warning_turn_full env now Hs Hc row acc w Hw Hu) as (w' & evs & E & W & T & N & _).
  exists w', evs. auto.
Qed.

Lemma warning_turn_reminders env now
    (Hs : scheduled_never_rejected env) (Hc : completed_never_rejected env) row acc w :
  wall w = now -> row_has_owner row ->
  exists acc' w' evs,
    warning_step env row acc w = (Ok acc', w') /\
    wall w' = now /\
    trace w' = trace w ++ evs /\
    reminder_attempts evs = warning_remind env now row.
Proof.
  intros Hw Hu.
  destruct (warning_turn_full env now Hs Hc row acc w Hw Hu) as (w' & evs & E & W & T & _ & R).
  eexists _, w', evs. split; [exact E|auto].
Qed.

Lemma warning_rows env w hs :
  (forall h, In h hs -> find_user (db w) (Habit.user_id h) <> None) ->
  Forall row_has_owner (map (join_habit (db w) (Some 2)) (filter Habit.is_active hs)) /\
  flat_map (warning_emit env (wall w))
           (map (join_habit (db w) (Some 2)) (filter Habit.is_active hs)) =
  map (warning_attempt w) (filter (warning_due env w) hs) /\
  flat_map (warning_remind env (wall w))
           (map (join_habit (db w) (Some 2)) (filter Habit.is_active hs)) =
  (if before_8pm env (wall w)
   then map (warning_reminder env w) (filter (warning_due env w) hs)
   else []).
Proof.
  induction hs as [|h hs IH]; intros Ho.
  { cbn. destruct (before_8pm env (wall w)); auto. }
  destruct IH as (IH1 & IH2 & IH3); [intros; apply Ho; right; assumption|].
  assert (Hh := Ho h (or_introl eq_refl)).
  cbn [filter].
  assert (Hd : warning_due env w h =
               Habit.is_active h &&
               match streaks_of (db w) (Habit.habit_id h) (Some 2) with
               | [] => false
               | _ :: _ => true
               end &&
               match find_user (db w) (Habit.user_id h) with
               | Some u => negb (User.onVacation u)
               | None => false
               end &&
               svc_isHabitScheduledForDate env h (wall w) &&
               negb (svc_isHabitCompletedForDate env (Habit.habit_id h)
                       (Habit.user_id h) (wall w))) by reflexivity.
  rewrite Hd. clear Hd.
  destruct (Habit.is_active h); cbn [andb map flat_map]; [|auto].
  split; [constructor; [exact Hh|exact IH1]|].
  rewrite IH2, IH3. unfold warning_emit, warning_remind, join_habit.
  cbn [HabitRow.streak HabitRow.user HabitRow.habit].
  destruct (streaks_of (db w) (Habit.habit_id h) (Some 2)) as [|s ss] eqn:Es;
    cbn [andb app]; [auto|].
  destruct (find_user (db w) (Habit.user_id h)) as [u|]; [|congruence].
  destruct (negb (User.onVacation u) && svc_isHabitScheduledForDate env h (wall w) &&
            negb (svc_isHabitCompletedForDate env (Habit.habit_id h) (Habit.user_id h) (wall w)));
    cbn [andb app map]; [|auto].
  assert (Ha : warning_attempt w h =
               create_data (streak_warning_notification (Habit.user_id h) (Habit.name h)
                              (HabitStreak.current_streak s) (Habit.habit_id h))).
  { unfold warning_attempt. rewrite Es. reflexivity. }
  assert (Hr : warning_reminder env w h =
               streak_warning_reminder (Habit.user_id h) (Habit.name h)
                 (HabitStreak.current_streak s) (Habit.habit_id h)
                 (setHours_20 (tz_offset env) (wall w))).
  { unfold warning_reminder. rewrite Es. reflexivity. }
  rewrite Ha, Hr.
  destruct (before_8pm env (wall w)); split; reflexivity.
Qed.

Lemma warning_scan_run env w :
  rejects env (List.length (trace w)) (habit_findMany_active (Some 2)) = None ->
  owners_present (db w) ->
  scheduled_never_rejected env ->
  completed_never_rejected env ->
  let due := filter (warning_due env w) (habits (db w)) in
  (exists details,
      outcome (streak_warning_check_body env) w = Ok details /\
      In ("warningsCreated", JNum (Z.of_nat (List.length due))) details) /\
  notification_attempts (events_since w (exec (streak_warning_check_body env) w)) =
    map (warning_attempt w) due /\
  reminder_attempts (events_since w (exec (streak_warning_check_body env) w)) =
    (if before_8pm env (wall w) then map (warning_reminder env w) due else []).
Proof.
  intros Hq Ho Hs Hc due. unfold outcome, exec.
  destruct (warning_rows env w (habits (db w)) Ho) as (Hg & Hf & Hr).
  unfold streak_warning_check_body, duration_since, prisma_habit_findMany_active.
  unfold bind, Date_now, external, ret.
  rewrite Hq. cbn [fst snd].
  destruct (for_of_emits (warning_step env) (fun w' => wall w' = wall w) row_has_owner
              (warning_emit env (wall w)) (warning_turn env (wall w) Hs Hc)
              (q_habit_findMany_active (db w) (Some 2)) 0
              (set_db (db w) (record (EvCall (habit_findMany_active (Some 2)) None) w))
              eq_refl Hg)
    as (w' & evs & E & _ & T & N).
  destruct (for_of_reads (warning_step env) (fun w' => wall w' = wall w) row_has_owner
              reminder_attempts (warning_remind env (wall w)) reminder_attempts_app
              (warning_turn_reminders env (wall w) Hs Hc)
              (q_habit_findMany_active (db w) (Some 2)) 0
              (set_db (db w) (record (EvCall (habit_findMany_active (Some 2)) None) w))
              eq_refl Hg)
    as (acc2 & w2 & evs2 & E2 & _ & T2 & N2).
  rewrite E in E2. inversion E2; subst acc2 w2. clear E2.
  rewrite T in T2. apply app_inv_head in T2. subst evs2.
  rewrite E. cbn [fst snd].
  unfold q_habit_findMany_active in *. rewrite Hf in *. rewrite Hr in N2.
  rewrite length_map in *. fold due in N, N2 |- *.
  assert (Hev : events_since w w' = EvCall (habit_findMany_active (Some 2)) None :: evs).
  { apply events_since_app. rewrite T. cbn [trace set_db record].
    rewrite <- app_assoc. reflexivity. }
  rewrite Hev. split; [|split].
  - eexists. split; [reflexivity|]. cbn. rewrite length_map. auto.
  - exact N.
  - exact N2.
Qed.

(** The rule the query's rows are read by is the rule on the tables, and
    the warning is the one written out. *)
Lemma setHours_20_eight_pm offset now : setHours_20 offset now = eight_pm offset now.
Proof. reflexivity. Qed.

Lemma warning_rule env w h :
  warning_due env w h = at_risk env w h /\
  warning_attempt w h = at_risk_notice h (risk_streak w h) /\
  warning_reminder env w h =
    at_risk_reminder h (risk_streak w h) (eight_pm (tz_offset env) (wall w)).
Proof.
  rewrite <- setHours_20_eight_pm.
  unfold warning_due, at_risk, warning_attempt, warning_reminder, risk_streak.
  pose proof (first_streak_above (db w) (Habit.habit_id h) 2) as H.
  destruct (streaks_of (db w) (Habit.habit_id h) (Some 2)) as [|s ss];
    cbn [hd_error] in H; rewrite <- H; cbn [length_of];
    rewrite at_risk_notice_built; repeat split; reflexivity.
Qed.

(** C3, as amended.  When the scan's first query and its calls of
    [isHabitScheduledForDate] and [isHabitCompletedForDate] return and every
    habit has its owner, the at-risk warning scan completes and warns
    exactly for the active habits that have a streak row with a current
    streak above 2, that are scheduled today and not completed today, and
    whose owner is not on vacation: for each of them it creates a 'Streak at
    Risk!' notification for the owner that names the streak and links to the
    habit and, when it runs before 20:00, a STREAK_WARNING reminder of the
    habit and its owner for 20:00; for no other habit does it create either.
    Quiet hours play no part: the scan creates the same warnings whatever
    [isInQuietHours] answers. *)
Theorem warning_scan_exact :
  forall (env : Env) (w : World),
    rejects env (List.length (trace w)) (habit_findMany_active (Some 2)) = None ->
    owners_present (db w) ->
    scheduled_never_rejected env ->
    completed_never_rejected env ->
    let scan := streak_warning_check_body in
    let due := filter (at_risk env w) (habits (db w)) in
    let warning h := at_risk_notice h (risk_streak w h) in
    let reminder h :=
      at_risk_reminder h (risk_streak w h) (eight_pm (tz_offset env) (wall w)) in
    (exists details,
        outcome (scan env) w = Ok details /\
        In ("warningsCreated", JNum (Z.of_nat (List.length due))) details) /\
    notification_attempts (events_since w (exec (scan env) w)) = map warning due /\
    reminder_attempts (events_since w (exec (scan env) w)) =
      (if wall w <? eight_pm (tz_offset env) (wall w) then map reminder due else []) /\
    (forall q,
        notification_attempts (events_since w (exec (scan (with_quiet_hours q env)) w)) =
        map warning due).
Proof.
  intros env w Hq Ho Hs Hc scan due warning reminder.
  assert (Hdue : forall e, (forall h, at_risk e w h = at_risk env w h) ->
                           filter (warning_due e w) (habits (db w)) = due).
  { intros e He. apply filter_ext. intros h. rewrite <- He. apply warning_rule. }
  assert (Hw : forall l, map (warning_attempt w) l = map warning l).
  { intros l. apply map_ext. intros h. apply (warning_rule env w h). }
  assert (Hr : forall l, map (warning_reminder env w) l = map reminder l).
  { intros l. apply map_ext. intros h. apply (warning_rule env w h). }
  destruct (warning_scan_run env w Hq Ho Hs Hc) as (H1 & H2 & H3).
  rewrite (Hdue env (fun h => eq_refl)) in H1, H2, H3. rewrite Hw in H2. rewrite Hr in H3.
  unfold before_8pm in H3. rewrite setHours_20_eight_pm in H3.
  split; [exact H1|split; [exact H2|split; [exact H3|]]].
  intros q.
  destruct (warning_scan_run (with_quiet_hours q env) w Hq Ho Hs Hc) as (_ & H4 & _).
  rewrite (Hdue (with_quiet_hours q env) (fun h => eq_refl)), Hw in H4. exact H4.
Qed.

(** ** The streak-preservation scan *)

Lemma matches_since_preservation hid uid since r :
  matches_since hid uid "STREAK_PRESERVATION" since r =
  is_preservation_of hid uid r && (since <=? ScheduledReminder.scheduled_time r).
Proof. reflexivity. Qed.

Lemma limited_nil now old : limited now old [].
Proof. split; [constructor|]. intros hid uid. cbn. split; [lia|reflexivity]. Qed.

Lemma limited_snoc now old added c :
  limited now old added ->
  find (matches_since (ReminderCreate.habit_id c) (ReminderCreate.user_id c)
                      "STREAK_PRESERVATION" (now - TWO_HOURS)) (old ++ added) = None ->
  ReminderCreate.reminder_type c = "STREAK_PRESERVATION" ->
  ReminderCreate.scheduled_time c = now ->
  forall id, limited now old (added ++ [new_reminder id c]).
Proof.
  intros [Hall Hpair] Hfind Hty Hst id. split.
  - apply Forall_app. split; [exact Hall|]. constructor; [|constructor].
    cbn. auto.
  - intros hid uid. destruct (Hpair hid uid) as [Hle Hrec].
    rewrite filter_app. cbn [filter].
    unfold is_preservation_of at 2 4.
    cbn [new_reminder ScheduledReminder.habit_id ScheduledReminder.user_id
         ScheduledReminder.reminder_type].
    rewrite Hty. cbn [String.eqb Ascii.eqb Bool.eqb]. rewrite andb_true_r.
    destruct (Z.eqb_spec (ReminderCreate.habit_id c) hid) as [Eh|];
      [|cbn [andb]; rewrite app_nil_r; auto].
    destruct (Z.eqb_spec (ReminderCreate.user_id c) uid) as [Eu|];
      [|cbn [andb]; rewrite app_nil_r; auto].
    cbn [andb]. subst hid uid.
    pose proof (find_none _ _ Hfind) as Hnone.
    assert (Hadded : filter (is_preservation_of (ReminderCreate.habit_id c)
                                                (ReminderCreate.user_id c)) added = []).
    { apply filter_none. intros x Hx.
      specialize (Hnone x (in_or_app _ _ _ (or_intror Hx))).
      rewrite matches_since_preservation in Hnone.
      rewrite Forall_forall in Hall. destruct (Hall x Hx) as [_ Hx2].
      rewrite Hx2 in Hnone.
      replace (now - TWO_HOURS <=? now) with true in Hnone
        by (symmetry; apply Z.leb_le; unfold TWO_HOURS; lia).
      rewrite andb_true_r in Hnone. exact Hnone. }
    rewrite Hadded. cbn [app List.length]. split; [lia|].
    intros Hex. exfalso. apply existsb_exists in Hex. destruct Hex as (x & Hx & Hm).
    rewrite (Hnone x (in_or_app _ _ _ (or_introl Hx))) in Hm. discriminate.
Qed.

(** An invariant of every turn is an invariant of the loop, whether the
    loop returns or throws. *)
Lemma for_of_keeps {A S} (body : A -> S -> M S) (keeps : World -> Prop) :
  (forall x acc w, keeps w -> keeps (exec (body x acc) w)) ->
  forall xs acc w, keeps w -> keeps (exec (for_of xs body acc) w).
Proof.
  intros Hb xs. induction xs as [|x xs IH]; intros acc w Hk; [exact Hk|].
  cbn [for_of]. unfold exec, bind. specialize (Hb x acc w Hk). unfold exec in Hb.
  destruct (body x acc w) as [[a|e] w1]; cbn [snd] in *; [|exact Hb].
  apply IH. exact Hb.
Qed.

(** Destructs the next environment decision in the goal. *)
Ltac next_call :=
  match goal with
  | |- context [rejects ?env ?n ?c] => destruct (rejects env n c); cbn [fst snd]
  end.

Lemma preservation_turn env now w0 row acc w :
  adds_limited now w0 w ->
  adds_limited now w0 (exec (preservation_step env now row acc) w).
Proof.
  intros Hk. unfold exec, preservation_step.
  destruct (HabitRow.streak row) as [|s ss]; [exact Hk|].
  destruct (HabitRow.user row) as [u|]; [|exact Hk].
  destruct (User.onVacation u || negb (User.prefersNotifications u)); [exact Hk|].
  unfold bind, reminderService_isHabitScheduledForDate,
    reminderService_isHabitCompletedForDate, reminderService_isInQuietHours,
    prisma_scheduledReminder_findFirst_since, prisma_scheduledReminder_create, external, ret.
  next_call; [exact Hk|].
  destruct (svc_isHabitScheduledForDate env _ now); cbn [negb]; [|exact Hk].
  next_call; [exact Hk|].
  next_call; [exact Hk|].
  destruct (negb (svc_isHabitCompletedForDate env _ _ now) &&
            negb (svc_isInQuietHours env _ now)); [|exact Hk].
  next_call; [exact Hk|].
  cbn [db set_db record].
  destruct (q_scheduledReminder_findFirst_since (db w) _ _ _ _) as [r|] eqn:Ef;
    [exact Hk|].
  next_call; [exact Hk|].
  match goal with
  | |- context [createNotification env ?data ?w1] =>
      destruct (createNotification_notified env data w1) as (o & w' & E & _ & Hr & _)
  end.
  rewrite E. cbn [fst snd]. cbn [db set_db record insert_reminder reminders] in Hr.
  destruct Hk as (added & Hadd & Hlim). unfold adds_limited.
  exists (added ++ [new_reminder (reminder_seq (db w))
                      (preservation_reminder now (HabitRow.habit row)
                                             (HabitStreak.current_streak s))]).
  split; [rewrite Hr, Hadd, app_assoc; reflexivity|].
  apply limited_snoc; auto.
  unfold q_scheduledReminder_findFirst_since in Ef. rewrite Hadd in Ef. exact Ef.
Qed.

Lemma preservation_body_limited env w :
  adds_limited (wall w) w (exec (streak_preservation_reminder_body env) w).
Proof.
  assert (H0 : adds_limited (wall w) w w).
  { exists []. rewrite app_nil_r. split; [reflexivity|apply limited_nil]. }
  unfold exec, streak_preservation_reminder_body, preservation_scan, duration_since,
    prisma_habit_findMany_active.
  unfold bind, Date_now, external, ret.
  next_call; [exact H0|].
  pose proof (for_of_keeps (preservation_step env (wall w)) (adds_limited (wall w) w)
                (fun x acc w1 => preservation_turn env (wall w) w x acc w1)
                (q_habit_findMany_active (db w) (Some 7)) 0
                (set_db (db w) (record (EvCall (habit_findMany_active (Some 7)) None) w)) H0)
    as H.
  unfold exec in H. cbn [wall set_db record].
  destruct (for_of _ _ _ _) as [[n|e] w']; exact H.
Qed.

Lemma preservation_handler_limited env w :
  adds_limited (wall w) w (exec (streak_preservation_reminder env) w).
Proof.
  unfold streak_preservation_reminder. unfold exec at 1. rewrite cron_job_run.
  cbn [snd].
  exact (preservation_body_limited env
           (record (EvJobStatus (started_line "streak-preservation-reminder" (wall w))) w)).
Qed.

Lemma ForallOrdPairs_app {A} (R : A -> A -> Prop) (l1 l2 : list A) :
  ForallOrdPairs R l1 -> ForallOrdPairs R l2 ->
  (forall x y, In x l1 -> In y l2 -> R x y) ->
  ForallOrdPairs R (l1 ++ l2).
Proof.
  intros H1 H2 Hx. induction H1 as [|a l Ha Hl IH]; [exact H2|].
  cbn [app]. constructor.
  - apply Forall_app. split; [exact Ha|].
    apply Forall_forall. intros y Hy. apply Hx; [left; reflexivity|exact Hy].
  - apply IH. intros x y Hx' Hy. apply Hx; [right; exact Hx'|exact Hy].
Qed.

Lemma limited_apart now old added :
  limited now old added -> ForallOrdPairs apart added.
Proof.
  intros [_ Hpair].
  assert (Hle : forall hid uid,
             (List.length (filter (is_preservation_of hid uid) added) <= 1)%nat)
    by (intros; apply Hpair).
  clear Hpair. induction added as [|a l IH]; [constructor|].
  constructor.
  - apply Forall_forall. intros y Hy hid uid Ha Hb. exfalso.
    specialize (Hle hid uid). cbn [filter] in Hle. rewrite Ha in Hle.
    cbn [List.length] in Hle.
    assert (Hin : In y (filter (is_preservation_of hid uid) l))
      by (apply filter_In; auto).
    destruct (filter (is_preservation_of hid uid) l); [contradiction|].
    cbn [List.length] in Hle. lia.
  - apply IH. intros hid uid. specialize (Hle hid uid). cbn [filter] in Hle.
    destruct (is_preservation_of hid uid a); cbn [List.length] in Hle; lia.
Qed.

Lemma limited_cross now old added x y :
  limited now old added -> In x old -> In y added -> apart x y.
Proof.
  intros [Hall Hpair] Hx Hy hid uid Px Py.
  rewrite Forall_forall in Hall. destruct (Hall y Hy) as [_ Hst]. rewrite Hst.
  destruct (Hpair hid uid) as [_ Hrec].
  destruct (Z.leb_spec (now - TWO_HOURS) (ScheduledReminder.scheduled_time x)) as [Hle|Hlt].
  - exfalso.
    assert (Hex : existsb (matches_since hid uid "STREAK_PRESERVATION" (now - TWO_HOURS)) old
                  = true).
    { apply existsb_exists. exists x. split; [exact Hx|].
      rewrite matches_since_preservation, Px. apply Z.leb_le. exact Hle. }
    specialize (Hrec Hex).
    assert (Hin : In y (filter (is_preservation_of hid uid) added))
      by (apply filter_In; auto).
    rewrite Hrec in Hin. contradiction.
  - lia.
Qed.

Lemma adds_limited_spaced now w0 w :
  adds_limited now w0 w -> spaced (db w0) -> spaced (db w).
Proof.
  intros (added & Hadd & Hlim) Hs. unfold spaced. rewrite Hadd.
  apply ForallOrdPairs_app.
  - exact Hs.
  - eapply limited_apart. exact Hlim.
  - intros x y Hx Hy. eapply limited_cross; eassumption.
Qed.

Lemma adds_limited_count now w0 w hid uid :
  adds_limited now w0 w ->
  (preservations (db w0) hid uid <= preservations (db w) hid uid <=
   preservations (db w0) hid uid + 1)%nat /\
  (recently_preserved (db w0) now hid uid = true ->
   preservations (db w) hid uid = preservations (db w0) hid uid) /\
  ((preservations (db w0) hid uid < preservations (db w) hid uid)%nat ->
   forall later, later - TWO_HOURS <= now ->
                 recently_preserved (db w) later hid uid = true).
Proof.
  intros (added & Hadd & Hall & Hpair). destruct (Hpair hid uid) as [Hle Hrec].
  unfold preservations, recently_preserved. rewrite Hadd, filter_app, length_app.
  split; [lia|split].
  - intros Hex. rewrite (Hrec Hex). cbn. lia.
  - intros Hlt later Hlater. rewrite existsb_app. apply orb_true_iff. right.
    destruct (filter (is_preservation_of hid uid) added) as [|y ys] eqn:Ef;
      [cbn [List.length] in Hlt; lia|].
    assert (Hin : In y (filter (is_preservation_of hid uid) added))
      by (rewrite Ef; left; reflexivity).
    apply filter_In in Hin. destruct Hin as [Hin Hp].
    apply existsb_exists. exists y. split; [exact Hin|].
    rewrite Forall_forall in Hall. destruct (Hall y Hin) as [_ Hst].
    rewrite matches_since_preservation, Hp, Hst. apply Z.leb_le. exact Hlater.
Qed.

(** C5.  Two firings of the preservation scan at most 90 minutes apart
    add, for every (habit, user), at most one STREAK_PRESERVATION row
    between them, whatever the environment does; a firing adds none for a
    pair that already has such a row scheduled within the two hours before
    it; and a table in which no two rows of one pair lie within two hours
    of each other stays so. *)
Theorem preservation_rate_limit :
  forall (env1 env2 : Env) (w : World) (t1 t2 hid uid : Z),
    t1 <= t2 <= t1 + 90 * 60 * 1000 ->
    let fire env t w := exec (streak_preservation_reminder env) (set_wall t w) in
    let w1 := fire env1 t1 w in
    let w2 := fire env2 t2 w1 in
    (preservations (db w2) hid uid <= preservations (db w) hid uid + 1)%nat /\
    (recently_preserved (db w) t1 hid uid = true ->
     preservations (db w1) hid uid = preservations (db w) hid uid) /\
    (spaced (db w) -> spaced (db w1) /\ spaced (db w2)).
Proof.
  intros env1 env2 w t1 t2 hid uid Ht fire w1 w2.
  pose proof (preservation_handler_limited env1 (set_wall t1 w)) as H1.
  pose proof (preservation_handler_limited env2 (set_wall t2 w1)) as H2.
  fold (fire env1 t1 w) in H1. fold w1 in H1.
  fold (fire env2 t2 w1) in H2. fold w2 in H2.
  cbn [wall set_wall] in H1, H2.
  destruct (adds_limited_count _ _ _ hid uid H1) as (C1 & R1 & L1).
  destruct (adds_limited_count _ _ _ hid uid H2) as (C2 & R2 & _).
  cbn [db set_wall] in *.
  split; [|split].
  - destruct (Nat.eq_dec (preservations (db w1) hid uid) (preservations (db w) hid uid))
      as [E|N]; [lia|].
    rewrite R2; [lia|]. apply L1; [lia|]. unfold TWO_HOURS. lia.
  - exact R1.
  - intros Hs.
    assert (Hs1 : spaced (db w1)) by (eapply adds_limited_spaced; [exact H1|exact Hs]).
    split; [exact Hs1|]. eapply adds_limited_spaced; [exact H2|exact Hs1].
Qed.

(** ** The weekly digest *)

Lemma insert_desc_perm x l : Permutation (x :: l) (insert_desc x l).
Proof.
  induction l as [|y l IH]; cbn [insert_desc]; [apply Permutation_refl|].
  destruct (TopHabit.count x <? TopHabit.count y); [|apply Permutation_refl].
  eapply Permutation_trans; [apply perm_swap|]. apply perm_skip. exact IH.
Qed.

Lemma insert_desc_sorted x l :
  StronglySorted by_count_desc l -> StronglySorted by_count_desc (insert_desc x l).
Proof.
  induction 1 as [|y l Hs IH Hy]; cbn [insert_desc].
  - constructor; constructor.
  - destruct (Z.ltb_spec (TopHabit.count x) (TopHabit.count y)) as [Hlt|Hge].
    + constructor; [exact IH|].
      apply Forall_forall. intros z Hz.
      apply (Permutation_in _ (Permutation_sym (insert_desc_perm x l))) in Hz.
      destruct Hz as [<-|Hz]; [unfold by_count_desc; lia|].
      rewrite Forall_forall in Hy. apply Hy. exact Hz.
    + constructor; [constructor; assumption|].
      constructor; [exact Hge|].
      apply Forall_forall. intros z Hz. rewrite Forall_forall in Hy.
      specialize (Hy z Hz). unfold by_count_desc in *. lia.
Qed.

Lemma sort_by_count_desc_sorted l : StronglySorted by_count_desc (sort_by_count_desc l).
Proof.
  induction l as [|x l IH]; cbn; [constructor|]. apply insert_desc_sorted. exact IH.
Qed.

Lemma sort_by_count_desc_perm l : Permutation l (sort_by_count_desc l).
Proof.
  induction l as [|x l IH]; cbn; [constructor|].
  eapply Permutation_trans; [apply perm_skip; exact IH|]. apply insert_desc_perm.
Qed.

Lemma count_for_bump h gs hid :
  count_for (bump h gs) hid = count_for gs hid + (if h =? hid then 1 else 0).
Proof.
  unfold count_for. induction gs as [|g gs IH]; cbn [bump find].
  - cbn [LogGroup.habit_id LogGroup._count]. destruct (h =? hid); reflexivity.
  - destruct (Z.eqb_spec (LogGroup.habit_id g) h) as [Eg|Ng]; cbn [find LogGroup.habit_id].
    + rewrite Eg. destruct (h =? hid); cbn [LogGroup._count]; [reflexivity|].
      rewrite Z.add_0_r. reflexivity.
    + destruct (Z.eqb_spec (LogGroup.habit_id g) hid) as [Eh|Nh]; [|exact IH].
      destruct (Z.eqb_spec h hid); [congruence|]. rewrite Z.add_0_r. reflexivity.
Qed.

Lemma count_for_groups logs hid : forall gs,
  count_for (fold_left (fun gs l => bump (HabitLog.habit_id l) gs) logs gs) hid =
  count_for gs hid + logs_of hid logs.
Proof.
  unfold logs_of. induction logs as [|l logs IH]; intros gs; cbn [fold_left filter].
  - cbn. rewrite Z.add_0_r. reflexivity.
  - rewrite IH, count_for_bump.
    destruct (HabitLog.habit_id l =? hid); cbn [List.length]; lia.
Qed.

Lemma total_bump h gs acc :
  fold_left (fun sum g => sum + LogGroup._count g) (bump h gs) acc =
  fold_left (fun sum g => sum + LogGroup._count g) gs acc + 1.
Proof.
  revert acc. induction gs as [|g gs IH]; intros acc; cbn [bump fold_left].
  - reflexivity.
  - destruct (LogGroup.habit_id g =? h); cbn [fold_left LogGroup._count].
    + assert (Hshift : forall l a, fold_left (fun sum g0 => sum + LogGroup._count g0) l (a + 1)
                                   = fold_left (fun sum g0 => sum + LogGroup._count g0) l a + 1).
      { intros l. induction l as [|g0 l IHl]; intros a; cbn [fold_left]; [reflexivity|].
        replace (a + 1 + LogGroup._count g0) with (a + LogGroup._count g0 + 1) by lia.
        apply IHl. }
      rewrite <- Hshift. f_equal. lia.
    + apply IH.
Qed.

Lemma total_groups logs : forall gs,
  totalCompletions_of (fold_left (fun gs l => bump (HabitLog.habit_id l) gs) logs gs) =
  totalCompletions_of gs + Z.of_nat (List.length logs).
Proof.
  unfold totalCompletions_of.
  induction logs as [|l logs IH]; intros gs; cbn [fold_left List.length].
  - cbn. lia.
  - rewrite IH, total_bump. lia.
Qed.

Lemma weekly_turn env w0 u acc w :
  same_base w0 w ->
  exists (ok : bool) w' evs,
    weekly_step env u acc w = (Ok (acc + (if ok then 1 else 0)), w') /\
    same_base w0 w' /\
    trace w' = trace w ++ evs /\
    notification_attempts evs = (if ok then [weekly_attempt w0 u] else []) /\
    (ok = false -> exists e, In (weekly_error_line u e) evs) /\
    (weekly_queries_never_rejected env -> ok = true).
Proof.
  intros Hb. destruct Hb as (Hw & Hu & Hh & Hs & Hl).
  unfold weekly_step, prisma_habitLog_groupBy, prisma_habit_findMany_in,
    createWeeklySummaryNotification.
  unfold try_catch, bind, Date_now, external, ret.
  destruct (rejects env (List.length (trace w)) _) as [e|] eqn:R1; cbn [fst snd].
  { exists false. eexists _, [_; _]. rewrite Z.add_0_r.
    split; [reflexivity|]. split; [repeat split; assumption|].
    split; [cbn [trace record console_error snd]; rewrite <- app_assoc; reflexivity|].
    split; [reflexivity|]. split.
    - intros _. exists e. right. left. reflexivity.
    - intros [Hq _]. rewrite Hq in R1. discriminate. }
  destruct (rejects env (List.length (trace (set_db _ _))) _) as [e|] eqn:R2; cbn [fst snd].
  { exists false. eexists _, [_; _; _]. rewrite Z.add_0_r.
    split; [reflexivity|]. split; [repeat split; assumption|].
    split; [cbn [trace record set_db console_error snd]; rewrite <- !app_assoc; reflexivity|].
    split; [reflexivity|]. split.
    - intros _. exists e. right. right. left. reflexivity.
    - intros [_ Hq]. rewrite Hq in R2. discriminate. }
  cbn [db set_db record].
  match goal with
  | |- context [createNotification env ?data ?w1] =>
      destruct (createNotification_notified env data w1)
        as (o & w' & E & B & _ & _ & (evs & T & N) & _)
  end.
  rewrite E. cbn [fst snd].
  exists true. eexists w', (_ :: _ :: evs).
  split; [reflexivity|]. split; [|split; [|split; [|split]]].
  - eapply same_base_trans; [|exact B]. repeat split; assumption.
  - rewrite T. cbn [trace set_db record]. rewrite <- !app_assoc. reflexivity.
  - change (notification_attempts evs = [weekly_attempt w0 u]). rewrite N.
    unfold weekly_attempt, week_topHabits, week_groups, q_habitLog_groupBy,
      q_habit_findMany_in.
    rewrite Hw, Hl, Hh. reflexivity.
  - discriminate.
  - reflexivity.
Qed.

Lemma weekly_loop env w0 xs : forall acc w,
  same_base w0 w ->
  exists flags w' evs,
    List.length flags = List.length xs /\
    for_of xs (weekly_step env) acc w = (Ok (acc + count_true flags), w') /\
    same_base w0 w' /\
    trace w' = trace w ++ evs /\
    notification_attempts evs = map (weekly_attempt w0) (pick flags xs) /\
    (forall u, In u xs -> In u (pick flags xs) \/ exists e, In (weekly_error_line u e) evs) /\
    (weekly_queries_never_rejected env -> pick flags xs = xs).
Proof.
  induction xs as [|u xs IH]; intros acc w Hb.
  - exists [], w, []. cbn. rewrite Z.add_0_r, app_nil_r.
    split; [reflexivity|split; [reflexivity|split; [exact Hb|]]].
    split; [reflexivity|split; [reflexivity|split; [|reflexivity]]].
    intros u [].
  - destruct (weekly_turn env w0 u acc w Hb) as (ok & w1 & e1 & E1 & B1 & T1 & N1 & F1 & Q1).
    destruct (IH (acc + (if ok then 1 else 0)) w1 B1)
      as (flags & w2 & e2 & L2 & E2 & B2 & T2 & N2 & F2 & Q2).
    exists (ok :: flags), w2, (e1 ++ e2). cbn [for_of]. unfold bind. rewrite E1, E2.
    split; [cbn; congruence|]. split; [|split; [exact B2|split; [|split; [|split]]]].
    + f_equal. f_equal. destruct ok; cbn [count_true]; lia.
    + rewrite T2, T1, app_assoc. reflexivity.
    + rewrite notification_attempts_app, N1, N2. destruct ok; reflexivity.
    + intros v [<-|Hv].
      * destruct ok; [left; left; reflexivity|].
        right. destruct (F1 eq_refl) as (e & He). exists e. apply in_or_app. auto.
      * destruct (F2 v Hv) as [Hp|(e & He)].
        -- left. destruct ok; [right|]; exact Hp.
        -- right. exists e. apply in_or_app. auto.
    + intros Hq. rewrite (Q1 Hq). cbn [pick]. rewrite (Q2 Hq). reflexivity.
Qed.

Lemma bump_counted h gs :
  Forall (fun g => 1 <= LogGroup._count g) gs ->
  Forall (fun g => 1 <= LogGroup._count g) (bump h gs).
Proof.
  induction gs as [|g gs IH]; intros H; cbn.
  - constructor; [cbn; lia|constructor].
  - inversion H; subst. destruct (LogGroup.habit_id g =? h).
    + constructor; [cbn; lia|assumption].
    + constructor; [assumption|apply IH; assumption].
Qed.

Lemma groups_counted logs : forall gs,
  Forall (fun g => 1 <= LogGroup._count g) gs ->
  Forall (fun g => 1 <= LogGroup._count g)
         (fold_left (fun gs l => bump (HabitLog.habit_id l) gs) logs gs).
Proof.
  induction logs as [|l logs IH]; intros gs H; [exact H|].
  cbn. apply IH. apply bump_counted. exact H.
Qed.

Lemma count_for_listed gs id :
  Forall (fun g => 1 <= LogGroup._count g) gs ->
  In id (map LogGroup.habit_id gs) -> 1 <= count_for gs id.
Proof.
  intros Hc Hin. unfold count_for.
  destruct (find (fun ch => LogGroup.habit_id ch =? id) gs) as [g|] eqn:Ef.
  - apply find_some in Ef. rewrite Forall_forall in Hc. apply Hc. apply Ef.
  - apply in_map_iff in Hin. destruct Hin as (g & Hg & Hin).
    pose proof (find_none _ _ Ef g Hin) as Hn. cbn in Hn. lia.
Qed.

(** The groups list a habit exactly when the user has a log of it. *)
Lemma listed_iff_counted logs hid :
  existsb (Z.eqb hid) (map LogGroup.habit_id (group_by_habit logs)) = (0 <? logs_of hid logs).
Proof.
  pose proof (count_for_groups logs hid []) as Hc. fold (group_by_habit logs) in Hc.
  change (count_for [] hid) with 0 in Hc. rewrite Z.add_0_l in Hc.
  assert (Hg : Forall (fun g => 1 <= LogGroup._count g) (group_by_habit logs))
    by (apply groups_counted; constructor).
  destruct (existsb (Z.eqb hid) (map LogGroup.habit_id (group_by_habit logs))) eqn:Ex.
  - apply existsb_exists in Ex. destruct Ex as (x & Hin & Heq). apply Z.eqb_eq in Heq.
    subst x. pose proof (count_for_listed _ _ Hg Hin) as H1.
    symmetry. apply Z.ltb_lt. lia.
  - assert (H0 : count_for (group_by_habit logs) hid = 0).
    { unfold count_for.
      destruct (find (fun ch => LogGroup.habit_id ch =? hid) (group_by_habit logs))
        as [g|] eqn:Ef; [|reflexivity].
      apply find_some in Ef. destruct Ef as [Hin Heq]. apply Z.eqb_eq in Heq.
      assert (Ht : existsb (Z.eqb hid) (map LogGroup.habit_id (group_by_habit logs)) = true).
      { apply existsb_exists. exists (LogGroup.habit_id g).
        split; [apply in_map; exact Hin|apply Z.eqb_eq; congruence]. }
      congruence. }
    symmetry. apply Z.ltb_ge. lia.
Qed.

(** The groups of the digest's query are those of the user's completed logs
    of the trailing seven days. *)
Lemma week_groups_logs w u : week_groups w u = group_by_habit (week_logs w u).
Proof. reflexivity. Qed.

(** The top habits are the habits the user has a log of in the week, each
    with the number of those logs. *)
Lemma week_topHabits_entries w u : Permutation (week_topHabits w u) (week_entries w u).
Proof.
  unfold week_topHabits, topHabits_of.
  eapply Permutation_trans; [apply Permutation_sym, sort_by_count_desc_perm|].
  unfold q_habit_findMany_in, week_entries. rewrite week_groups_logs.
  rewrite (filter_ext _ _ (fun h => listed_iff_counted (week_logs w u) (Habit.habit_id h))).
  erewrite map_ext; [apply Permutation_refl|].
  intros h. cbn beta. f_equal. unfold group_by_habit.
  rewrite count_for_groups. reflexivity.
Qed.

Lemma prefix_cat s t : String.prefix s (s +++ t) = true.
Proof.
  induction s as [|a s IH]; [destruct t; reflexivity|].
  cbn. destruct (ascii_dec a a); [exact IH|congruence].
Qed.

(** The notification of a weekly summary is the one described. *)
Lemma weekly_summary_described uid total top :
  is_weekly_summary uid total top (create_data (weekly_summary uid total top)).
Proof.
  unfold weekly_summary.
  destruct (total =? 0);
    [|destruct (total <? 5); [|destruct (total <? 15); [|destruct (total <? 30)]]].
  all: unfold is_weekly_summary, create_data;
    cbn [NotificationData.user_id NotificationData.title NotificationData.content
         NotificationData.type NotificationData.related_id NotificationData.action_url
         NotificationCreate.user_id NotificationCreate.title NotificationCreate.content
         NotificationCreate.type NotificationCreate.related_id NotificationCreate.action_url
         NotificationCreate.is_read or_null_Z or_null_string];
    split; [reflexivity|split; [reflexivity|split; [reflexivity|split;
      [|split; [reflexivity|split; reflexivity]]]]].
  all: match goal with
       | |- String.prefix ?p (?m +++ ?t) = true => change (String.prefix m (m +++ t) = true)
       end; apply prefix_cat.
Qed.

(** C7.  When the population query returns, the weekly digest visits every
    user with notifications on and not on vacation (the users it reports as
    processed), and for each of them either creates exactly one summary
    notification or catches an error, logs it and goes on to the next user;
    when the two per-user queries are never rejected, every such user gets a
    summary.  The summary is a SYSTEM_MESSAGE 'Weekly Summary ...' for the
    user whose text starts with the number of the user's completed logs of the
    trailing seven days and with the first three top habits; the top habits
    are the habits the user has such a log of, each with the number of those
    logs, in descending order of that number. *)
Theorem weekly_digest :
  forall (env : Env) (w : World),
    rejects env (List.length (trace w)) user_findMany_active = None ->
    let review := weekly_habit_review_body env in
    let activeUsers :=
      filter (fun u => User.prefersNotifications u && negb (User.onVacation u))
             (users (db w)) in
    (forall u,
        StronglySorted by_count_desc (week_topHabits w u) /\
        Permutation (week_topHabits w u) (week_entries w u) /\
        is_weekly_summary (User.user_id u) (Z.of_nat (List.length (week_logs w u)))
                          (week_topHabits w u) (weekly_attempt w u)) /\
    exists flags,
      List.length flags = List.length activeUsers /\
      (exists details,
          outcome review w = Ok details /\
          In ("usersProcessed", JNum (Z.of_nat (List.length activeUsers))) details /\
          In ("reportsGenerated", JNum (count_true flags)) details) /\
      notification_attempts (events_since w (exec review w)) =
        map (weekly_attempt w) (pick flags activeUsers) /\
      (forall u, In u activeUsers ->
                 In u (pick flags activeUsers) \/
                 exists e, In (weekly_error_line u e) (events_since w (exec review w))) /\
      (weekly_queries_never_rejected env -> pick flags activeUsers = activeUsers).
Proof.
  intros env w Hq review activeUsers.
  split.
  { intros u. split; [|split].
    - unfold week_topHabits, topHabits_of. apply sort_by_count_desc_sorted.
    - apply week_topHabits_entries.
    - unfold weekly_attempt.
      replace (totalCompletions_of (week_groups w u))
        with (Z.of_nat (List.length (week_logs w u))).
      + apply weekly_summary_described.
      + rewrite week_groups_logs. unfold group_by_habit. rewrite total_groups. reflexivity. }
  unfold review, outcome, exec.
  unfold weekly_habit_review_body, duration_since, prisma_user_findMany_active.
  unfold bind, Date_now, external, ret.
  rewrite Hq. cbn [fst snd].
  destruct (weekly_loop env w (q_user_findMany_active (db w)) 0
              (set_db (db w) (record (EvCall user_findMany_active None) w)))
    as (flags & w' & evs & L & E & B & T & N & F & Q).
  { repeat split. }
  rewrite E. cbn [fst snd].
  fold activeUsers in L, N, F, Q |- *.
  change (q_user_findMany_active (db w)) with activeUsers in *.
  assert (Hev : events_since w w' = EvCall user_findMany_active None :: evs).
  { apply events_since_app. rewrite T. cbn [trace set_db record].
    rewrite <- app_assoc. reflexivity. }
  exists flags. rewrite Hev.
  split; [exact L|split; [|split; [|split]]].
  - eexists. split; [reflexivity|]. cbn. auto.
  - exact N.
  - intros u Hu. destruct (F u Hu) as [Hp|(e & He)]; [left; exact Hp|].
    right. exists e. right. exact He.
  - exact Q.
Qed.

(** ** Reminder dispatch *)

Lemma notifications_grow_refl w : notifications_grow w w.
Proof. exists []. rewrite app_nil_r. reflexivity. Qed.

Lemma notifications_grow_trans w1 w2 w3 :
  notifications_grow w1 w2 -> notifications_grow w2 w3 -> notifications_grow w1 w3.
Proof.
  intros [a Ha] [b Hb]. exists (a ++ b). rewrite Hb, Ha, app_assoc. reflexivity.
Qed.

Lemma notifications_grow_same w w' :
  notifications (db w') = notifications (db w) -> notifications_grow w w'.
Proof. intros H. exists []. rewrite app_nil_r. exact H. Qed.

(** The notification and the push of a reminder, as the code builds them
    from the joined row, are the ones written out; and so is what an update
    leaves in the row. *)
Lemma reminder_notice_built d r :
  create_data (reminder_notification (join_reminder d r)) = reminder_notice d r.
Proof.
  unfold create_data, reminder_notification, reminder_notice.
  cbn [join_reminder ReminderRow.reminder ReminderRow.habit NotificationData.user_id
       NotificationData.title NotificationData.content NotificationData.type
       NotificationData.related_id NotificationData.action_url].
  rewrite or_null_nonzero. reflexivity.
Qed.

Lemma reminder_push_built d r n :
  push_call (reminder_notification (join_reminder d r)) n = reminder_push d r.
Proof. reflexivity. Qed.

Lemma settle_update now v r : apply_update (verdict_update now v) r = settle now v r.
Proof. destruct v; reflexivity. Qed.

Lemma length_snoc {A} (l : list A) (x : A) : List.length (l ++ [x]) = S (List.length l).
Proof. rewrite length_app. cbn. lia. Qed.

(** A [scheduledReminder.update] of a row that is there. *)
Lemma update_exact env id u w :
  existsb (has_id id) (reminders (db w)) = true ->
  match rejects env (List.length (trace w)) (scheduledReminder_update id u) with
  | Some e =>
      prisma_scheduledReminder_update env id u w =
      (Throw e, record (EvCall (scheduledReminder_update id u) (Some e)) w)
  | None =>
      exists w',
        prisma_scheduledReminder_update env id u w = (Ok tt, w') /\
        trace w' = trace w ++ [EvCall (scheduledReminder_update id u) None] /\
        reminders (db w') = update_rows id u (reminders (db w)) /\
        notifications (db w') = notifications (db w)
  end.
Proof.
  intros Hex. unfold prisma_scheduledReminder_update, external, update_reminder.
  rewrite Hex.
  destruct (rejects env (List.length (trace w)) (scheduledReminder_update id u)) as [e|];
    [reflexivity|].
  eexists. split; [reflexivity|]. cbn. auto.
Qed.

(** The [catch] of a turn: two events, and the row is marked FAILED. *)
Lemma fail_reminder_exact env row acc e w :
  failed_update_never_rejected env ->
  existsb (has_id (row_id row)) (reminders (db w)) = true ->
  exists w' evs,
    fail_reminder env row acc e w = (Ok (incr_failed acc), w') /\
    trace w' = trace w ++ evs /\
    List.length evs = 2%nat /\
    reminders (db w') = update_rows (row_id row) (mark_failed (message e)) (reminders (db w)) /\
    notifications (db w') = notifications (db w).
Proof.
  intros Hf Hex. unfold fail_reminder, bind, console_error. fold (row_id row).
  match goal with
  | |- context [prisma_scheduledReminder_update env ?id ?u ?w1] =>
      pose proof (update_exact env id u w1 Hex) as H; rewrite Hf in H;
      destruct H as (w' & E & T & R & N)
  end.
  rewrite E. exists w'. eexists. split; [reflexivity|].
  split; [rewrite T; cbn [trace record]; rewrite <- app_assoc; reflexivity|].
  split; [reflexivity|split; [exact R|exact N]].
Qed.

(** A turn whose [try] block threw [e] after [k] events, the row untouched. *)
Lemma turn_caught env now row acc e k w w1 evs1 :
  failed_update_never_rejected env ->
  existsb (has_id (row_id row)) (reminders (db w)) = true ->
  deliver_reminder env now row acc w = (Throw e, w1) ->
  trace w1 = trace w ++ evs1 ->
  List.length evs1 = k ->
  reminders (db w1) = reminders (db w) ->
  notifications_grow w w1 ->
  exists w' evs,
    process_reminder env now row acc w = (Ok (tally_one (fst (caught e k)) acc), w') /\
    trace w' = trace w ++ evs /\
    List.length evs = snd (caught e k) /\
    reminders (db w') =
      update_rows (row_id row) (verdict_update now (fst (caught e k))) (reminders (db w)) /\
    notifications_grow w w'.
Proof.
  intros Hf Hex E T L R G.
  destruct (fail_reminder_exact env row acc e w1 Hf) as (w' & evs2 & E2 & T2 & L2 & R2 & N2).
  { rewrite R. exact Hex. }
  exists w', (evs1 ++ evs2). unfold process_reminder, try_catch. rewrite E, E2.
  split; [reflexivity|]. split; [rewrite T2, T, app_assoc; reflexivity|].
  split; [cbn [caught snd]; rewrite length_app, L, L2; reflexivity|].
  split; [rewrite R2, R; reflexivity|].
  eapply notifications_grow_trans; [exact G|]. exists []. rewrite app_nil_r. exact N2.
Qed.

(** One turn of the dispatch loop goes by the rule [turn]. *)
Lemma process_reminder_exact env d now r acc w :
  failed_update_never_rejected env ->
  existsb (has_id (ScheduledReminder.scheduled_reminder_id r)) (reminders (db w)) = true ->
  exists w' evs,
    process_reminder env now (join_reminder d r) acc w =
      (Ok (tally_one (fst (turn env d now r (List.length (trace w)))) acc), w') /\
    trace w' = trace w ++ evs /\
    List.length evs = snd (turn env d now r (List.length (trace w))) /\
    reminders (db w') =
      update_rows (ScheduledReminder.scheduled_reminder_id r)
        (verdict_update now (fst (turn env d now r (List.length (trace w)))))
        (reminders (db w)) /\
    notifications_grow w w' /\
    (fst (turn env d now r (List.length (trace w))) = Sent -> delivered d r evs (db w')).
Proof.
  intros Hf Hex.
  assert (Caught : forall e k w1 evs1,
             deliver_reminder env now (join_reminder d r) acc w = (Throw e, w1) ->
             trace w1 = trace w ++ evs1 -> List.length evs1 = k ->
             reminders (db w1) = reminders (db w) -> notifications_grow w w1 ->
             exists w' evs,
               process_reminder env now (join_reminder d r) acc w =
                 (Ok (tally_one (fst (caught e k)) acc), w') /\
               trace w' = trace w ++ evs /\
               List.length evs = snd (caught e k) /\
               reminders (db w') =
                 update_rows (ScheduledReminder.scheduled_reminder_id r)
                   (verdict_update now (fst (caught e k))) (reminders (db w)) /\
               notifications_grow w w' /\
               (fst (caught e k) = Sent -> delivered d r evs (db w'))).
  { intros e k w1 evs1 E T L R G.
    destruct (turn_caught env now (join_reminder d r) acc e k w w1 evs1 Hf Hex E T L R G)
      as (w' & evs & H1 & H2 & H3 & H4 & H5).
    exists w', evs. repeat (split; [assumption|]). discriminate. }
  unfold turn.
  change (find_user d (ScheduledReminder.user_id r))
    with (owner_of d (ScheduledReminder.user_id r)) in *.
  destruct (owner_of d (ScheduledReminder.user_id r)) as [u|] eqn:Eu.
  2:{ apply (Caught _ _ w []); try reflexivity.
      - unfold deliver_reminder. cbn [join_reminder ReminderRow.user].
        change (find_user d (ScheduledReminder.user_id r))
          with (owner_of d (ScheduledReminder.user_id r)).
        rewrite Eu. reflexivity.
      - rewrite app_nil_r. reflexivity.
      - apply notifications_grow_refl. }
  assert (Open : deliver_reminder env now (join_reminder d r) acc w =
                 (if negb (User.prefersNotifications u) || User.onVacation u
                  then
                    prisma_scheduledReminder_update env
                      (ScheduledReminder.scheduled_reminder_id r)
                      (mark_skipped now "User preferences or status") ;;
                    ret (incr_skipped acc)
                  else
                    isCompletedToday <-
                      reminderService_isHabitCompletedForDate env
                        (ScheduledReminder.habit_id r) (ScheduledReminder.user_id r) now ;;
                    if isCompletedToday
                    then
                      prisma_scheduledReminder_update env
                        (ScheduledReminder.scheduled_reminder_id r)
                        (mark_skipped now "Already completed") ;;
                      ret (incr_skipped acc)
                    else
                      notification <-
                        createNotification env (reminder_notification (join_reminder d r)) ;;
                      match notification with
                      | None => throw NoNotification
                      | Some n =>
                          prisma_scheduledReminder_update env
                            (ScheduledReminder.scheduled_reminder_id r)
                            (mark_sent now (Notification.id n)) ;;
                          ret (incr_sent acc)
                      end) w).
  { unfold deliver_reminder. cbn [join_reminder ReminderRow.user ReminderRow.reminder].
    change (find_user d (ScheduledReminder.user_id r))
      with (owner_of d (ScheduledReminder.user_id r)).
    rewrite Eu. reflexivity. }
  destruct (negb (User.prefersNotifications u) || User.onVacation u) eqn:Eb.
  { (* the owner has notifications off or is on vacation *)
    pose proof (update_exact env (ScheduledReminder.scheduled_reminder_id r)
                  (mark_skipped now "User preferences or status") w Hex) as H.
    destruct (rejects env (List.length (trace w))
                (scheduledReminder_update (ScheduledReminder.scheduled_reminder_id r)
                   (mark_skipped now "User preferences or status"))) as [e|].
    - eapply (Caught e 1%nat);
        [rewrite Open; unfold bind; rewrite H; reflexivity
        |cbn [trace record]; reflexivity|reflexivity|reflexivity
        |apply notifications_grow_same; reflexivity].
    - destruct H as (w' & E & T & R & N).
      exists w', [EvCall (scheduledReminder_update (ScheduledReminder.scheduled_reminder_id r)
                            (mark_skipped now "User preferences or status")) None].
      unfold process_reminder, try_catch. rewrite Open. unfold bind. rewrite E.
      cbn [fst snd ret tally_one verdict_update].
      split; [reflexivity|split; [exact T|split; [reflexivity|split; [exact R|split]]]].
      + exists []. rewrite app_nil_r. exact N.
      + discriminate. }
  (* the completion check *)
  set (w1 := set_db (db w)
               (record (EvCall (isHabitCompletedForDate (ScheduledReminder.habit_id r)
                                  (ScheduledReminder.user_id r) now) None) w)).
  assert (L1 : List.length (trace w1) = S (List.length (trace w)))
    by (subst w1; cbn [trace set_db record]; apply length_snoc).
  assert (Hex1 : existsb (has_id (ScheduledReminder.scheduled_reminder_id r))
                         (reminders (db w1)) = true) by exact Hex.
  destruct (rejects env (List.length (trace w))
              (isHabitCompletedForDate (ScheduledReminder.habit_id r)
                 (ScheduledReminder.user_id r) now)) as [e|] eqn:Rc.
  { eapply (Caught e 1%nat);
      [rewrite Open; unfold bind, reminderService_isHabitCompletedForDate, external;
       rewrite Rc; reflexivity
      |cbn [trace record]; reflexivity|reflexivity|reflexivity
        |apply notifications_grow_same; reflexivity]. }
  assert (Checked : reminderService_isHabitCompletedForDate env
                      (ScheduledReminder.habit_id r) (ScheduledReminder.user_id r) now w =
                    (Ok (svc_isHabitCompletedForDate env (ScheduledReminder.habit_id r)
                           (ScheduledReminder.user_id r) now), w1)).
  { unfold reminderService_isHabitCompletedForDate, external. rewrite Rc. reflexivity. }
  destruct (svc_isHabitCompletedForDate env (ScheduledReminder.habit_id r)
              (ScheduledReminder.user_id r) now) eqn:Ec.
  { (* completed today *)
    pose proof (update_exact env (ScheduledReminder.scheduled_reminder_id r)
                  (mark_skipped now "Already completed") w1 Hex1) as H.
    rewrite L1 in H.
    destruct (rejects env (S (List.length (trace w)))
                (scheduledReminder_update (ScheduledReminder.scheduled_reminder_id r)
                   (mark_skipped now "Already completed"))) as [e|].
    - eapply (Caught e 2%nat);
        [rewrite Open; unfold bind at 1; rewrite Checked; unfold bind; rewrite H; reflexivity
        |subst w1; cbn [trace set_db record]; rewrite <- app_assoc; reflexivity
        |reflexivity|reflexivity|apply notifications_grow_same; reflexivity].
    - destruct H as (w' & E & T & R & N).
      exists w', [EvCall (isHabitCompletedForDate (ScheduledReminder.habit_id r)
                            (ScheduledReminder.user_id r) now) None;
                  EvCall (scheduledReminder_update (ScheduledReminder.scheduled_reminder_id r)
                            (mark_skipped now "Already completed")) None].
      unfold process_reminder, try_catch. rewrite Open. unfold bind at 1. rewrite Checked.
      unfold bind. rewrite E.
      cbn [fst snd ret tally_one verdict_update].
      split; [reflexivity|split; [|split; [reflexivity|split; [exact R|split]]]].
      + rewrite T. subst w1. cbn [trace set_db record]. rewrite <- app_assoc. reflexivity.
      + exists []. rewrite app_nil_r. exact N.
      + discriminate. }
  (* the notification *)
  set (data := reminder_notification (join_reminder d r)) in *.
  assert (Built : create_data data = reminder_notice d r) by apply reminder_notice_built.
  assert (L2 : List.length (trace (after_create data w1)) = S (S (List.length (trace w)))).
  { unfold after_create. cbn [trace set_db record]. rewrite length_snoc, L1. reflexivity. }
  pose proof (createNotification_create_rejected env data w1) as Cr.
  pose proof (createNotification_push_rejected env data w1) as Pr.
  pose proof (createNotification_delivered env data w1) as Dl.
  rewrite Built, L1 in Cr, Pr, Dl. rewrite L2 in Pr, Dl.
  change (push_call data (created data w1)) with (reminder_push d r) in Pr, Dl.
  destruct (rejects env (S (List.length (trace w))) (notification_create (reminder_notice d r)))
    as [e|] eqn:Rn.
  { eapply (Caught NoNotification 3%nat);
      [rewrite Open; unfold bind at 1; rewrite Checked; unfold bind;
       rewrite (Cr e eq_refl); reflexivity
      |subst w1; cbn [trace set_db record]; rewrite <- !app_assoc; reflexivity
      |reflexivity|reflexivity|apply notifications_grow_same; reflexivity]. }
  destruct (rejects env (S (S (List.length (trace w)))) (reminder_push d r)) as [e|] eqn:Rp.
  { eapply (Caught NoNotification 4%nat);
      [rewrite Open; unfold bind at 1; rewrite Checked; unfold bind;
       rewrite (Pr e eq_refl eq_refl); reflexivity
      |subst w1; cbn [trace set_db record after_create]; rewrite <- !app_assoc; reflexivity
      |reflexivity|reflexivity|eexists [_]; reflexivity]. }
  (* the update that records SENT *)
  set (w3 := record (EvCall (reminder_push d r) None) (after_create data w1)) in *.
  assert (L3 : List.length (trace w3) = S (S (S (List.length (trace w)))))
    by (subst w3; cbn [trace record]; rewrite length_snoc, L2; reflexivity).
  pose proof (update_exact env (ScheduledReminder.scheduled_reminder_id r)
                (mark_sent now None) w3 Hex) as H.
  rewrite L3 in H.
  destruct (rejects env (S (S (S (List.length (trace w)))))
              (scheduledReminder_update (ScheduledReminder.scheduled_reminder_id r)
                 (mark_sent now None))) as [e|].
  - eapply (Caught e 4%nat);
      [rewrite Open; unfold bind at 1; rewrite Checked; unfold bind;
       rewrite (Dl eq_refl eq_refl); fold w3;
       change (mark_sent now (Notification.id (created data w1))) with (mark_sent now None);
       rewrite H; reflexivity
      |subst w3 w1; cbn [trace set_db record after_create]; rewrite <- !app_assoc; reflexivity
      |reflexivity|reflexivity|eexists [_]; reflexivity].
  - destruct H as (w' & E & T & R & N).
    exists w', [EvCall (isHabitCompletedForDate (ScheduledReminder.habit_id r)
                          (ScheduledReminder.user_id r) now) None;
                EvCall (notification_create (reminder_notice d r)) None;
                EvCall (reminder_push d r) None;
                EvCall (scheduledReminder_update (ScheduledReminder.scheduled_reminder_id r)
                          (mark_sent now None)) None].
    unfold process_reminder, try_catch. rewrite Open. unfold bind at 1. rewrite Checked.
    unfold bind. rewrite (Dl eq_refl eq_refl). fold w3.
    change (mark_sent now (Notification.id (created data w1))) with (mark_sent now None).
    rewrite E. cbn [fst snd ret tally_one verdict_update].
    split; [reflexivity|split; [|split; [reflexivity|split; [exact R|split]]]].
    + rewrite T. subst w3 w1. cbn [trace set_db record after_create].
      rewrite Built, <- !app_assoc. reflexivity.
    + eexists [_]. rewrite N. reflexivity.
    + intros _. split; [right; left; reflexivity|split; [right; right; left; reflexivity|]].
      exists (notification_seq (db w)). rewrite N. subst w3 w1.
      cbn [db set_db record after_create insert_notification snd notifications].
      rewrite Built. apply in_or_app. right. left. reflexivity.
Qed.

Lemma has_id_apply_update j u r : has_id j (apply_update u r) = has_id j r.
Proof. reflexivity. Qed.

Lemma existsb_update_rows j id u rs :
  existsb (has_id j) (update_rows id u rs) = existsb (has_id j) rs.
Proof.
  unfold update_rows. induction rs as [|r rs IH]; [reflexivity|].
  cbn [map existsb]. rewrite IH. destruct (has_id id r); reflexivity.
Qed.

Lemma find_update_rows j id u rs :
  find (has_id j) (update_rows id u rs) =
  if j =? id then option_map (apply_update u) (find (has_id j) rs)
  else find (has_id j) rs.
Proof.
  unfold update_rows. induction rs as [|r rs IH]; cbn [map find].
  - destruct (j =? id); reflexivity.
  - destruct (has_id id r) eqn:Ei.
    + rewrite has_id_apply_update. unfold has_id in Ei |- *. apply Z.eqb_eq in Ei.
      destruct (Z.eqb_spec (ScheduledReminder.scheduled_reminder_id r) j) as [Ej|Nj].
      * replace (j =? id) with true by (symmetry; apply Z.eqb_eq; congruence).
        reflexivity.
      * exact IH.
    + unfold has_id in Ei |- *.
      destruct (Z.eqb_spec (ScheduledReminder.scheduled_reminder_id r) j) as [Ej|Nj].
      * replace (j =? id) with false; [reflexivity|].
        symmetry. apply Z.eqb_neq. apply Z.eqb_neq in Ei. congruence.
      * exact IH.
Qed.

Lemma tally_counts vs : forall acc,
  Results.processed (tally vs acc) = Results.processed acc /\
  Results.sent (tally vs acc) + Results.skipped (tally vs acc) + Results.failed (tally vs acc) =
  Results.sent acc + Results.skipped acc + Results.failed acc + Z.of_nat (List.length vs).
Proof.
  unfold tally. induction vs as [|v vs IH]; intros acc; cbn [fold_left List.length].
  - cbn. lia.
  - destruct (IH (tally_one v acc)) as [P S]. rewrite P, S.
    destruct v; cbn; lia.
Qed.

Lemma tally_explicit vs : forall acc,
  tally vs acc =
  Results.mk (Results.processed acc)
             (Results.sent acc + how_many is_sent_verdict vs)
             (Results.skipped acc + how_many is_skipped_verdict vs)
             (Results.failed acc + how_many is_failed_verdict vs).
Proof.
  unfold tally, how_many. induction vs as [|v vs IH]; intros acc; cbn [fold_left filter].
  - destruct acc. cbn. rewrite !Z.add_0_r. reflexivity.
  - rewrite IH. destruct v; cbn [tally_one incr_sent incr_skipped incr_failed
      Results.processed Results.sent Results.skipped Results.failed
      is_sent_verdict is_skipped_verdict is_failed_verdict List.length];
      f_equal; lia.
Qed.

Lemma verdicts_length env d now rs : forall n,
  List.length (verdicts env d now n rs) = List.length rs.
Proof. induction rs as [|r rs IH]; intros n; cbn; [|rewrite IH]; reflexivity. Qed.

Lemma delivered_later d r evs1 evs evs2 w w' :
  notifications_grow w w' ->
  delivered d r evs (db w) -> delivered d r (evs1 ++ evs ++ evs2) (db w').
Proof.
  intros [added Ha] (H1 & H2 & id & H3).
  split; [|split].
  - apply in_or_app. right. apply in_or_app. left. exact H1.
  - apply in_or_app. right. apply in_or_app. left. exact H2.
  - exists id. rewrite Ha. apply in_or_app. left. exact H3.
Qed.

Lemma Forall2_impl_In {A B} (P Q : A -> B -> Prop) (l1 : list A) (l2 : list B) :
  (forall a b, In a l1 -> P a b -> Q a b) -> Forall2 P l1 l2 -> Forall2 Q l1 l2.
Proof.
  intros H F. induction F as [|a b l1 l2 Hab F IH]; constructor.
  - apply H; [left; reflexivity|exact Hab].
  - apply IH. intros a' b' Hin. apply H. right. exact Hin.
Qed.

(** The loop over the due reminders: every turn goes by the rule, and a turn
    touches no row but its own. *)
Lemma dispatch_loop env d now rs : forall acc w,
  failed_update_never_rejected env ->
  NoDup (map ScheduledReminder.scheduled_reminder_id rs) ->
  (forall r, In r rs ->
             existsb (has_id (ScheduledReminder.scheduled_reminder_id r)) (reminders (db w))
             = true) ->
  exists w' evs,
    for_of (map (join_reminder d) rs) (process_reminder env now) acc w =
      (Ok (tally (verdicts env d now (List.length (trace w)) rs) acc), w') /\
    trace w' = trace w ++ evs /\
    notifications_grow w w' /\
    Forall2 (fun r v =>
               find (has_id (ScheduledReminder.scheduled_reminder_id r)) (reminders (db w')) =
               option_map (settle now v)
                 (find (has_id (ScheduledReminder.scheduled_reminder_id r)) (reminders (db w))) /\
               (v = Sent -> delivered d r evs (db w')))
            rs (verdicts env d now (List.length (trace w)) rs) /\
    (forall j, ~ In j (map ScheduledReminder.scheduled_reminder_id rs) ->
               find (has_id j) (reminders (db w')) = find (has_id j) (reminders (db w))) /\
    (forall j, existsb (has_id j) (reminders (db w')) = existsb (has_id j) (reminders (db w))).
Proof.
  induction rs as [|r rs IH]; intros acc w Hf Hnd Hex.
  - exists w, []. cbn. rewrite app_nil_r.
    split; [reflexivity|split; [reflexivity|split; [apply notifications_grow_refl|]]].
    split; [constructor|split; reflexivity].
  - inversion Hnd as [|? ? Hni Hnd']; subst.
    destruct (process_reminder_exact env d now r acc w Hf (Hex r (or_introl eq_refl)))
      as (w1 & e1 & E1 & T1 & L1 & R1 & G1 & S1).
    set (v := fst (turn env d now r (List.length (trace w)))) in *.
    assert (Len : List.length (trace w1) =
                  (List.length (trace w) + snd (turn env d now r (List.length (trace w))))%nat)
      by (rewrite T1, length_app, L1; reflexivity).
    destruct (IH (tally_one v acc) w1 Hf Hnd') as (w2 & e2 & E2 & T2 & G2 & A2 & K2 & X2).
    { intros r' Hr'. rewrite R1, existsb_update_rows. apply Hex. right. exact Hr'. }
    rewrite Len in E2, A2.
    exists w2, (e1 ++ e2). cbn [map for_of verdicts]. unfold bind. rewrite E1. fold v.
    split; [exact E2|]. split; [rewrite T2, T1, app_assoc; reflexivity|].
    split; [eapply notifications_grow_trans; eassumption|].
    split; [|split].
    + constructor.
      * split.
        -- rewrite (K2 _ Hni), R1, find_update_rows, Z.eqb_refl.
           destruct (find _ (reminders (db w))); [|reflexivity].
           cbn [option_map]. rewrite settle_update. reflexivity.
        -- intros Hs. specialize (S1 Hs).
           apply (delivered_later d r [] e1 e2 w1 w2 G2) in S1. exact S1.
      * eapply Forall2_impl_In; [|exact A2]. intros r' v' Hin [Dv Sv]. split.
        -- rewrite Dv, R1, find_update_rows.
           destruct (Z.eqb_spec (ScheduledReminder.scheduled_reminder_id r')
                                (ScheduledReminder.scheduled_reminder_id r)) as [Eq|];
             [|reflexivity].
           exfalso. apply Hni. rewrite <- Eq. apply in_map. exact Hin.
        -- intros Hs. specialize (Sv Hs).
           apply (delivered_later d r' e1 e2 [] w2 w2 (notifications_grow_refl w2)) in Sv.
           rewrite app_nil_r in Sv. exact Sv.
    + intros j Hj. rewrite K2, R1, find_update_rows.
      * destruct (Z.eqb_spec j (ScheduledReminder.scheduled_reminder_id r)) as [->|];
          [|reflexivity].
        exfalso. apply Hj. left. reflexivity.
      * intros Hin. apply Hj. right. exact Hin.
    + intros j. rewrite X2, R1, existsb_update_rows. reflexivity.
Qed.

Lemma find_has_id rs r :
  NoDup (map ScheduledReminder.scheduled_reminder_id rs) -> In r rs ->
  find (has_id (ScheduledReminder.scheduled_reminder_id r)) rs = Some r.
Proof.
  induction rs as [|x rs IH]; intros Hnd Hin; [contradiction|].
  inversion Hnd as [|? ? Hni Hnd']; subst. cbn [find]. unfold has_id at 1.
  destruct Hin as [->|Hin]; [rewrite Z.eqb_refl; reflexivity|].
  destruct (Z.eqb_spec (ScheduledReminder.scheduled_reminder_id x)
                       (ScheduledReminder.scheduled_reminder_id r)) as [E|];
    [|apply IH; assumption].
  exfalso. apply Hni. rewrite E. apply in_map. exact Hin.
Qed.

Lemma existsb_has_id rs r :
  In r rs -> existsb (has_id (ScheduledReminder.scheduled_reminder_id r)) rs = true.
Proof.
  intros Hin. apply existsb_exists. exists r. split; [exact Hin|].
  unfold has_id. apply Z.eqb_refl.
Qed.

(** A dispatch run whose due query returns, with the FAILED update never
    rejected: the counts are those of the verdicts, every due reminder is
    left as its verdict settles it, and no other row is touched. *)
Lemma dispatch_exact env w :
  rejects env (List.length (trace w)) (scheduledReminder_findMany_due (wall w)) = None ->
  failed_update_never_rejected env ->
  NoDup (map ScheduledReminder.scheduled_reminder_id (reminders (db w))) ->
  let due := filter (is_due (wall w)) (reminders (db w)) in
  let vs := verdicts env (db w) (wall w) (S (List.length (trace w))) due in
  let w' := exec (dispatch env) w in
  outcome (dispatch env) w = Ok (tally vs (Results.mk (Z.of_nat (List.length due)) 0 0 0)) /\
  Forall2 (dispatched w w') due vs /\
  (forall r, In r (reminders (db w)) -> is_due (wall w) r = false ->
             find (has_id (ScheduledReminder.scheduled_reminder_id r)) (reminders (db w'))
             = Some r).
Proof.
  intros Hq Hf Hnd due vs w'. unfold w', outcome, exec, dispatch.
  unfold prisma_scheduledReminder_findMany_due. unfold bind, Date_now, external.
  rewrite Hq. cbn [fst snd].
  set (w1 := set_db (db w) (record (EvCall (scheduledReminder_findMany_due (wall w)) None) w)).
  assert (L1 : List.length (trace w1) = S (List.length (trace w)))
    by (subst w1; cbn [trace set_db record]; apply length_snoc).
  unfold q_scheduledReminder_findMany_due. fold due. rewrite length_map.
  destruct (dispatch_loop env (db w) (wall w) due
              (Results.mk (Z.of_nat (List.length due)) 0 0 0) w1 Hf)
    as (w2 & evs & E & T & G & A & K & X).
  { apply NoDup_map_filter. exact Hnd. }
  { intros r Hr. apply filter_In in Hr. apply (existsb_has_id _ _ (proj1 Hr)). }
  rewrite L1 in E, A. fold vs in E, A. rewrite E. cbn [fst snd].
  assert (Hev : events_since w w2 =
                EvCall (scheduledReminder_findMany_due (wall w)) None :: evs).
  { apply events_since_app. rewrite T. subst w1. cbn [trace set_db record].
    rewrite <- app_assoc. reflexivity. }
  split; [reflexivity|split].
  - eapply Forall2_impl_In; [|exact A]. intros r v Hin [Dv Sv].
    apply filter_In in Hin. destruct Hin as [Hin _].
    split.
    + rewrite Dv. subst w1. cbn [db set_db record].
      rewrite (find_has_id _ _ Hnd Hin). reflexivity.
    + intros Hs. rewrite Hev. destruct (Sv Hs) as (H1 & H2 & H3).
      split; [right; exact H1|split; [right; exact H2|exact H3]].
  - intros r Hin Hdue. rewrite K.
    + subst w1. cbn [db set_db record]. apply find_has_id; assumption.
    + intros Hj. apply in_map_iff in Hj. destruct Hj as (r' & Eid & Hr').
      apply filter_In in Hr'. destruct Hr' as [Hin' Hdue'].
      assert (r' = r).
      { pose proof (find_has_id _ _ Hnd Hin) as F1.
        pose proof (find_has_id _ _ Hnd Hin') as F2.
        rewrite Eid in F2. congruence. }
      subst r'. congruence.
Qed.

Lemma turn_clean env d now r n :
  never_rejects env -> owner_of d (ScheduledReminder.user_id r) <> None ->
  is_failed_verdict (fst (turn env d now r n)) = false.
Proof.
  intros Hn Ho. unfold turn.
  destruct (owner_of d (ScheduledReminder.user_id r)) as [u|]; [|congruence].
  rewrite !Hn.
  destruct (negb (User.prefersNotifications u) || User.onVacation u); [reflexivity|].
  destruct (svc_isHabitCompletedForDate env _ _ now); reflexivity.
Qed.

Lemma verdicts_clean env d now rs : forall n,
  never_rejects env ->
  (forall r, In r rs -> owner_of d (ScheduledReminder.user_id r) <> None) ->
  Forall (fun v => is_failed_verdict v = false) (verdicts env d now n rs).
Proof.
  induction rs as [|r rs IH]; intros n Hn Ho; cbn [verdicts]; constructor.
  - apply turn_clean; [exact Hn|apply Ho; left; reflexivity].
  - apply IH; [exact Hn|intros r' Hr'; apply Ho; right; exact Hr'].
Qed.

(** C2, as amended.  When the due query returns and the update that
    records FAILED is not itself rejected, a dispatch run settles every
    reminder of the due set (scheduled at or before now, not sent,
    prepared), in the order of the query, by the rule [turn]: SKIPPED with
    'User preferences or status' when the owner has disabled notifications or
    is on vacation; else SKIPPED with 'Already completed' when the habit is
    completed today; else a notification is created and pushed and the
    reminder is SENT; and FAILED with the message of the error when the owner
    row is missing or a call of the turn was rejected, after which the loop
    goes on.  Each row is left as its verdict settles it ([settle]: FAILED
    does not set [is_sent]); a SENT reminder had its notification inserted
    and pushed; the run returns processed = number of due reminders = sent +
    skipped + failed, each the number of reminders so settled; rows that were
    not due are untouched. *)
Theorem dispatch_settles_every_due_reminder :
  forall (env : Env) (w : World),
    rejects env (List.length (trace w)) (scheduledReminder_findMany_due (wall w)) = None ->
    failed_update_never_rejected env ->
    NoDup (map ScheduledReminder.scheduled_reminder_id (reminders (db w))) ->
    let due := filter (in_due_set (wall w)) (reminders (db w)) in
    let vs := verdicts env (db w) (wall w) (S (List.length (trace w))) due in
    let w' := exec (dispatch env) w in
    outcome (dispatch env) w =
      Ok (Results.mk (Z.of_nat (List.length due))
                     (how_many is_sent_verdict vs)
                     (how_many is_skipped_verdict vs)
                     (how_many is_failed_verdict vs)) /\
    Z.of_nat (List.length due) =
      how_many is_sent_verdict vs + how_many is_skipped_verdict vs
      + how_many is_failed_verdict vs /\
    Forall2 (dispatched w w') due vs /\
    (forall r, In r (reminders (db w)) -> in_due_set (wall w) r = false ->
               find (has_id (ScheduledReminder.scheduled_reminder_id r)) (reminders (db w'))
               = Some r).
Proof.
  intros env w Hq Hf Hnd due vs w'.
  change (in_due_set (wall w)) with (is_due (wall w)) in *.
  destruct (dispatch_exact env w Hq Hf Hnd) as (E & D & K).
  fold due in E, D. fold vs in E, D. fold w' in D, K.
  split; [rewrite E, tally_explicit; reflexivity|split; [|split; [exact D|exact K]]].
  destruct (tally_counts vs (Results.mk (Z.of_nat (List.length due)) 0 0 0)) as [_ S].
  rewrite tally_explicit in S. cbn [Results.sent Results.skipped Results.failed] in S.
  unfold vs in S at 4. rewrite verdicts_length in S. fold vs in S. lia.
Qed.

(** ** Concrete runs *)

Lemma demo_owners : owners_present (db demo).
Proof. intros h [<-|[]]. discriminate. Qed.

Lemma calm_never_rejects : never_rejects calm.
Proof. intros n c. reflexivity. Qed.

Lemma demo_reminder_ids :
  NoDup (map ScheduledReminder.scheduled_reminder_id (reminders (db demo))).
Proof. cbn. constructor; [intros []|constructor]. Qed.

Lemma calm_failed_update : failed_update_never_rejected calm.
Proof. intros n id reason. reflexivity. Qed.

(** The milestone scan on [demo]: Run is on a 7-day streak. *)
Lemma milestone_scan_exact_witness :
  owners_present (db demo) /\
  notification_attempts (events_since demo (exec (streak_milestone_check_body calm) demo)) =
  [milestone_notice run 7].
Proof.
  split; [exact demo_owners|].
  exact (proj2 (milestone_scan_exact calm demo eq_refl demo_owners)).
Defined.

(** The daily-goal scan on [demo]: ann's goal is 1 and she has one log today. *)
Lemma daily_goal_scan_exact_witness :
  count_never_rejected calm /\
  notification_attempts (events_since demo (exec (daily_goal_check_body calm) demo)) =
  [goal_notice ann 1].
Proof.
  assert (Hc : count_never_rejected calm) by (intros n uid from to; reflexivity).
  split; [exact Hc|].
  exact (proj1 (proj2 (daily_goal_scan_exact calm demo eq_refl Hc))).
Defined.

(** Two firings of the welcome job on [demo]: ann ends with one welcome. *)
Lemma welcome_at_most_once_witness :
  NoDup (map User.user_id (users (db demo))) /\
  le (welcomes (db (welcome_runs [(calm, 2000); (calm, 3000)] demo)) 1) 1%nat.
Proof.
  assert (Hnd : NoDup (map User.user_id (users (db demo)))).
  { cbn. constructor; [intros []|constructor]. }
  split; [exact Hnd|].
  apply (welcome_at_most_once [(calm, 2000); (calm, 3000)] demo 1 Hnd).
  cbn. lia.
Defined.

(** The warning scan on [demo]. *)
Lemma warning_scan_exact_witness :
  owners_present (db demo) /\
  notification_attempts (events_since demo (exec (streak_warning_check_body calm) demo)) =
  [at_risk_notice run 7].
Proof.
  split; [exact demo_owners|].
  refine (proj1 (proj2 (warning_scan_exact calm demo eq_refl demo_owners _ _))).
  - intros n h date. reflexivity.
  - intros n hid uid date. reflexivity.
Defined.

(** C3 as stated fails: with ann in quiet hours the scan still warns her. *)
Lemma warning_scan_ignores_quiet_hours : ~ warning_claim_stated hushed demo.
Proof. unfold warning_claim_stated. vm_compute. discriminate. Qed.

(** Two firings of the preservation scan 90 minutes apart on [keen]. *)
Lemma preservation_rate_limit_witness :
  2000 <= 5402000 <= 2000 + 90 * 60 * 1000 /\
  le (preservations
        (db (exec (streak_preservation_reminder calm)
                  (set_wall 5402000
                     (exec (streak_preservation_reminder calm) (set_wall 2000 keen)))))
        10 1)
     (preservations (db keen) 10 1 + 1)%nat.
Proof.
  assert (Ht : 2000 <= 5402000 <= 2000 + 90 * 60 * 1000) by lia.
  split; [exact Ht|].
  exact (proj1 (preservation_rate_limit calm calm keen 2000 5402000 10 1 Ht)).
Defined.

(** The weekly digest on [demo]. *)
Lemma weekly_digest_witness :
  exists flags,
    notification_attempts (events_since demo (exec (weekly_habit_review_body calm) demo)) =
    map (weekly_attempt demo) (pick flags [ann]) /\
    pick flags [ann] = [ann].
Proof.
  destruct (proj2 (weekly_digest calm demo eq_refl)) as (flags & _ & _ & N & _ & Q).
  exists flags. split; [exact N|]. apply Q.
  split; intros; reflexivity.
Defined.

(** The dispatch run on [demo]: the one due reminder is sent. *)
Lemma dispatch_settles_witness :
  failed_update_never_rejected calm /\
  NoDup (map ScheduledReminder.scheduled_reminder_id (reminders (db demo))) /\
  outcome (dispatch calm) demo = Ok (Results.mk 1 1 0 0) /\
  Forall2 (dispatched demo (exec (dispatch calm) demo)) [run_reminder] [Sent].
Proof.
  split; [exact calm_failed_update|split; [exact demo_reminder_ids|]].
  destruct (dispatch_settles_every_due_reminder calm demo eq_refl
              calm_failed_update demo_reminder_ids) as (E & _ & D & _).
  split; [exact E|exact D].
Defined.

(** C2 as stated fails: when the store rejects the reminder updates, the
    [catch] that should mark the row FAILED throws itself, the run aborts
    and returns no counts, and the row has no status. *)
Lemma dispatch_aborts_when_failed_mark_rejected : ~ dispatch_claim_stated updates_down demo.
Proof.
  intros [(results & E & _) _]. vm_compute in E. discriminate.
Qed.

(** A reminder a run marked FAILED is due again at every later run; one it
    marked SENT or SKIPPED never is. *)
Lemma due_after_verdict now later r v :
  is_due now r = true -> now <= later ->
  is_due later (apply_update (verdict_update now v) r) = is_failed_verdict v.
Proof.
  unfold is_due. intros H Hl.
  apply andb_prop in H. destruct H as [H Hp]. apply andb_prop in H. destruct H as [Ht Hs].
  apply Z.leb_le in Ht.
  destruct v; cbn; rewrite ?andb_false_r; try reflexivity.
  rewrite Hs, Hp, !andb_true_r. apply Z.leb_le. lia.
Qed.

(** C1, the code at the failing input.  A push is rejected during the first
    dispatch run over [demo]: the reminder is marked FAILED and a
    notification row stays behind.  The row is still due, and the next run
    processes it again: its status changes from FAILED to SENT and a second
    notification row is created for the same reminder. *)
Theorem failed_reminder_is_dispatched_again :
  let w1 := exec (dispatch push_down) demo in
  let w2 := exec (dispatch calm) (set_wall 3000 w1) in
  map ScheduledReminder.send_status (reminders (db w1)) = [Some "FAILED"] /\
  map (is_due 3000) (reminders (db w1)) = [true] /\
  map ScheduledReminder.send_status (reminders (db w2)) = [Some "SENT"] /\
  List.length (notifications (db w1)) = 1%nat /\
  List.length (notifications (db w2)) = 2%nat.
Proof. vm_compute. repeat split. Qed.

(** * Further properties *)

(** ** What a run conserves *)

Section Stable.

Variable R : World -> World -> Prop.
Hypothesis R_refl : forall w, R w w.
Hypothesis R_trans : forall w1 w2 w3, R w1 w2 -> R w2 w3 -> R w1 w3.

Lemma stable_ret {A} (a : A) : stable R (ret a).
Proof. intros w. apply R_refl. Qed.

Lemma stable_throw {A} (e : Err) : stable R (@throw A e).
Proof. intros w. apply R_refl. Qed.

Lemma stable_Date_now : stable R Date_now.
Proof. intros w. apply R_refl. Qed.

Lemma stable_bind {A B} (m : M A) (k : A -> M B) :
  stable R m -> (forall a, stable R (k a)) -> stable R (bind m k).
Proof.
  intros Hm Hk w. specialize (Hm w). unfold exec, bind in *.
  destruct (m w) as [[a|e] w1]; cbn [snd] in *; [|exact Hm].
  apply (R_trans _ w1); [exact Hm|]. apply (Hk a w1).
Qed.

Lemma stable_try_catch {A} (m : M A) (h : Err -> M A) :
  stable R m -> (forall e, stable R (h e)) -> stable R (try_catch m h).
Proof.
  intros Hm Hh w. specialize (Hm w). unfold exec, try_catch in *.
  destruct (m w) as [[a|e] w1]; cbn [snd] in *; [exact Hm|].
  apply (R_trans _ w1); [exact Hm|]. apply (Hh e w1).
Qed.

Lemma stable_for_of {A S} (xs : list A) (body : A -> S -> M S) (acc : S) :
  (forall x s, stable R (body x s)) -> stable R (for_of xs body acc).
Proof.
  intros Hb. revert acc. induction xs as [|x xs IH]; intros acc; cbn [for_of].
  - apply stable_ret.
  - apply stable_bind; [apply Hb|]. intros a. apply IH.
Qed.

Lemma stable_console_error line :
  (forall w, R w (record (EvConsoleError line) w)) -> stable R (console_error line).
Proof. intros H w. apply H. Qed.

Lemma stable_logJobStatus name status details :
  (forall w l, R w (record (EvJobStatus l) w)) ->
  stable R (logJobStatus name status details).
Proof. intros H w. apply H. Qed.

Lemma stable_cron_job name (body : M Details) :
  (forall w l, R w (record (EvJobStatus l) w)) ->
  stable R body -> stable R (cron_job name body).
Proof.
  intros Hl Hb. unfold cron_job.
  apply stable_bind; [apply stable_logJobStatus; exact Hl|intros _].
  apply stable_try_catch.
  - apply stable_bind; [exact Hb|intros d; apply stable_logJobStatus; exact Hl].
  - intros e. apply stable_logJobStatus; exact Hl.
Qed.

(** A call that leaves cron.js conserves what its record and its effect on
    the store conserve. *)
Lemma stable_external env {A} c (run : DB -> Outcome A * DB) :
  (forall w r, R w (record (EvCall c r) w)) ->
  (forall w, R w (set_db (snd (run (db w))) w)) ->
  stable R (external env c run).
Proof.
  intros Hrec Hrun w. unfold exec, external.
  destruct (rejects env (List.length (trace w)) c); cbn [snd].
  - apply Hrec.
  - apply (R_trans _ (record (EvCall c None) w)); [apply Hrec|].
    specialize (Hrun (record (EvCall c None) w)). cbn [db record] in Hrun.
    destruct (run (db w)) as [o d]. exact Hrun.
Qed.

End Stable.

(** ** The tables a job writes *)

Lemma same_tables_refl d : same_tables d d.
Proof. repeat split. Qed.

Lemma same_tables_trans d1 d2 d3 : same_tables d1 d2 -> same_tables d2 d3 -> same_tables d1 d3.
Proof. unfold same_tables. intuition congruence. Qed.

Lemma appended_refl d : appended d d.
Proof.
  split; [apply same_tables_refl|]. split; exists []; rewrite app_nil_r; reflexivity.
Qed.

Lemma appended_trans d1 d2 d3 : appended d1 d2 -> appended d2 d3 -> appended d1 d3.
Proof.
  intros (T1 & (n1 & N1) & (r1 & R1)) (T2 & (n2 & N2) & (r2 & R2)).
  split; [eapply same_tables_trans; eassumption|]. split.
  - exists (n1 ++ n2). rewrite N2, N1, app_assoc. reflexivity.
  - exists (r1 ++ r2). rewrite R2, R1, app_assoc. reflexivity.
Qed.

Lemma same_reminder_refl r : same_reminder r r.
Proof. repeat split. Qed.

Lemma same_reminder_trans r1 r2 r3 :
  same_reminder r1 r2 -> same_reminder r2 r3 -> same_reminder r1 r3.
Proof. unfold same_reminder. intuition congruence. Qed.

Lemma Forall2_same_reminder_refl rs : Forall2 same_reminder rs rs.
Proof. induction rs; constructor; [apply same_reminder_refl|assumption]. Qed.

Lemma Forall2_same_reminder_trans rs1 : forall rs2 rs3,
  Forall2 same_reminder rs1 rs2 -> Forall2 same_reminder rs2 rs3 ->
  Forall2 same_reminder rs1 rs3.
Proof.
  induction rs1 as [|r rs1 IH]; intros rs2 rs3 H12 H23; inversion H12; subst;
    inversion H23; subst; constructor.
  - eapply same_reminder_trans; eassumption.
  - eapply IH; eassumption.
Qed.

Lemma restamped_refl d : restamped d d.
Proof.
  split; [apply same_tables_refl|]. split; [exists []; rewrite app_nil_r; reflexivity|].
  split; [apply Forall2_same_reminder_refl|reflexivity].
Qed.

Lemma restamped_trans d1 d2 d3 : restamped d1 d2 -> restamped d2 d3 -> restamped d1 d3.
Proof.
  intros (T1 & (n1 & N1) & F1 & S1) (T2 & (n2 & N2) & F2 & S2).
  split; [eapply same_tables_trans; eassumption|]. split; [|split].
  - exists (n1 ++ n2). rewrite N2, N1, app_assoc. reflexivity.
  - eapply Forall2_same_reminder_trans; eassumption.
  - congruence.
Qed.

Section OnDb.

Variable RD : DB -> DB -> Prop.
Hypothesis RD_refl : forall d, RD d d.
Hypothesis RD_trans : forall d1 d2 d3, RD d1 d2 -> RD d2 d3 -> RD d1 d3.

Lemma on_db_refl w : on_db RD w w.
Proof. split; [reflexivity|apply RD_refl]. Qed.

Lemma on_db_trans w1 w2 w3 : on_db RD w1 w2 -> on_db RD w2 w3 -> on_db RD w1 w3.
Proof. intros [W1 D1] [W2 D2]. split; [congruence|eapply RD_trans; eassumption]. Qed.

Lemma on_db_record w e : on_db RD w (record e w).
Proof. split; [reflexivity|apply RD_refl]. Qed.

(** A call whose effect on the store is within [RD]. *)
Lemma on_db_external env {A} c (run : DB -> Outcome A * DB) :
  (forall d, RD d (snd (run d))) -> stable (on_db RD) (external env c run).
Proof.
  intros Hrun. apply stable_external.
  - exact on_db_trans.
  - intros w r. apply on_db_record.
  - intros w. split; [reflexivity|]. apply Hrun.
Qed.

End OnDb.

Lemma appended_insert_notification d c : appended d (snd (insert_notification d c)).
Proof.
  unfold insert_notification. cbn [snd].
  split; [repeat split|]. split; cbn.
  - eexists. reflexivity.
  - exists []. rewrite app_nil_r. reflexivity.
Qed.

Lemma appended_insert_reminder d c : appended d (insert_reminder d c).
Proof.
  unfold insert_reminder.
  split; [repeat split|]. split; cbn.
  - exists []. rewrite app_nil_r. reflexivity.
  - eexists. reflexivity.
Qed.

Lemma restamped_insert_notification d c : restamped d (snd (insert_notification d c)).
Proof.
  unfold insert_notification. cbn [snd].
  split; [repeat split|]. split; [|split]; cbn.
  - eexists. reflexivity.
  - apply Forall2_same_reminder_refl.
  - reflexivity.
Qed.

Lemma same_reminder_apply_update u r : same_reminder r (apply_update u r).
Proof. repeat split. Qed.

Lemma Forall2_same_reminder_update_rows id u rs :
  Forall2 same_reminder rs (update_rows id u rs).
Proof.
  induction rs as [|r rs IH]; cbn; constructor; [|exact IH].
  destruct (has_id id r); [apply same_reminder_apply_update|apply same_reminder_refl].
Qed.

Lemma restamped_update_reminder d id u : restamped d (snd (update_reminder d id u)).
Proof.
  unfold update_reminder. destruct (existsb (has_id id) (reminders d)); cbn [snd].
  - split; [repeat split|]. split; [|split]; cbn.
    + exists []. rewrite app_nil_r. reflexivity.
    + apply Forall2_same_reminder_update_rows.
    + reflexivity.
  - apply restamped_refl.
Qed.

(** Walks a computation, leaving the effect of each call on the store to
    [leaf]. *)
Ltac conserve RD refl trans leaf :=
  repeat match goal with
  | |- stable _ (bind _ _) => apply (stable_bind _ (on_db_trans RD trans)); [|intros]
  | |- stable _ (try_catch _ _) => apply (stable_try_catch _ (on_db_trans RD trans)); [|intros]
  | |- stable _ (for_of _ _ _) =>
      apply (stable_for_of _ (on_db_refl RD refl) (on_db_trans RD trans)); intros
  | |- stable _ (ret _) => apply (stable_ret _ (on_db_refl RD refl))
  | |- stable _ (throw _) => apply (stable_throw _ (on_db_refl RD refl))
  | |- stable _ Date_now => apply (stable_Date_now _ (on_db_refl RD refl))
  | |- stable _ (console_error _) =>
      apply stable_console_error; intros; apply (on_db_record RD refl)
  | |- stable _ (external _ _ _) =>
      apply (on_db_external RD refl trans); intros; cbn [snd]; leaf
  | |- stable _ (match ?x with _ => _ end) => destruct x
  end.

Ltac appended_leaf :=
  first [ apply appended_refl
        | apply appended_insert_notification
        | apply appended_insert_reminder ].

Ltac restamped_leaf :=
  first [ apply restamped_refl
        | apply restamped_insert_notification
        | apply restamped_update_reminder ].

Ltac unfold_calls :=
  unfold prisma_notification_create, notificationService_sendToUser,
    prisma_habit_findMany_active, prisma_habit_findMany_in,
    prisma_scheduledReminder_findMany_due, prisma_scheduledReminder_findFirst_since,
    prisma_scheduledReminder_create, prisma_scheduledReminder_update,
    prisma_user_findMany_active, prisma_user_findMany_goal, prisma_user_findMany_new,
    prisma_habitLog_groupBy, prisma_habitLog_count,
    reminderService_isHabitScheduledForDate, reminderService_isHabitCompletedForDate,
    reminderService_isInQuietHours.

Ltac unfold_jobs :=
  unfold streak_milestone_check_body, milestone_step,
    streak_warning_check_body, warning_step, createStreakWarningNotification,
    process_reminders_body, dispatch, process_reminder, deliver_reminder, fail_reminder,
    streak_preservation_reminder_body, preservation_scan, preservation_step,
    weekly_habit_review_body, weekly_step, createWeeklySummaryNotification,
    daily_goal_check_body, goal_step,
    new_user_welcome_body, welcome_step,
    createNotification, duration_since.

Lemma scans_appended env :
  Forall (fun j => stable (on_db appended) (snd j)) (scans env).
Proof.
  unfold scans, jobs. cbn [filter existsb fst snd String.eqb Ascii.eqb Bool.eqb negb orb].
  repeat (apply Forall_cons; [cbn [snd]|]); try apply Forall_nil.
  all: unfold_jobs; unfold_calls.
  all: conserve appended appended_refl appended_trans appended_leaf.
Qed.

Lemma dispatch_restamped env : stable (on_db restamped) (process_reminders_body env).
Proof.
  unfold_jobs; unfold_calls.
  conserve restamped restamped_refl restamped_trans restamped_leaf.
Qed.

(** X1.  The six scans never write the users, habits, streaks or habit logs, and
    in the Notification and ScheduledReminder tables they only add rows:
    whatever is rejected along the way, every row that was there is still
    there, unchanged and in its place, when the handler resolves. *)
Theorem scans_only_append :
  forall (env : Env) (w : World),
    Forall (fun j => appended (db w) (db (exec (handler j) w))) (scans env).
Proof.
  intros env w. pose proof (scans_appended env) as H. rewrite Forall_forall in *.
  intros j Hj. specialize (H j Hj). unfold handler.
  apply (stable_cron_job (on_db appended) (on_db_trans appended appended_trans)).
  - intros w0 l. apply (on_db_record appended appended_refl).
  - exact H.
Qed.

(** X2.  The dispatch job never writes the users, habits, streaks or habit logs,
    only adds rows to the Notification table, and neither adds nor removes a
    reminder: of each reminder it leaves the id, habit, owner, scheduled time,
    type, message, prepared flag and metadata as they were. *)
Theorem dispatch_only_restamps :
  forall (env : Env) (w : World),
    restamped (db w) (db (exec (process_reminders env) w)).
Proof.
  intros env w. unfold process_reminders.
  apply (stable_cron_job (on_db restamped) (on_db_trans restamped restamped_trans)).
  - intros w0 l. apply (on_db_record restamped restamped_refl).
  - apply dispatch_restamped.
Qed.

(** ** The notifications a job creates *)

Section AttemptsIn.

Variable P : NotificationCreate.t -> Prop.

Lemma attempts_in_refl w : attempts_in P w w.
Proof. exists []. rewrite app_nil_r. split; [reflexivity|constructor]. Qed.

Lemma attempts_in_trans w1 w2 w3 :
  attempts_in P w1 w2 -> attempts_in P w2 w3 -> attempts_in P w1 w3.
Proof.
  intros (e1 & T1 & F1) (e2 & T2 & F2). exists (e1 ++ e2).
  rewrite T2, T1, app_assoc, notification_attempts_app. split; [reflexivity|].
  apply Forall_app. split; assumption.
Qed.

Lemma attempts_in_set_db w d : attempts_in P w (set_db d w).
Proof. exists []. cbn. rewrite app_nil_r. split; [reflexivity|constructor]. Qed.

Lemma attempts_in_record w e :
  match e with
  | EvCall (notification_create data) _ => P data
  | _ => True
  end ->
  attempts_in P w (record e w).
Proof.
  intros H. exists [e]. split; [reflexivity|].
  destruct e as [[]| |]; cbn; auto.
Qed.

(** A call that creates no notification. *)
Lemma attempts_in_external env {A} c (run : DB -> Outcome A * DB) :
  match c with
  | notification_create data => P data
  | _ => True
  end ->
  stable (attempts_in P) (external env c run).
Proof.
  intros H. apply stable_external.
  - exact attempts_in_trans.
  - intros w r. apply attempts_in_record. exact H.
  - intros w. apply attempts_in_set_db.
Qed.

End AttemptsIn.

Ltac attempts_walk P leaf :=
  repeat match goal with
  | |- stable _ (bind _ _) => apply (stable_bind _ (attempts_in_trans P)); [|intros]
  | |- stable _ (try_catch _ _) => apply (stable_try_catch _ (attempts_in_trans P)); [|intros]
  | |- stable _ (for_of _ _ _) =>
      apply (stable_for_of _ (attempts_in_refl P) (attempts_in_trans P)); intros
  | |- stable _ (ret _) => apply (stable_ret _ (attempts_in_refl P))
  | |- stable _ (throw _) => apply (stable_throw _ (attempts_in_refl P))
  | |- stable _ Date_now => apply (stable_Date_now _ (attempts_in_refl P))
  | |- stable _ (console_error _) =>
      apply stable_console_error; intros; apply attempts_in_record; exact I
  | |- stable _ (external _ _ _) => apply attempts_in_external; leaf
  | |- stable _ (match ?x with _ => _ end) => destruct x
  end.

Lemma prepareRemindersForNextDay_attempts P env :
  stable (attempts_in P) (reminderService_prepareRemindersForNextDay env).
Proof.
  intros w. unfold reminderService_prepareRemindersForNextDay.
  apply (attempts_in_external P env prepareRemindersForNextDay). exact I.
Qed.

Ltac job_notification_leaf :=
  first [ exact I
        | unfold job_notification, milestone_notification, streak_warning_notification,
            reminder_notification, preservation_notification, goal_notification,
            welcome_notification, habit_url;
          cbn; repeat split; solve [auto | discriminate] ].

Lemma weekly_summary_job_notification u c l :
  job_notification (create_data (weekly_summary u c l)).
Proof.
  unfold weekly_summary.
  destruct (c =? 0); [|destruct (c <? 5); [|destruct (c <? 15); [|destruct (c <? 30)]]].
  all: unfold job_notification; cbn; repeat split; try discriminate; right; reflexivity.
Qed.

Lemma createWeeklySummaryNotification_attempts env u c l :
  stable (attempts_in job_notification) (createWeeklySummaryNotification env u c l).
Proof.
  unfold createWeeklySummaryNotification, createNotification. unfold_calls.
  attempts_walk job_notification ltac:(first [exact I | apply weekly_summary_job_notification]).
Qed.

Lemma jobs_attempts env :
  Forall (fun j => stable (attempts_in job_notification) (snd j)) (jobs env).
Proof.
  unfold jobs.
  repeat (apply Forall_cons; [cbn [snd]|]); try apply Forall_nil.
  all: unfold daily_streak_update_body, prepare_next_day_reminders_body,
         streakController_processDailyStreakUpdates,
         streak_milestone_check_body, milestone_step,
         streak_warning_check_body, warning_step, createStreakWarningNotification,
         process_reminders_body, dispatch, process_reminder, deliver_reminder, fail_reminder,
         streak_preservation_reminder_body, preservation_scan, preservation_step,
         weekly_habit_review_body, weekly_step,
         daily_goal_check_body, goal_step,
         new_user_welcome_body, welcome_step,
         createNotification, duration_since; unfold_calls.
  all: repeat first [ apply prepareRemindersForNextDay_attempts
                    | apply createWeeklySummaryNotification_attempts
                    | progress (attempts_walk job_notification job_notification_leaf) ].
Qed.

(** X4.  The seven jobs whose work is done in cron.js itself (all but the two
    that only call [streakController] and [ReminderService]): whatever is
    rejected along the way, every notification such a handler tries to create
    is unread, carries an action URL and is of type STREAK_MILESTONE,
    REMINDER, ACHIEVEMENT_UNLOCKED or SYSTEM_MESSAGE; a SYSTEM_MESSAGE of
    theirs is the welcome or a weekly summary.  So none of them creates the
    SYSTEM_MESSAGE notices 'Grace Period Used' and 'Streak Reset' that cron.js
    defines. *)
Theorem jobs_create_only_their_notifications :
  forall (env : Env) (w : World),
    Forall (fun j =>
              Forall job_notification
                     (notification_attempts (events_since w (exec (handler j) w))))
           (own_jobs env).
Proof.
  intros env w. pose proof (jobs_attempts env) as H. rewrite Forall_forall in *.
  intros j Hj. unfold own_jobs in Hj. apply filter_In in Hj. destruct Hj as [Hj _].
  specialize (H j Hj). unfold handler.
  assert (S : stable (attempts_in job_notification) (cron_job (snd (fst j)) (snd j))).
  { apply (stable_cron_job _ (attempts_in_trans job_notification)); [|exact H].
    intros w0 l. apply attempts_in_record. exact I. }
  destruct (S w) as (evs & T & F). rewrite (events_since_app _ _ _ T). exact F.
Qed.

(** ** The protocol of [createNotification] *)

Lemma calls_app a b : calls (a ++ b) = calls a ++ calls b.
Proof. unfold calls. apply flat_map_app. Qed.

(** X5.  [createNotification] first asks for the row, with the fields of its
    argument, [null] for a missing [related_id] or [action_url], and unread;
    it pushes only when the row was created, once, to the same user with the
    same title and text; nothing else leaves cron.js.  The [notificationId]
    of the push is [undefined]: it is read from [notification.id], and the
    key of the row is [notification_id]. *)
Theorem createNotification_pushes_after_creating :
  forall (env : Env) (data : NotificationData.t) (w : World),
    let create :=
      notification_create
        (NotificationCreate.mk
           (NotificationData.user_id data) (NotificationData.title data)
           (NotificationData.content data) (NotificationData.type data)
           (or_null_Z (NotificationData.related_id data))
           (or_null_string (NotificationData.action_url data)) false) in
    let push :=
      sendToUser (NotificationData.user_id data) (NotificationData.title data)
        (NotificationData.content data)
        (PushData.mk (NotificationData.type data) (NotificationData.related_id data)
                     (NotificationData.action_url data) None) in
    calls (events_since w (exec (createNotification env data) w)) =
    match rejects env (List.length (trace w)) create with
    | Some e => [(create, Some e)]
    | None => [(create, None); (push, rejects env (S (List.length (trace w))) push)]
    end.
Proof.
  intros env data w create push.
  change create with (notification_create (create_data data)).
  change push with (push_call data (created data w)).
  assert (L : List.length (trace (after_create data w)) = S (List.length (trace w))).
  { unfold after_create. cbn [trace set_db record]. rewrite length_app. cbn. lia. }
  rewrite <- L. unfold exec.
  destruct (rejects env (List.length (trace w)) (notification_create (create_data data)))
    as [e|] eqn:Hc.
  - rewrite (createNotification_create_rejected _ _ _ _ Hc). cbn [snd].
    erewrite events_since_app
      by (cbn [trace record]; rewrite <- app_assoc; reflexivity).
    reflexivity.
  - destruct (rejects env (List.length (trace (after_create data w)))
                (push_call data (created data w))) as [e|] eqn:Hp.
    + rewrite (createNotification_push_rejected _ _ _ _ Hc Hp). cbn [snd].
      erewrite events_since_app
        by (cbn [trace record after_create set_db]; rewrite <- !app_assoc; reflexivity).
      reflexivity.
    + rewrite (createNotification_delivered _ _ _ Hc Hp). cbn [snd].
      erewrite events_since_app
        by (cbn [trace record after_create set_db]; rewrite <- !app_assoc; reflexivity).
      reflexivity.
Qed.

(** ** The notices of the streak controller *)

Lemma createNotification_then_tt env data w :
  let run := createNotification env data ;; ret tt in
  outcome run w = Ok tt /\
  same_base w (exec run w) /\
  reminders (db (exec run w)) = reminders (db w) /\
  notification_attempts (events_since w (exec run w)) = [create_data data].
Proof.
  destruct (createNotification_notified env data w) as (r & w' & E & B & Hr & _ & (evs & T & N) & _).
  cbv zeta. unfold outcome, exec, bind. rewrite E. cbn [fst snd ret].
  rewrite (events_since_app _ _ _ T). auto.
Qed.

(** X6.  [createGracePeriodNotification] and [createStreakResetNotification] never
    throw: each resolves after one attempt to create a SYSTEM_MESSAGE for the
    user, titled 'Grace Period Used' and 'Streak Reset' and related to the
    habit, and writes no reminder and no other table. *)
Theorem streak_notices_never_throw :
  forall (env : Env) (userId : Z) (habitName : string) (streak habitId : Z) (w : World),
    let noticed run title :=
      outcome run w = Ok tt /\
      same_base w (exec run w) /\
      reminders (db (exec run w)) = reminders (db w) /\
      exists c,
        notification_attempts (events_since w (exec run w)) = [c] /\
        NotificationCreate.user_id c = userId /\
        NotificationCreate.title c = title /\
        NotificationCreate.type c = SYSTEM_MESSAGE /\
        NotificationCreate.related_id c = or_null_Z (Some habitId) in
    noticed (createGracePeriodNotification env userId habitName streak habitId)
            "Grace Period Used" /\
    noticed (createStreakResetNotification env userId habitName streak habitId)
            "Streak Reset".
Proof.
  intros env u n s h w noticed. unfold noticed.
  unfold createGracePeriodNotification, createStreakResetNotification.
  split.
  - match goal with
    | |- context [createNotification env ?data] =>
        destruct (createNotification_then_tt env data w) as (O & B & Hr & N)
    end.
    split; [exact O|split; [exact B|split; [exact Hr|]]].
    eexists. split; [exact N|]. repeat split.
  - match goal with
    | |- context [createNotification env ?data] =>
        destruct (createNotification_then_tt env data w) as (O & B & Hr & N)
    end.
    split; [exact O|split; [exact B|split; [exact Hr|]]].
    eexists. split; [exact N|]. repeat split.
Qed.

(** ** [createStreakWarningNotification] *)

Lemma in_reminder_attempts c r evs :
  In (EvCall (scheduledReminder_create c) r) evs -> In c (reminder_attempts evs).
Proof.
  intros H. unfold reminder_attempts. apply in_flat_map.
  eexists. split; [exact H|]. left. reflexivity.
Qed.

(** X7.  [createStreakWarningNotification] never throws.  It tries to create the
    'Streak at Risk!' notification and then, whether or not that worked, the
    STREAK_WARNING reminder for 20:00, the latter only when it runs before
    20:00.  When the reminder is created it is the one row added to the table;
    when its creation is rejected the error is logged and no row is added. *)
Theorem createStreakWarningNotification_never_throws :
  forall (env : Env) (userId : Z) (habitName : string) (currentStreak habitId : Z)
         (w : World),
    let run := createStreakWarningNotification env userId habitName currentStreak habitId in
    let evs := events_since w (exec run w) in
    let reminder :=
      streak_warning_reminder userId habitName currentStreak habitId
        (setHours_20 (tz_offset env) (wall w)) in
    outcome run w = Ok tt /\
    notification_attempts evs =
      [create_data (streak_warning_notification userId habitName currentStreak habitId)] /\
    reminder_attempts evs = (if before_8pm env (wall w) then [reminder] else []) /\
    (before_8pm env (wall w) = false -> reminders (db (exec run w)) = reminders (db w)) /\
    (In (EvCall (scheduledReminder_create reminder) None) evs ->
     reminders (db (exec run w)) =
     reminders (db w) ++ [new_reminder (reminder_seq (db w)) reminder]) /\
    (forall e,
        In (EvCall (scheduledReminder_create reminder) (Some e)) evs ->
        reminders (db (exec run w)) = reminders (db w) /\
        In (EvConsoleError ("Error creating streak warning notification: " +++ message e))
           evs).
Proof.
  intros env u n c h w run evs reminder. unfold evs, run, outcome, exec.
  unfold createStreakWarningNotification, try_catch, bind.
  destruct (createNotification_notified env (streak_warning_notification u n c h) w)
    as (r & w1 & E & (Hw & _) & Hr & Hseq & (evs1 & T & N) & _).
  assert (R1 : reminder_attempts evs1 = []).
  { apply (createNotification_no_reminders env (streak_warning_notification u n c h) w).
    unfold exec. rewrite E. exact T. }
  assert (No : forall x rj, ~ In (EvCall (scheduledReminder_create x) rj) evs1).
  { intros x rj Hin. apply in_reminder_attempts in Hin. rewrite R1 in Hin. exact Hin. }
  rewrite E. unfold Date_now, before_8pm. rewrite Hw. fold reminder.
  destruct (wall w <? setHours_20 (tz_offset env) (wall w)).
  - unfold prisma_scheduledReminder_create, external, console_error, ret. fold reminder.
    destruct (rejects env (List.length (trace w1)) (scheduledReminder_create reminder))
      as [e|]; cbn [fst snd].
    + erewrite events_since_app
        by (cbn [trace record]; rewrite T, <- !app_assoc; reflexivity).
      rewrite notification_attempts_app, reminder_attempts_app, N, R1.
      split; [reflexivity|split; [reflexivity|split; [reflexivity|]]].
      split; [discriminate|]. cbn [db record]. split.
      * intros Hin. apply in_app_or in Hin. destruct Hin as [Hin|[Hin|[Hin|[]]]];
          [destruct (No _ _ Hin)|discriminate|discriminate].
      * intros e' Hin. split; [exact Hr|].
        apply in_app_or in Hin. destruct Hin as [Hin|[Hin|[Hin|[]]]];
          [destruct (No _ _ Hin)| |discriminate].
        inversion Hin; subst e'. apply in_or_app. right. right. left. reflexivity.
    + erewrite events_since_app
        by (cbn [trace record set_db]; rewrite T, <- !app_assoc; reflexivity).
      rewrite notification_attempts_app, reminder_attempts_app, N, R1.
      split; [reflexivity|split; [reflexivity|split; [reflexivity|]]].
      split; [discriminate|]. cbn [db record set_db insert_reminder reminders]. split.
      * intros _. rewrite Hr, Hseq. reflexivity.
      * intros e' Hin. apply in_app_or in Hin. destruct Hin as [Hin|[Hin|[]]];
          [destruct (No _ _ Hin)|discriminate].
  - unfold ret. cbn [fst snd]. rewrite (events_since_app _ _ _ T), N, R1.
    split; [reflexivity|split; [reflexivity|split; [reflexivity|]]].
    split; [intros _; exact Hr|]. split.
    + intros Hin. destruct (No _ _ Hin).
    + intros e' Hin. destruct (No _ _ Hin).
Qed.

(** ** The time of the warning reminder *)

Lemma day_and_second t :
  let m := t mod MS_PER_DAY in
  0 <= m < MS_PER_DAY /\ 0 <= t mod 1000 < 1000 /\
  exists a, m = 1000 * a + t mod 1000 /\ 0 <= a.
Proof.
  cbv zeta. unfold MS_PER_DAY, MS_PER_HOUR.
  pose proof (Z.mod_pos_bound t (24 * (60 * 60 * 1000)) ltac:(lia)) as Hm.
  pose proof (Z.mod_pos_bound t 1000 ltac:(lia)) as Hq.
  split; [exact Hm|split; [exact Hq|]].
  exists ((t mod (24 * (60 * 60 * 1000))) / 1000).
  assert (E : t mod 1000 = (t mod (24 * (60 * 60 * 1000))) mod 1000).
  { symmetry. apply Z.mod_mod_divide. exists 86400. lia. }
  rewrite E. split.
  - apply Z.div_mod. lia.
  - apply Z.div_pos; lia.
Qed.

(** X8.  The reminder time [setHours(20, 0, 0)] computes is 20:00 of the local
    day of [t], with the milliseconds of [t]; [t] is before it exactly when
    the local time of day of [t] is before 20:00:00.000. *)
Theorem warning_reminder_is_for_8pm_today :
  forall (offset t : Z),
    local_midnight offset (setHours_20 offset t) = local_midnight offset t /\
    (setHours_20 offset t + offset) mod MS_PER_DAY =
      20 * MS_PER_HOUR + (t + offset) mod 1000 /\
    (t <? setHours_20 offset t) = ((t + offset) mod MS_PER_DAY <? 20 * MS_PER_HOUR).
Proof.
  intros offset t.
  destruct (day_and_second (t + offset)) as (Hm & Hq & a & Ha & Ha0). cbv zeta in *.
  assert (Hday : (setHours_20 offset t + offset) mod MS_PER_DAY =
                 20 * MS_PER_HOUR + (t + offset) mod 1000).
  { unfold setHours_20, local_midnight.
    replace (t - (t + offset) mod MS_PER_DAY + 20 * MS_PER_HOUR + (t + offset) mod 1000 + offset)
      with ((20 * MS_PER_HOUR + (t + offset) mod 1000)
            + ((t + offset) / MS_PER_DAY) * MS_PER_DAY).
    - rewrite Z.mod_add by (unfold MS_PER_DAY, MS_PER_HOUR; lia).
      apply Z.mod_small. unfold MS_PER_DAY, MS_PER_HOUR in *. lia.
    - pose proof (Z.div_mod (t + offset) MS_PER_DAY
                    ltac:(unfold MS_PER_DAY, MS_PER_HOUR; lia)). lia. }
  split; [|split; [exact Hday|]].
  - unfold local_midnight at 1. rewrite Hday. unfold setHours_20. lia.
  - unfold setHours_20, local_midnight.
    destruct (Z.ltb_spec t (t - (t + offset) mod MS_PER_DAY + 20 * MS_PER_HOUR
                            + (t + offset) mod 1000));
      destruct (Z.ltb_spec ((t + offset) mod MS_PER_DAY) (20 * MS_PER_HOUR));
      try reflexivity; unfold MS_PER_DAY, MS_PER_HOUR in *; lia.
Qed.

(** ** The reminders a scan schedules *)

Section AtTime.

Variable now : Z.
Variable RD : DB -> DB -> Prop.
Hypothesis RD_refl : forall d, RD d d.
Hypothesis RD_trans : forall d1 d2 d3, RD d1 d2 -> RD d2 d3 -> RD d1 d3.

Lemma at_time_refl w : at_time now RD w w.
Proof. intros Hw. split; [exact Hw|apply RD_refl]. Qed.

Lemma at_time_trans w1 w2 w3 :
  at_time now RD w1 w2 -> at_time now RD w2 w3 -> at_time now RD w1 w3.
Proof.
  intros H1 H2 Hw. destruct (H1 Hw) as [W1 D1]. destruct (H2 W1) as [W2 D2].
  split; [exact W2|eapply RD_trans; eassumption].
Qed.

Lemma at_time_record w e : at_time now RD w (record e w).
Proof. intros Hw. split; [exact Hw|apply RD_refl]. Qed.

Lemma at_time_external env {A} c (run : DB -> Outcome A * DB) :
  (forall d, RD d (snd (run d))) -> stable (at_time now RD) (external env c run).
Proof.
  intros Hrun. apply stable_external.
  - exact at_time_trans.
  - intros w r. apply at_time_record.
  - intros w Hw. split; [exact Hw|]. apply Hrun.
Qed.

(** [new Date()] in a run that starts at [now]. *)
Lemma at_time_Date_now {A} (k : Z -> M A) :
  stable (at_time now RD) (k now) -> stable (at_time now RD) (bind Date_now k).
Proof.
  intros H w Hw. specialize (H w Hw). unfold exec, bind, Date_now in *.
  rewrite Hw. exact H.
Qed.

End AtTime.

Ltac timed_conserve now RD refl trans leaf :=
  repeat match goal with
  | |- stable _ (bind Date_now _) => apply (at_time_Date_now now RD); cbv zeta
  | |- stable _ (bind _ _) => apply (stable_bind _ (at_time_trans now RD trans)); [|intros]
  | |- stable _ (try_catch _ _) =>
      apply (stable_try_catch _ (at_time_trans now RD trans)); [|intros]
  | |- stable _ (for_of _ _ _) =>
      apply (stable_for_of _ (at_time_refl now RD refl) (at_time_trans now RD trans)); intros
  | |- stable _ (ret _) => apply (stable_ret _ (at_time_refl now RD refl))
  | |- stable _ (throw _) => apply (stable_throw _ (at_time_refl now RD refl))
  | |- stable _ (console_error _) =>
      apply stable_console_error; intros; apply (at_time_record now RD refl)
  | |- stable _ (external _ _ _) =>
      apply (at_time_external now RD refl trans); intros; cbn [snd]; leaf
  | |- stable _ (match ?x with _ => _ end) => destruct x eqn:?
  end.

Lemma adding_refl Q d : adding Q d d.
Proof. exists []. rewrite app_nil_r. split; [reflexivity|constructor]. Qed.

Lemma adding_trans Q d1 d2 d3 : adding Q d1 d2 -> adding Q d2 d3 -> adding Q d1 d3.
Proof.
  intros (a1 & E1 & F1) (a2 & E2 & F2). exists (a1 ++ a2).
  rewrite E2, E1, app_assoc. split; [reflexivity|]. apply Forall_app. split; assumption.
Qed.

Lemma adding_insert_notification Q d c : adding Q d (snd (insert_notification d c)).
Proof. exists []. cbn. rewrite app_nil_r. split; [reflexivity|constructor]. Qed.

Lemma adding_insert_reminder (Q : ScheduledReminder.t -> Prop) d c :
  (forall id, Q (new_reminder id c)) -> adding Q d (insert_reminder d c).
Proof. intros H. exists [new_reminder (reminder_seq d) c]. cbn. auto. Qed.

Lemma preservation_body_adds_due env now :
  stable (at_time now (adding (due_from now))) (streak_preservation_reminder_body env).
Proof.
  unfold_jobs; unfold_calls.
  timed_conserve now (adding (due_from now)) (adding_refl (due_from now))
    (adding_trans (due_from now))
    ltac:(first [ apply adding_refl
                | apply adding_insert_notification
                | apply adding_insert_reminder; intros ? ?; unfold is_due; cbn;
                  rewrite !andb_true_r; reflexivity ]).
Qed.

(** X9.  Whatever is rejected along the way, every reminder the preservation
    handler adds is due from the moment of the scan: scheduled at [now], unsent
    and prepared, it is in the result of the dispatch query at every time from
    [now] on. *)
Theorem preservation_reminders_are_due_at_once :
  forall (env : Env) (w : World),
    let w' := exec (streak_preservation_reminder env) w in
    exists added,
      reminders (db w') = reminders (db w) ++ added /\
      Forall (due_from (wall w)) added /\
      (forall r t, In r added -> wall w <= t ->
                   In (join_reminder (db w') r) (q_scheduledReminder_findMany_due (db w') t)).
Proof.
  intros env w w'.
  assert (S : stable (at_time (wall w) (adding (due_from (wall w))))
                     (streak_preservation_reminder env)).
  { apply (stable_cron_job _ (at_time_trans _ _ (adding_trans _))).
    - intros w0 l. apply at_time_record, adding_refl.
    - apply preservation_body_adds_due. }
  destruct (S w eq_refl) as (_ & added & E & F). fold w' in E.
  exists added. split; [exact E|split; [exact F|]].
  intros r t Hin Ht. unfold q_scheduledReminder_findMany_due.
  apply in_map, filter_In. split; [rewrite E; apply in_or_app; right; exact Hin|].
  rewrite Forall_forall in F. rewrite (F r Hin). apply Z.leb_le. exact Ht.
Qed.

Lemma warning_body_adds env now :
  stable (at_time now
            (adding (fun r => now < ScheduledReminder.scheduled_time r /\
                              due_from (setHours_20 (tz_offset env) now) r)))
         (streak_warning_check_body env).
Proof.
  unfold_jobs; unfold_calls.
  timed_conserve now
    (adding (fun r => now < ScheduledReminder.scheduled_time r /\
                      due_from (setHours_20 (tz_offset env) now) r))
    (adding_refl (fun r => now < ScheduledReminder.scheduled_time r /\
                           due_from (setHours_20 (tz_offset env) now) r))
    (adding_trans (fun r => now < ScheduledReminder.scheduled_time r /\
                            due_from (setHours_20 (tz_offset env) now) r))
    ltac:(first [ apply adding_refl
                | apply adding_insert_notification
                | apply adding_insert_reminder; intros ?; split;
                  [ cbn; apply Z.ltb_lt; assumption
                  | intros ?; unfold is_due; cbn; rewrite !andb_true_r; reflexivity ] ]).
Qed.

(** X10.  Whatever is rejected along the way, every reminder the warning handler
    adds is scheduled after the scan, at 20:00 of its day: the dispatch query
    does not select it at the time of the scan, and selects it at every time
    from 20:00 on. *)
Theorem warning_reminders_are_due_at_8pm :
  forall (env : Env) (w : World),
    let w' := exec (streak_warning_check env) w in
    exists added,
      reminders (db w') = reminders (db w) ++ added /\
      Forall (fun r => is_due (wall w) r = false /\
                       due_from (setHours_20 (tz_offset env) (wall w)) r) added.
Proof.
  intros env w w'.
  assert (S : stable (at_time (wall w)
                        (adding (fun r => wall w < ScheduledReminder.scheduled_time r /\
                                          due_from (setHours_20 (tz_offset env) (wall w)) r)))
                     (streak_warning_check env)).
  { apply (stable_cron_job _ (at_time_trans _ _ (adding_trans _))).
    - intros w0 l. apply at_time_record, adding_refl.
    - apply warning_body_adds. }
  destruct (S w eq_refl) as (_ & added & E & F). fold w' in E.
  exists added. split; [exact E|].
  eapply Forall_impl; [|exact F]. cbn. intros r [Hlt Hd]. split; [|exact Hd].
  unfold is_due. destruct (Z.leb_spec (ScheduledReminder.scheduled_time r) (wall w));
    [lia|reflexivity].
Qed.

(** ** After a dispatch run *)

Lemma Forall2_In_l {A B} (P : A -> B -> Prop) l1 l2 a :
  Forall2 P l1 l2 -> In a l1 -> exists b, In b l2 /\ P a b.
Proof.
  induction 1 as [|x y l1 l2 Hxy _ IH]; intros Hin; [destruct Hin|].
  destruct Hin as [<-|Hin].
  - exists y. split; [left; reflexivity|exact Hxy].
  - destruct (IH Hin) as (b & Hb & Pb). exists b. split; [right; exact Hb|exact Pb].
Qed.

Lemma Forall2_In_r {A B} (P : A -> B -> Prop) l1 l2 b :
  Forall2 P l1 l2 -> In b l2 -> exists a, In a l1 /\ P a b.
Proof.
  induction 1 as [|x y l1 l2 Hxy _ IH]; intros Hin; [destruct Hin|].
  destruct Hin as [<-|Hin].
  - exists x. split; [left; reflexivity|exact Hxy].
  - destruct (IH Hin) as (a & Ha & Pa). exists a. split; [right; exact Ha|exact Pa].
Qed.

Lemma status_after_verdict now v r :
  terminal_status (ScheduledReminder.send_status (apply_update (verdict_update now v) r)) = true /\
  is_failed (apply_update (verdict_update now v) r) = is_failed_verdict v.
Proof. destruct v; split; reflexivity. Qed.

(** X11.  When the due query returns and the update that records FAILED is never
    rejected, a dispatch run leaves every reminder that was due with a
    terminal status, and the dispatch query of any later time selects it again
    exactly when that status is FAILED: a reminder marked SENT or SKIPPED is
    never dispatched again, a reminder marked FAILED is. *)
Theorem dispatched_reminder_is_due_again_iff_failed :
  forall (env : Env) (w : World),
    rejects env (List.length (trace w)) (scheduledReminder_findMany_due (wall w)) = None ->
    failed_update_never_rejected env ->
    NoDup (map ScheduledReminder.scheduled_reminder_id (reminders (db w))) ->
    let w' := exec (dispatch env) w in
    Forall (fun r =>
              exists r',
                find (has_id (ScheduledReminder.scheduled_reminder_id r)) (reminders (db w'))
                = Some r' /\
                terminal_status (ScheduledReminder.send_status r') = true /\
                forall later, wall w <= later -> is_due later r' = is_failed r')
           (filter (is_due (wall w)) (reminders (db w))).
Proof.
  intros env w Hq Hf Hnd w'.
  destruct (dispatch_exact env w Hq Hf Hnd) as (_ & A & _). fold w' in A.
  apply Forall_forall. intros r Hr.
  destruct (Forall2_In_l _ _ _ _ A Hr) as (v & _ & (Hfind & _)).
  apply filter_In in Hr. destruct Hr as [_ Hdue].
  exists (settle (wall w) v r). rewrite <- settle_update.
  destruct (status_after_verdict (wall w) v r) as [Ht Hfl].
  split; [rewrite settle_update; exact Hfind|split; [exact Ht|]].
  intros later Hl. rewrite Hfl. apply due_after_verdict; assumption.
Qed.

Lemma dispatch_restamps env : stable (on_db restamped) (dispatch env).
Proof.
  unfold_jobs; unfold_calls.
  conserve restamped restamped_refl restamped_trans restamped_leaf.
Qed.

Lemma Forall2_same_reminder_ids rs rs' :
  Forall2 same_reminder rs rs' ->
  map ScheduledReminder.scheduled_reminder_id rs' =
  map ScheduledReminder.scheduled_reminder_id rs.
Proof.
  induction 1 as [|r r' rs rs' H _ IH]; [reflexivity|].
  cbn. rewrite IH. destruct H as [-> _]. reflexivity.
Qed.

(** X12.  After a dispatch run in which nothing is rejected, with every reminder's
    owner in the User table, the reminders due at any later time are rows the
    run did not touch because they were not due yet; and a second run at the
    same time finds nothing to process. *)
Theorem clean_dispatch_leaves_nothing_due :
  forall (env : Env) (w : World),
    never_rejects env ->
    NoDup (map ScheduledReminder.scheduled_reminder_id (reminders (db w))) ->
    reminder_owners_present (db w) ->
    let w' := exec (dispatch env) w in
    (forall later r',
        wall w <= later -> In r' (reminders (db w')) -> is_due later r' = true ->
        In r' (reminders (db w)) /\ is_due (wall w) r' = false) /\
    outcome (dispatch env) w' = Ok (Results.mk 0 0 0 0).
Proof.
  intros env w Hn Hnd Ho w'.
  assert (Hq : rejects env (List.length (trace w)) (scheduledReminder_findMany_due (wall w))
               = None) by apply Hn.
  assert (Hf : failed_update_never_rejected env) by (intros n id reason; apply Hn).
  destruct (dispatch_exact env w Hq Hf Hnd) as (_ & A & K). fold w' in A, K.
  assert (Clean : Forall (fun v => is_failed_verdict v = false)
                         (verdicts env (db w) (wall w) (S (List.length (trace w)))
                            (filter (is_due (wall w)) (reminders (db w))))).
  { apply verdicts_clean; [exact Hn|]. intros r Hr. apply filter_In in Hr.
    apply (Ho r (proj1 Hr)). }
  destruct (dispatch_restamps env w) as (Hw & _ & _ & F & _). fold w' in Hw, F.
  assert (Hnd' : NoDup (map ScheduledReminder.scheduled_reminder_id (reminders (db w')))).
  { rewrite (Forall2_same_reminder_ids _ _ F). exact Hnd. }
  assert (Later : forall later r',
             wall w <= later -> In r' (reminders (db w')) -> is_due later r' = true ->
             In r' (reminders (db w)) /\ is_due (wall w) r' = false).
  { intros later r' Hl Hin Hdue.
    destruct (Forall2_In_r _ _ _ _ F Hin) as (r & Hr & (Hid & _)).
    pose proof (find_has_id _ _ Hnd' Hin) as Fr'. rewrite Hid in Fr'.
    destruct (is_due (wall w) r) eqn:Hd.
    - assert (Hrd : In r (filter (is_due (wall w)) (reminders (db w))))
        by (apply filter_In; auto).
      destruct (Forall2_In_l _ _ _ _ A Hrd) as (v & Hv & (Hfind & _)).
      rewrite Hfind in Fr'. inversion Fr'; subst r'.
      rewrite <- settle_update, (due_after_verdict _ _ _ v Hd Hl) in Hdue.
      rewrite Forall_forall in Clean. rewrite (Clean v Hv) in Hdue. discriminate.
    - rewrite (K r Hr Hd) in Fr'. inversion Fr'; subst r'. auto. }
  split; [exact Later|].
  assert (Hnone : filter (is_due (wall w')) (reminders (db w')) = []).
  { apply filter_none. intros r' Hin. destruct (is_due (wall w') r') eqn:Hd; [|reflexivity].
    rewrite Hw in Hd. destruct (Later (wall w) r' (Z.le_refl _) Hin Hd) as [_ Hnot].
    congruence. }
  unfold outcome, dispatch, prisma_scheduledReminder_findMany_due.
  unfold bind, Date_now, external. rewrite Hn. cbn [fst snd].
  unfold q_scheduledReminder_findMany_due. rewrite Hnone. reflexivity.
Qed.

(** ** The habits a weekly summary names *)

Lemma topHabitsText_firstn l : topHabitsText (firstn 3 l) = topHabitsText l.
Proof.
  destruct l as [|x l]; [reflexivity|].
  unfold topHabitsText. rewrite firstn_firstn. reflexivity.
Qed.

Lemma sorted_firstn_skipn {A} (R : A -> A -> Prop) n : forall l a b,
  StronglySorted R l -> In a (firstn n l) -> In b (skipn n l) -> R a b.
Proof.
  induction n as [|n IH]; intros l a b Hs Ha Hb; [destruct Ha|].
  destruct l as [|x l]; [destruct Ha|]. cbn in Ha, Hb.
  apply StronglySorted_inv in Hs. destruct Hs as [Hs Hx].
  destruct Ha as [<-|Ha].
  - rewrite Forall_forall in Hx. apply Hx.
    rewrite <- (firstn_skipn n l). apply in_or_app. right. exact Hb.
  - eapply IH; eassumption.
Qed.

(** X13.  Every habit in the top-habits list built for a user is a habit of the
    table, listed under its name with the number of the user's completed logs
    of it in the trailing seven days, which is at least one; the summary
    reads only the first three of the list, and no habit left out has more
    completions than one that is named. *)
Theorem weekly_summary_names_the_most_completed :
  forall (w : World) (u : User.t),
    let top := week_topHabits w u in
    Forall (fun a =>
              exists h,
                In h (habits (db w)) /\
                TopHabit.name a = Habit.name h /\
                TopHabit.count a = logs_of (Habit.habit_id h) (week_logs w u) /\
                1 <= TopHabit.count a)
           top /\
    Forall (fun a => Forall (fun b => TopHabit.count b <= TopHabit.count a) (skipn 3 top))
           (firstn 3 top) /\
    (forall completedCount,
        weekly_summary (User.user_id u) completedCount top =
        weekly_summary (User.user_id u) completedCount (firstn 3 top)).
Proof.
  intros w u top. split; [|split].
  - apply Forall_forall. intros a Ha.
    apply (Permutation_in _ (week_topHabits_entries w u)) in Ha.
    unfold week_entries in Ha. apply in_map_iff in Ha. destruct Ha as (h & <- & Hh).
    apply filter_In in Hh. destruct Hh as [Hin Hpos]. apply Z.ltb_lt in Hpos.
    exists h. cbn [TopHabit.name TopHabit.count].
    split; [exact Hin|split; [reflexivity|split; [reflexivity|lia]]].
  - apply Forall_forall. intros a Ha. apply Forall_forall. intros b Hb.
    apply (sorted_firstn_skipn by_count_desc 3 top a b); [|exact Ha|exact Hb].
    unfold top, week_topHabits, topHabits_of. apply sort_by_count_desc_sorted.
  - intros c. unfold weekly_summary. rewrite topHabitsText_firstn. reflexivity.
Qed.

(** ** The exported test helpers *)


(** X15.  [testHabitReminder] for a habit of the table resolves to
    [{ success: true, message: 'Test reminder sent' }] after one attempt to
    create a REMINDER notification titled 'Reminder: <habit name>', whose
    text is the caller's message, or the default when that is missing or
    empty.  It reports success also when the notification could not be
    created: then no row has been added. *)
Theorem testHabitReminder_reports_success :
  forall (env : Env) (invalid_type : string -> Err) (userId habitId : Z)
         (message : option string) (w : World) (habit : Habit.t),
    find_habit (db w) habitId = Some habit ->
    let run := testHabitReminder env invalid_type None userId habitId message in
    let data := test_reminder_notification userId habitId message habit in
    outcome run w = Ok (TestResult.mk true "Test reminder sent") /\
    notification_attempts (events_since w (exec run w)) = [create_data data] /\
    (forall e,
        rejects env (List.length (trace w)) (notification_create (create_data data)) = Some e ->
        notifications (db (exec run w)) = notifications (db w)).
Proof.
  intros env invalid_type userId habitId message w habit Hf run data.
  destruct (createNotification_notified env data w) as (r & w' & E & _ & _ & _ & (evs & T & N) & _).
  assert (Hrun : run w = (Ok (TestResult.mk true "Test reminder sent"), w')).
  { unfold run, testHabitReminder, prisma_habit_findUnique, bind. rewrite Hf.
    unfold createNotification_of. cbn [TestNotification.type].
    change (NotificationType_of_string "REMINDER") with (Some REMINDER).
    cbn [TestNotification.user_id TestNotification.title TestNotification.content
         TestNotification.related_id TestNotification.action_url].
    fold (test_reminder_message message habit).
    fold (test_reminder_notification userId habitId message habit). fold data.
    rewrite E. reflexivity. }
  unfold outcome, exec. rewrite Hrun. cbn [fst snd].
  rewrite (events_since_app _ _ _ T).
  split; [reflexivity|split; [exact N|]].
  intros e He. rewrite (createNotification_create_rejected _ _ _ _ He) in E.
  inversion E; subst w'. reflexivity.
Qed.

(** X16.  Four of the exported helpers write a [type] that is no value of the
    [NotificationType] enum of the schema ('SOCIAL_INTERACTION',
    'MOTIVATION_QUOTE', 'GOAL_REMINDER', 'PROGRESS_UPDATE'): with the create
    refused for such a type, the error is logged by [createNotification] and
    the helper resolves having created and pushed nothing. *)
Theorem test_helpers_outside_the_enum_create_nothing :
  forall (env : Env) (invalid_type : string -> Err) (w : World)
         (userId id percentage : Z) (name : string) (drawn : nat),
    let refused (run : M unit) type := run w = (Ok tt, record (refused_line invalid_type type) w) in
    refused (testFriendRequestNotification env invalid_type userId name id)
            "SOCIAL_INTERACTION" /\
    refused (testQuoteOfTheDayNotification env invalid_type drawn userId)
            "MOTIVATION_QUOTE" /\
    refused (testGoalReminderNotification env invalid_type userId name id)
            "GOAL_REMINDER" /\
    refused (testProgressUpdateNotification env invalid_type userId name percentage id)
            "PROGRESS_UPDATE".
Proof.
  intros env invalid_type w userId id percentage name drawn refused. unfold refused.
  split; [reflexivity|split; [reflexivity|split; [reflexivity|]]].
  unfold testProgressUpdateNotification.
  destruct (percentage <? 25); [reflexivity|].
  destruct (percentage <? 50); [reflexivity|].
  destruct (percentage <? 75); reflexivity.
Qed.

(** X17.  The other two, [testStreakMilestoneNotification] and
    [testChallengeInviteNotification], write a type of the enum: each
    resolves, whatever is rejected, after exactly one attempt to create its
    notification for the user.  The title of the first prints the milestone,
    here for a milestone that is a safe integer. *)
Theorem test_helpers_of_the_enum_attempt_once :
  forall (env : Env) (invalid_type : string -> Err) (w : World)
         (userId milestone habitId challengerId challengeId : Z) (name : string),
    safe_integer milestone ->
    let attempted run type title related :=
      outcome run w = Ok tt /\
      exists c,
        notification_attempts (events_since w (exec run w)) = [c] /\
        NotificationCreate.user_id c = userId /\
        NotificationCreate.type c = type /\
        NotificationCreate.title c = title /\
        NotificationCreate.related_id c = or_null_Z (Some related) in
    attempted (testStreakMilestoneNotification env invalid_type userId name milestone habitId)
              STREAK_MILESTONE (string_of_Z milestone +++ "-Day Streak! 🔥") habitId /\
    attempted (testChallengeInviteNotification env invalid_type userId name
                 challengerId challengeId)
              CHALLENGE_INVITE "Habit Challenge Invite" challengeId.
Proof.
  intros env invalid_type w userId milestone habitId challengerId challengeId name _ attempted.
  unfold attempted, testStreakMilestoneNotification, testChallengeInviteNotification,
    createNotification_of.
  cbn [TestNotification.type].
  change (NotificationType_of_string "STREAK_MILESTONE") with (Some STREAK_MILESTONE).
  change (NotificationType_of_string "CHALLENGE_INVITE") with (Some CHALLENGE_INVITE).
  split.
  - match goal with
    | |- context [createNotification env ?data] =>
        destruct (createNotification_then_tt env data w) as (O & _ & _ & N)
    end.
    split; [exact O|]. eexists. split; [exact N|]. repeat split.
  - match goal with
    | |- context [createNotification env ?data] =>
        destruct (createNotification_then_tt env data w) as (O & _ & _ & N)
    end.
    split; [exact O|]. eexists. split; [exact N|]. repeat split.
Qed.

(** ** What the counters count *)

Lemma welcome_count env xs : forall acc w,
  exists w',
    for_of xs (welcome_step env) acc w = (Ok (acc + Z.of_nat (List.length xs)), w') /\
    (creates_always_rejected env -> notifications (db w') = notifications (db w)).
Proof.
  induction xs as [|u xs IH]; intros acc w.
  - exists w. cbn. rewrite Z.add_0_r. auto.
  - cbn [for_of]. unfold bind.
    destruct (welcome_step_run env u acc w) as (w1 & E & _).
    rewrite E. destruct (IH (acc + 1) w1) as (w' & E' & Hn).
    exists w'. rewrite E'. split.
    + f_equal. f_equal. cbn [List.length]. lia.
    + intros Hr. rewrite (Hn Hr).
      unfold welcome_step, try_catch, bind in E.
      destruct (rejects env (List.length (trace w))
                  (notification_create (create_data (welcome_notification u)))) as [e|] eqn:Hc;
        [|destruct (Hr _ _ Hc)].
      rewrite (createNotification_create_rejected _ _ _ _ Hc) in E.
      cbn [ret] in E. inversion E. reflexivity.
Qed.

(** X18.  When its query returns, the welcome job reports as
    [welcomeNotificationsSent] the number of users the query selected, whether
    or not their notifications could be created: with every create rejected
    the count is the same and the Notification table is as it was. *)
Theorem welcome_count_counts_attempts :
  forall (env : Env) (w : World),
    let since := wall w - 30 * 60 * 1000 in
    let selected := q_user_findMany_new (db w) since in
    rejects env (List.length (trace w)) (user_findMany_new since) = None ->
    (exists details,
        outcome (new_user_welcome_body env) w = Ok details /\
        In ("welcomeNotificationsSent", JNum (Z.of_nat (List.length selected))) details) /\
    (creates_always_rejected env ->
     notifications (db (exec (new_user_welcome_body env) w)) = notifications (db w)).
Proof.
  intros env w since selected Hq.
  unfold outcome, exec, new_user_welcome_body, duration_since, prisma_user_findMany_new.
  unfold bind, Date_now, external, ret. fold since. rewrite Hq. cbn [fst snd].
  fold selected.
  destruct (welcome_count env selected 0
              (set_db (db w) (record (EvCall (user_findMany_new since) None) w)))
    as (w' & E & Hn).
  cbn [db set_db record] in *. rewrite E. cbn [fst snd]. split.
  - eexists. split; [reflexivity|]. right. left. reflexivity.
  - exact Hn.
Qed.

(** ** The rule of the preservation scan *)

Lemma find_none_existsb {A} (f : A -> bool) l : find f l = None <-> existsb f l = false.
Proof.
  induction l as [|x l IH]; cbn; [tauto|].
  destruct (f x); cbn; [split; discriminate|exact IH].
Qed.

Lemma find_app_none {A} (f : A -> bool) l1 l2 :
  find f l2 = None -> find f (l1 ++ l2) = find f l1.
Proof.
  intros H. induction l1 as [|x l1 IH]; cbn; [exact H|].
  destruct (f x); [reflexivity|exact IH].
Qed.

Lemma not_matching_other_habit hid uid ty since added :
  Forall (fun r => ScheduledReminder.habit_id r <> hid) added ->
  find (matches_since hid uid ty since) added = None.
Proof.
  intros H. apply find_none_existsb. apply not_true_is_false. intros E.
  apply existsb_exists in E. destruct E as (r & Hin & Hm).
  rewrite Forall_forall in H. apply (H r Hin).
  unfold matches_since in Hm. apply andb_prop in Hm. destruct Hm as [Hm _].
  apply andb_prop in Hm. destruct Hm as [Hm _]. apply andb_prop in Hm. destruct Hm as [Hm _].
  apply Z.eqb_eq. exact Hm.
Qed.

Lemma preservation_turn_exact env now old
    (Hq : preservation_queries_return env) row acc w added :
  wall w = now -> row_has_owner row ->
  reminders (db w) = old ++ added ->
  Forall (fun r => ScheduledReminder.habit_id r <> Habit.habit_id (HabitRow.habit row)) added ->
  exists w' evs added',
    preservation_step env now row acc w =
      (Ok (acc + Z.of_nat (List.length (preservation_emit env now old row))), w') /\
    wall w' = now /\
    trace w' = trace w ++ evs /\
    reminder_attempts evs = map fst (preservation_emit env now old row) /\
    notification_attempts evs = map snd (preservation_emit env now old row) /\
    reminders (db w') = old ++ added ++ added' /\
    Forall (fun r => ScheduledReminder.habit_id r = Habit.habit_id (HabitRow.habit row)) added'.
Proof.
  destruct Hq as (Hs & Hc & Hqh & Hff & Hcr).
  intros Hw Hu Hold Hother.
  assert (Stay : exists w' evs added',
             (Ok acc, w) = (Ok (acc + Z.of_nat (@List.length (ReminderCreate.t * NotificationCreate.t) [])), w') /\
             wall w' = now /\ trace w' = trace w ++ evs /\
             reminder_attempts evs = [] /\ notification_attempts evs = [] /\
             reminders (db w') = old ++ added ++ added' /\
             Forall (fun r => ScheduledReminder.habit_id r = Habit.habit_id (HabitRow.habit row))
                    added').
  { exists w, [], []. rewrite !app_nil_r. cbn [List.length Z.of_nat]. rewrite Z.add_0_r.
    split; [reflexivity|]. split; [exact Hw|]. split; [reflexivity|].
    split; [reflexivity|]. split; [reflexivity|]. split; [exact Hold|constructor]. }
  unfold preservation_step, preservation_emit, row_has_owner in *.
  destruct (HabitRow.streak row) as [|s ss]; [exact Stay|].
  destruct (HabitRow.user row) as [u|]; [|congruence].
  destruct (User.onVacation u || negb (User.prefersNotifications u)); cbn [negb andb];
    [exact Stay|].
  clear Stay.
  unfold bind, reminderService_isHabitScheduledForDate, reminderService_isHabitCompletedForDate,
    reminderService_isInQuietHours, prisma_scheduledReminder_findFirst_since,
    prisma_scheduledReminder_create, external, ret.
  rewrite Hs. cbn [fst snd db set_db record trace].
  destruct (svc_isHabitScheduledForDate env (HabitRow.habit row) now); cbn [negb andb].
  2:{ eexists _, [_], []. cbn [List.length Z.of_nat map]. rewrite Z.add_0_r, !app_nil_r.
      split; [reflexivity|]. split; [exact Hw|]. split; [reflexivity|].
      split; [reflexivity|]. split; [reflexivity|]. split; [exact Hold|constructor]. }
  rewrite Hc. cbn [fst snd db set_db record trace].
  rewrite Hqh. cbn [fst snd db set_db record trace].
  destruct (negb (svc_isHabitCompletedForDate env _ _ now) &&
            negb (svc_isInQuietHours env _ now)); cbn [andb].
  2:{ eexists _, [_; _; _], []. cbn [List.length Z.of_nat map]. rewrite Z.add_0_r, !app_nil_r.
      split; [reflexivity|]. split; [exact Hw|]. split.
      - cbn [trace set_db record]. rewrite <- !app_assoc. reflexivity.
      - split; [reflexivity|]. split; [reflexivity|]. split; [exact Hold|constructor]. }
  rewrite Hff. cbn [fst snd db set_db record trace].
  assert (Efind : q_scheduledReminder_findFirst_since (db w)
                    (Habit.habit_id (HabitRow.habit row)) (Habit.user_id (HabitRow.habit row))
                    "STREAK_PRESERVATION" (now - 2 * 60 * 60 * 1000) =
                  find (matches_since (Habit.habit_id (HabitRow.habit row))
                                      (Habit.user_id (HabitRow.habit row))
                                      "STREAK_PRESERVATION" (now - TWO_HOURS)) old).
  { unfold q_scheduledReminder_findFirst_since. rewrite Hold.
    apply find_app_none. apply not_matching_other_habit. exact Hother. }
  rewrite Efind.
  destruct (find _ old) as [r|] eqn:Ef.
  { assert (Ex : existsb (matches_since (Habit.habit_id (HabitRow.habit row))
                            (Habit.user_id (HabitRow.habit row))
                            "STREAK_PRESERVATION" (now - TWO_HOURS)) old = true).
    { destruct (existsb _ old) eqn:Ex; [reflexivity|].
      apply find_none_existsb in Ex. congruence. }
    rewrite Ex. cbn [negb].
    eexists _, [_; _; _; _], []. cbn [List.length Z.of_nat map]. rewrite Z.add_0_r, !app_nil_r.
    split; [reflexivity|]. split; [exact Hw|]. split.
    - cbn [trace set_db record]. rewrite <- !app_assoc. reflexivity.
    - split; [reflexivity|]. split; [reflexivity|]. split; [exact Hold|constructor]. }
  apply find_none_existsb in Ef. rewrite Ef. cbn [negb].
  rewrite Hcr. cbn [fst snd db set_db record trace].
  match goal with
  | |- context [createNotification env ?data ?w1] =>
      destruct (createNotification_notified env data w1)
        as (o & w' & E & (Hw' & _) & Hr & _ & (evs & T & N) & _);
      pose proof (createNotification_no_reminders env data w1 evs) as R
  end.
  unfold exec in R. rewrite E in R. specialize (R T).
  rewrite E. cbn [fst snd].
  cbn [wall db set_db record insert_reminder reminders trace] in Hw', Hr, T.
  eexists w', ([_; _; _; _; _] ++ evs), [_].
  split; [reflexivity|]. split; [congruence|]. split; [|split; [|split; [|split]]].
  - rewrite T. rewrite <- !app_assoc. reflexivity.
  - rewrite reminder_attempts_app, R. reflexivity.
  - rewrite notification_attempts_app, N. reflexivity.
  - rewrite Hr, Hold, <- app_assoc. reflexivity.
  - constructor; [reflexivity|constructor].
Qed.

Lemma preservation_loop_exact env now old (Hq : preservation_queries_return env) rows :
  forall acc w added,
    wall w = now ->
    reminders (db w) = old ++ added ->
    Forall row_has_owner rows ->
    NoDup (map (fun row => Habit.habit_id (HabitRow.habit row)) rows) ->
    Forall (fun r => ~ In (ScheduledReminder.habit_id r)
                         (map (fun row => Habit.habit_id (HabitRow.habit row)) rows)) added ->
    exists w' evs,
      for_of rows (preservation_step env now) acc w =
        (Ok (acc + Z.of_nat (List.length (flat_map (preservation_emit env now old) rows))), w') /\
      trace w' = trace w ++ evs /\
      reminder_attempts evs = map fst (flat_map (preservation_emit env now old) rows) /\
      notification_attempts evs = map snd (flat_map (preservation_emit env now old) rows).
Proof.
  induction rows as [|row rows IH]; intros acc w added Hw Hold Hown Hnd Hadd.
  - exists w, []. cbn. rewrite Z.add_0_r, app_nil_r. auto.
  - pose proof (Forall_inv Hown) as Hrow. pose proof (Forall_inv_tail Hown) as Hrest.
    cbn [map] in Hnd. apply NoDup_cons_iff in Hnd. destruct Hnd as [Hfresh Hnd'].
    destruct (preservation_turn_exact env now old Hq row acc w added Hw Hrow Hold)
      as (w1 & evs1 & added' & E1 & Hw1 & T1 & R1 & N1 & Hold1 & Hsame).
    { eapply Forall_impl; [|exact Hadd]. cbn. intros r Hr Heq. apply Hr. left.
      symmetry. exact Heq. }
    destruct (IH (acc + Z.of_nat (List.length (preservation_emit env now old row))) w1
                 (added ++ added') Hw1 Hold1 Hrest Hnd')
      as (w' & evs & E & T & R & N).
    { apply Forall_app. split.
      - eapply Forall_impl; [|exact Hadd]. cbn. intros r Hr Hin. apply Hr. right. exact Hin.
      - eapply Forall_impl; [|exact Hsame]. cbn. intros r Hr Hin. rewrite Hr in Hin.
        exact (Hfresh Hin). }
    exists w', (evs1 ++ evs). cbn [for_of flat_map]. unfold bind. rewrite E1, E.
    split; [|split; [|split]].
    + rewrite length_app, Nat2Z.inj_add, Z.add_assoc. reflexivity.
    + rewrite T, T1, app_assoc. reflexivity.
    + rewrite reminder_attempts_app, map_app, R1, R. reflexivity.
    + rewrite notification_attempts_app, map_app, N1, N. reflexivity.
Qed.

Lemma preservation_rows env w hs :
  (forall h, In h hs -> find_user (db w) (Habit.user_id h) <> None) ->
  Forall row_has_owner (map (join_habit (db w) (Some 7)) (filter Habit.is_active hs)) /\
  flat_map (preservation_emit env (wall w) (reminders (db w)))
           (map (join_habit (db w) (Some 7)) (filter Habit.is_active hs)) =
  map (fun h => preservation_pair (wall w) h (long_streak w h))
      (filter (preservation_due env w) hs).
Proof.
  induction hs as [|h hs IH]; intros Ho; [split; [constructor|reflexivity]|].
  destruct IH as (IH1 & IH2); [intros; apply Ho; right; assumption|].
  assert (Hh := Ho h (or_introl eq_refl)).
  cbn [filter].
  assert (Hd : preservation_due env w h =
               Habit.is_active h &&
               match streaks_of (db w) (Habit.habit_id h) (Some 7) with
               | [] => false
               | _ :: _ => true
               end &&
               match find_user (db w) (Habit.user_id h) with
               | Some u => negb (User.onVacation u) && User.prefersNotifications u
               | None => false
               end &&
               svc_isHabitScheduledForDate env h (wall w) &&
               negb (svc_isHabitCompletedForDate env (Habit.habit_id h) (Habit.user_id h)
                       (wall w)) &&
               negb (svc_isInQuietHours env (Habit.user_id h) (wall w)) &&
               negb (existsb (matches_since (Habit.habit_id h) (Habit.user_id h)
                                "STREAK_PRESERVATION" (wall w - TWO_HOURS))
                             (reminders (db w)))) by reflexivity.
  rewrite Hd. clear Hd.
  destruct (Habit.is_active h); cbn [andb map flat_map]; [|auto].
  split; [constructor; [exact Hh|exact IH1]|].
  rewrite IH2. unfold preservation_emit, join_habit.
  cbn [HabitRow.streak HabitRow.user HabitRow.habit].
  assert (Hl : long_streak w h =
               match streaks_of (db w) (Habit.habit_id h) (Some 7) with
               | s :: _ => HabitStreak.current_streak s
               | [] => 0
               end) by reflexivity.
  destruct (streaks_of (db w) (Habit.habit_id h) (Some 7)) as [|s ss];
    cbn [andb app]; [reflexivity|].
  destruct (find_user (db w) (Habit.user_id h)) as [u|]; [|congruence].
  destruct (User.onVacation u), (User.prefersNotifications u),
    (svc_isHabitScheduledForDate env h (wall w)),
    (svc_isHabitCompletedForDate env (Habit.habit_id h) (Habit.user_id h) (wall w)),
    (svc_isInQuietHours env (Habit.user_id h) (wall w)),
    (existsb (matches_since (Habit.habit_id h) (Habit.user_id h)
                "STREAK_PRESERVATION" (wall w - TWO_HOURS)) (reminders (db w)));
    cbn [negb andb orb app map]; rewrite ?Hl; reflexivity.
Qed.

Lemma preservation_scan_run :
  forall (env : Env) (w : World),
    rejects env (List.length (trace w)) (habit_findMany_active (Some 7)) = None ->
    owners_present (db w) ->
    preservation_queries_return env ->
    NoDup (map Habit.habit_id (habits (db w))) ->
    let scan := streak_preservation_reminder_body env in
    let due := filter (preservation_due env w) (habits (db w)) in
    let evs := events_since w (exec scan w) in
    (exists details,
        outcome scan w = Ok details /\
        In ("remindersCreated", JNum (Z.of_nat (List.length due))) details) /\
    reminder_attempts evs =
      map (fun h => preservation_reminder (wall w) h (long_streak w h)) due /\
    notification_attempts evs =
      map (fun h => create_data (preservation_notification h (long_streak w h))) due.
Proof.
  intros env w Hq Ho Hr Hnd scan due evs. unfold evs, scan, outcome, exec.
  destruct (preservation_rows env w (habits (db w)) Ho) as (Hg & Hf).
  unfold streak_preservation_reminder_body, preservation_scan, duration_since,
    prisma_habit_findMany_active.
  unfold bind, Date_now, external, ret.
  rewrite Hq. cbn [fst snd wall db set_db record].
  destruct (preservation_loop_exact env (wall w) (reminders (db w)) Hr
              (q_habit_findMany_active (db w) (Some 7)) 0
              (set_db (db w) (record (EvCall (habit_findMany_active (Some 7)) None) w)) []
              eq_refl)
    as (w' & evs' & E & T & R & N).
  { cbn. rewrite app_nil_r. reflexivity. }
  { exact Hg. }
  { unfold q_habit_findMany_active. rewrite map_map. cbn [join_habit HabitRow.habit].
    apply NoDup_map_filter. exact Hnd. }
  { constructor. }
  rewrite E. cbn [fst snd].
  unfold q_habit_findMany_active in *. rewrite Hf in *. fold due in R, N |- *.
  assert (Hev : events_since w w' = EvCall (habit_findMany_active (Some 7)) None :: evs').
  { apply events_since_app. rewrite T. cbn [trace set_db record].
    rewrite <- app_assoc. reflexivity. }
  rewrite Hev. split; [|split].
  - eexists. split; [reflexivity|]. right. right. left. cbn [snd].
    rewrite length_map. reflexivity.
  - change (reminder_attempts evs' =
            map (fun h => preservation_reminder (wall w) h (long_streak w h)) due).
    rewrite R, map_map. reflexivity.
  - change (notification_attempts evs' =
            map (fun h => create_data (preservation_notification h (long_streak w h))) due).
    rewrite N, map_map. reflexivity.
Qed.

Lemma urgent_reminder_built now h n :
  preservation_reminder now h n = urgent_reminder now h n.
Proof. reflexivity. Qed.

(** The rule the query's rows are read by is the rule on the tables. *)
Lemma preservation_rule env w h :
  preservation_due env w h = in_need env w h /\ long_streak w h = need_streak w h.
Proof.
  unfold preservation_due, in_need, long_streak, need_streak.
  pose proof (first_streak_above (db w) (Habit.habit_id h) 7) as H.
  destruct (streaks_of (db w) (Habit.habit_id h) (Some 7)) as [|s ss];
    cbn [hd_error] in H; rewrite <- H; split; reflexivity.
Qed.

(** X19.  When its calls other than [createNotification]'s return, every habit has
    its owner and habit ids are unique, the preservation scan completes and
    creates a STREAK_PRESERVATION reminder of the habit and its owner,
    scheduled at [now], each with an 'Urgent Habit Reminder' notification of
    type REMINDER for the owner, exactly for the active habits that have a
    streak row with a current streak above 7, whose owner is not on vacation
    and has notifications on, that are scheduled today, not completed today,
    whose owner is not in quiet hours, and that have no STREAK_PRESERVATION
    reminder scheduled in the last two hours. *)
Theorem preservation_scan_exact :
  forall (env : Env) (w : World),
    rejects env (List.length (trace w)) (habit_findMany_active (Some 7)) = None ->
    owners_present (db w) ->
    preservation_queries_return env ->
    NoDup (map Habit.habit_id (habits (db w))) ->
    let scan := streak_preservation_reminder_body env in
    let due := filter (in_need env w) (habits (db w)) in
    let evs := events_since w (exec scan w) in
    (exists details,
        outcome scan w = Ok details /\
        In ("remindersCreated", JNum (Z.of_nat (List.length due))) details) /\
    reminder_attempts evs = map (fun h => urgent_reminder (wall w) h (need_streak w h)) due /\
    notification_attempts evs = map (fun h => urgent_notice h (need_streak w h)) due.
Proof.
  intros env w Hq Ho Hr Hnd scan due evs.
  destruct (preservation_scan_run env w Hq Ho Hr Hnd) as (H1 & H2 & H3).
  assert (Hdue : filter (preservation_due env w) (habits (db w)) = due).
  { apply filter_ext. intros h. apply preservation_rule. }
  rewrite Hdue in H1, H2, H3.
  split; [exact H1|split].
  - fold scan in H2. fold evs in H2. rewrite H2. apply map_ext. intros h.
    rewrite (proj2 (preservation_rule env w h)). apply urgent_reminder_built.
  - fold scan in H3. fold evs in H3. rewrite H3. apply map_ext. intros h.
    rewrite (proj2 (preservation_rule env w h)). apply urgent_notice_built.
Qed.

(** ** The notifications of a dispatch run *)

Lemma no_attempts {A} (m : M A) :
  stable (attempts_in (fun _ => False)) m ->
  forall w, exists evs, trace (exec m w) = trace w ++ evs /\ notification_attempts evs = [].
Proof.
  intros H w. destruct (H w) as (evs & T & F). exists evs. split; [exact T|].
  destruct (notification_attempts evs) as [|c l]; [reflexivity|].
  inversion F; contradiction.
Qed.

Lemma update_no_attempts env id u (acc : Results.t) :
  stable (attempts_in (fun _ => False)) (prisma_scheduledReminder_update env id u ;; ret acc).
Proof.
  unfold_calls. attempts_walk (fun _ : NotificationCreate.t => False) ltac:(exact I).
Qed.

Lemma fail_no_attempts env row acc e :
  stable (attempts_in (fun _ => False)) (fail_reminder env row acc e).
Proof.
  unfold fail_reminder. unfold_calls.
  attempts_walk (fun _ : NotificationCreate.t => False) ltac:(exact I).
Qed.

Lemma deliver_attempts env now (Hc : completed_never_rejected env) row acc w :
  exists evs,
    trace (exec (deliver_reminder env now row acc) w) = trace w ++ evs /\
    notification_attempts evs = dispatch_emit env now row.
Proof.
  unfold deliver_reminder, dispatch_emit, sendable, blocked, completed_now.
  destruct (ReminderRow.user row) as [u|].
  2:{ exists []. cbn. rewrite app_nil_r. auto. }
  destruct (negb (User.prefersNotifications u) || User.onVacation u); cbn [negb andb].
  { apply no_attempts. apply update_no_attempts. }
  unfold exec, bind at 1, reminderService_isHabitCompletedForDate, external.
  rewrite Hc. cbn [fst snd].
  destruct (svc_isHabitCompletedForDate env _ _ now); cbn [negb].
  { match goal with
    | |- context [bind (prisma_scheduledReminder_update env ?id ?u) (fun _ => ret ?a) ?w1] =>
        destruct (no_attempts _ (update_no_attempts env id u a) w1) as (evs & T & N)
    end.
    unfold exec in T. eexists (_ :: evs).
    split; [rewrite T; cbn [trace set_db record]; rewrite <- app_assoc; reflexivity|exact N]. }
  unfold bind at 1.
  match goal with
  | |- context [createNotification env ?data ?w1] =>
      destruct (createNotification_notified env data w1)
        as (r & w2 & E & _ & _ & _ & (evs1 & T1 & N1) & _)
  end.
  rewrite E. cbn [trace set_db record] in T1.
  destruct r as [n|].
  - destruct (no_attempts _ (update_no_attempts env
                               (ScheduledReminder.scheduled_reminder_id (ReminderRow.reminder row))
                               (mark_sent now (Notification.id n)) (incr_sent acc)) w2)
      as (evs & T & N).
    unfold exec in T. eexists ([_] ++ evs1 ++ evs). split.
    + rewrite T, T1, <- !app_assoc. reflexivity.
    + rewrite !notification_attempts_app, N1, N. reflexivity.
  - eexists ([_] ++ evs1). split.
    + cbn [snd throw]. rewrite T1, <- !app_assoc. reflexivity.
    + rewrite notification_attempts_app, N1. reflexivity.
Qed.

Lemma process_reminder_attempts env d now w0
    (Hf : failed_update_never_rejected env) (Hc : completed_never_rejected env) row acc w :
  (forall j, existsb (has_id j) (reminders (db w)) = existsb (has_id j) (reminders (db w0))) ->
  (exists r, row = join_reminder d r /\
             existsb (has_id (ScheduledReminder.scheduled_reminder_id r)) (reminders (db w0))
             = true) ->
  exists acc' w' evs,
    process_reminder env now row acc w = (Ok acc', w') /\
    (forall j, existsb (has_id j) (reminders (db w')) = existsb (has_id j) (reminders (db w0))) /\
    trace w' = trace w ++ evs /\
    notification_attempts evs = dispatch_emit env now row.
Proof.
  intros Hk (r & -> & Hrow).
  assert (Hex : existsb (has_id (ScheduledReminder.scheduled_reminder_id r))
                        (reminders (db w)) = true)
    by (rewrite Hk; exact Hrow).
  destruct (process_reminder_exact env d now r acc w Hf Hex) as (w' & evs0 & E & _ & _ & Hr & _).
  destruct (deliver_attempts env now Hc (join_reminder d r) acc w) as (evs1 & T1 & N1).
  eexists _, w'.
  assert (T : exists evs, trace w' = trace w ++ evs /\
                          notification_attempts evs =
                          dispatch_emit env now (join_reminder d r)).
  { unfold process_reminder, try_catch in E. unfold exec in T1.
    destruct (deliver_reminder env now (join_reminder d r) acc w) as [[a|e] w1];
      cbn [snd] in T1.
    - inversion E; subst. exists evs1. auto.
    - destruct (no_attempts _ (fail_no_attempts env (join_reminder d r) acc e) w1)
        as (evs2 & T2 & N2).
      unfold exec in T2. rewrite E in T2. cbn [snd] in T2.
      exists (evs1 ++ evs2). split.
      + rewrite T2, T1, app_assoc. reflexivity.
      + rewrite notification_attempts_app, N1, N2, app_nil_r. reflexivity. }
  destruct T as (evs & T & N). exists evs.
  split; [exact E|split; [|split; [exact T|exact N]]].
  intros j. rewrite Hr, existsb_update_rows. apply Hk.
Qed.

Lemma filter_map {A B} (p : B -> bool) (f : A -> B) (l : list A) :
  filter p (map f l) = map f (filter (fun a => p (f a)) l).
Proof.
  induction l as [|a l IH]; [reflexivity|].
  cbn. destruct (p (f a)); cbn; rewrite IH; reflexivity.
Qed.

Lemma sendable_to_notify env d now r :
  sendable env now (join_reminder d r) = to_notify env d now r.
Proof.
  unfold sendable, to_notify, blocked, completed_now.
  cbn [join_reminder ReminderRow.user ReminderRow.reminder].
  change (find_user d (ScheduledReminder.user_id r))
    with (owner_of d (ScheduledReminder.user_id r)).
  destruct (owner_of d (ScheduledReminder.user_id r)) as [u|]; [|reflexivity].
  destruct (User.prefersNotifications u), (User.onVacation u); reflexivity.
Qed.

(** X20.  When the due query returns and neither the completion check nor the
    update that records FAILED is ever rejected, a dispatch run tries to create
    exactly one notification for each reminder of the due set whose owner has
    notifications on and is not on vacation and whose habit is not completed
    today, in the order of the query, and none for any other reminder.  The
    notification is for the owner of the reminder, of type REMINDER, titled
    'Reminder: ' and the name of the habit, with the message of the reminder as
    its text, and it links to the habit. *)
Theorem dispatch_notifies_exactly_the_sendable :
  forall (env : Env) (w : World),
    rejects env (List.length (trace w)) (scheduledReminder_findMany_due (wall w)) = None ->
    failed_update_never_rejected env ->
    completed_never_rejected env ->
    notification_attempts (events_since w (exec (dispatch env) w)) =
    map (reminder_notice (db w))
        (filter (to_notify env (db w) (wall w))
                (filter (in_due_set (wall w)) (reminders (db w)))).
Proof.
  intros env w Hq Hf Hc. unfold exec, dispatch, prisma_scheduledReminder_findMany_due.
  unfold bind, Date_now, external. rewrite Hq. cbn [fst snd].
  set (w1 := set_db (db w) (record (EvCall (scheduledReminder_findMany_due (wall w)) None) w)).
  destruct (for_of_reads (process_reminder env (wall w))
              (fun w' => forall j, existsb (has_id j) (reminders (db w')) =
                                   existsb (has_id j) (reminders (db w1)))
              (fun row => exists r,
                   row = join_reminder (db w) r /\
                   existsb (has_id (ScheduledReminder.scheduled_reminder_id r))
                           (reminders (db w1)) = true)
              notification_attempts (dispatch_emit env (wall w)) notification_attempts_app
              (process_reminder_attempts env (db w) (wall w) w1 Hf Hc)
              (q_scheduledReminder_findMany_due (db w) (wall w))
              (Results.mk (Z.of_nat (List.length (q_scheduledReminder_findMany_due (db w) (wall w))))
                          0 0 0)
              w1 (fun j => eq_refl))
    as (acc' & w' & evs & E & _ & T & N).
  { apply Forall_forall. intros row Hin. subst w1. cbn [db set_db record].
    unfold q_scheduledReminder_findMany_due in Hin. apply in_map_iff in Hin.
    destruct Hin as (r & <- & Hr). apply filter_In in Hr.
    exists r. split; [reflexivity|apply (existsb_has_id _ _ (proj1 Hr))]. }
  rewrite E. cbn [snd].
  erewrite events_since_app
    by (rewrite T; subst w1; cbn [trace set_db record]; rewrite <- app_assoc; reflexivity).
  rewrite notification_attempts_app, N. cbn [notification_attempts flat_map app].
  unfold dispatch_emit. rewrite flat_map_if_filter.
  unfold q_scheduledReminder_findMany_due. rewrite filter_map, map_map.
  change (is_due (wall w)) with (in_due_set (wall w)).
  rewrite (filter_ext _ _ (sendable_to_notify env (db w) (wall w))).
  apply map_ext. intros r. apply reminder_notice_built.
Qed.

(** ** The rejections that end a run *)

Section EventsIn.

Variable P : Event -> Prop.

Lemma events_in_refl w : events_in P w w.
Proof. exists []. rewrite app_nil_r. split; [reflexivity|constructor]. Qed.

Lemma events_in_trans w1 w2 w3 : events_in P w1 w2 -> events_in P w2 w3 -> events_in P w1 w3.
Proof.
  intros (e1 & T1 & F1) (e2 & T2 & F2). exists (e1 ++ e2).
  rewrite T2, T1, app_assoc. split; [reflexivity|]. apply Forall_app. split; assumption.
Qed.

Lemma events_in_set_db w d : events_in P w (set_db d w).
Proof. exists []. cbn. rewrite app_nil_r. split; [reflexivity|constructor]. Qed.

Lemma events_in_record w e : P e -> events_in P w (record e w).
Proof. intros H. exists [e]. split; [reflexivity|]. constructor; [exact H|constructor]. Qed.

Lemma events_in_external env {A} c (run : DB -> Outcome A * DB) :
  (forall r, P (EvCall c r)) -> stable (events_in P) (external env c run).
Proof.
  intros H. apply stable_external.
  - exact events_in_trans.
  - intros w r. apply events_in_record. apply H.
  - intros w. apply events_in_set_db.
Qed.

End EventsIn.

Ltac events_walk P leaf :=
  repeat match goal with
  | |- stable _ (bind _ _) => apply (stable_bind _ (events_in_trans P)); [|intros]
  | |- stable _ (try_catch _ _) => apply (stable_try_catch _ (events_in_trans P)); [|intros]
  | |- stable _ (for_of _ _ _) =>
      apply (stable_for_of _ (events_in_refl P) (events_in_trans P)); intros
  | |- stable _ (ret _) => apply (stable_ret _ (events_in_refl P))
  | |- stable _ (throw _) => apply (stable_throw _ (events_in_refl P))
  | |- stable _ Date_now => apply (stable_Date_now _ (events_in_refl P))
  | |- stable _ (console_error _) =>
      apply stable_console_error; intros; apply events_in_record; exact I
  | |- stable _ (external _ _ _) => apply events_in_external; intros r; leaf r
  | |- stable _ (match ?x with _ => _ end) => destruct x
  end.

Section FailsOn.

Variable F : Call -> bool.

Lemma fails_on_spared {A} (m : M A) : stable (events_in (spares F)) m -> fails_on F m.
Proof.
  intros H w. destruct (H w) as (evs & T & Hs). exists evs. split; [exact T|].
  intros c e Hc Hin. rewrite Forall_forall in Hs. specialize (Hs _ Hin). cbn in Hs. congruence.
Qed.

Lemma fails_on_ret {A} (a : A) : fails_on F (ret a).
Proof. intros w. exists []. cbn. rewrite app_nil_r. split; [reflexivity|intros c e _ []]. Qed.

Lemma fails_on_Date_now : fails_on F Date_now.
Proof. intros w. exists []. cbn. rewrite app_nil_r. split; [reflexivity|intros c e _ []]. Qed.

Lemma fails_on_external env {A} c (run : DB -> Outcome A * DB) :
  fails_on F (external env c run).
Proof.
  intros w. unfold exec, outcome, external.
  destruct (rejects env (List.length (trace w)) c) as [e0|].
  - exists [EvCall c (Some e0)]. split; [reflexivity|].
    intros c' e _ [Hin|[]]. inversion Hin. reflexivity.
  - exists [EvCall c None]. destruct (run (db w)) as [o d]. split; [reflexivity|].
    intros c' e _ [Hin|[]]. discriminate.
Qed.

Lemma fails_on_bind {A B} (m : M A) (k : A -> M B) :
  fails_on F m -> (forall a, fails_on F (k a)) -> fails_on F (bind m k).
Proof.
  intros Hm Hk w. destruct (Hm w) as (e1 & T1 & F1).
  unfold exec, outcome, bind in *. destruct (m w) as [[a|e0] w1]; cbn [fst snd] in *.
  - destruct (Hk a w1) as (e2 & T2 & F2). unfold exec, outcome in T2, F2. exists (e1 ++ e2).
    split; [rewrite T2, T1, app_assoc; reflexivity|].
    intros c e Hc Hin. apply in_app_or in Hin. destruct Hin as [Hin|Hin].
    + specialize (F1 c e Hc Hin). discriminate.
    + exact (F2 c e Hc Hin).
  - exists e1. split; [exact T1|].
    intros c e Hc Hin. specialize (F1 c e Hc Hin). inversion F1. reflexivity.
Qed.

Lemma fails_on_for_of {A S} (xs : list A) (body : A -> S -> M S) (acc : S) :
  (forall x s, fails_on F (body x s)) -> fails_on F (for_of xs body acc).
Proof.
  intros Hb. revert acc. induction xs as [|x xs IH]; intros acc; cbn [for_of].
  - apply fails_on_ret.
  - apply fails_on_bind; [apply Hb|]. intros a. apply IH.
Qed.

(** A [try] whose block spares [F]: only its [catch] can fail on [F]. *)
Lemma fails_on_try_catch {A} (m : M A) (h : Err -> M A) :
  stable (events_in (spares F)) m -> (forall e, fails_on F (h e)) ->
  fails_on F (try_catch m h).
Proof.
  intros Hm Hh w. destruct (Hm w) as (e1 & T1 & S1).
  unfold exec, outcome, try_catch in *. destruct (m w) as [[a|e0] w1]; cbn [fst snd] in *.
  - exists e1. split; [exact T1|].
    intros c e Hc Hin. rewrite Forall_forall in S1. specialize (S1 _ Hin). cbn in S1.
    congruence.
  - destruct (Hh e0 w1) as (e2 & T2 & F2). unfold exec, outcome in T2, F2. exists (e1 ++ e2).
    split; [rewrite T2, T1, app_assoc; reflexivity|].
    intros c e Hc Hin. apply in_app_or in Hin. destruct Hin as [Hin|Hin].
    + rewrite Forall_forall in S1. specialize (S1 _ Hin). cbn in S1. congruence.
    + exact (F2 c e Hc Hin).
Qed.

End FailsOn.

Lemma fails_on_throw F {A} (e : Err) : fails_on F (@throw A e).
Proof. intros w. exists []. cbn. rewrite app_nil_r. split; [reflexivity|intros c e' _ []]. Qed.

Lemma fails_on_console_error F line : fails_on F (console_error line).
Proof.
  intros w. exists [EvConsoleError line]. split; [reflexivity|].
  intros c e _ [Hin|[]]. discriminate.
Qed.

Lemma fails_on_prepareRemindersForNextDay F env :
  fails_on F (reminderService_prepareRemindersForNextDay env).
Proof.
  intros w. unfold reminderService_prepareRemindersForNextDay.
  apply (fails_on_external F env prepareRemindersForNextDay).
Qed.

Ltac spared_walk F :=
  events_walk (spares F) ltac:(fun r => destruct r; [reflexivity|exact I]).

Ltac fails_walk F :=
  repeat match goal with
  | |- fails_on _ (bind _ _) => apply fails_on_bind; [|intros]
  | |- fails_on _ (for_of _ _ _) => apply fails_on_for_of; intros
  | |- fails_on _ (ret _) => apply fails_on_ret
  | |- fails_on _ (throw _) => apply fails_on_throw
  | |- fails_on _ Date_now => apply fails_on_Date_now
  | |- fails_on _ (console_error _) => apply fails_on_console_error
  | |- fails_on _ (external _ _ _) => apply fails_on_external
  | |- fails_on _ (reminderService_prepareRemindersForNextDay _) =>
      apply fails_on_prepareRemindersForNextDay
  | |- fails_on _ (try_catch _ _) => apply fails_on_try_catch; [spared_walk F|intros]
  | |- fails_on _ (match ?x with _ => _ end) => destruct x
  end.

Lemma jobs_fail_on_fatal env :
  Forall (fun j => fails_on (fatal (snd (fst j))) (snd j)) (jobs env).
Proof.
  unfold jobs.
  repeat (apply Forall_cons; [cbn [fst snd]|]); try apply Forall_nil.
  all: unfold daily_streak_update_body, prepare_next_day_reminders_body,
         streakController_processDailyStreakUpdates; unfold_jobs; unfold_calls.
  - fails_walk (fatal "daily-streak-update").
  - fails_walk (fatal "streak-milestone-check").
  - fails_walk (fatal "streak-warning-check").
  - fails_walk (fatal "process-reminders").
  - fails_walk (fatal "streak-preservation-reminder").
  - fails_walk (fatal "prepare-next-day-reminders").
  - fails_walk (fatal "weekly-habit-review").
  - fails_walk (fatal "daily-goal-check").
  - fails_walk (fatal "new-user-welcome").
Qed.

(** X21.  Around the calls of [fatal] cron.js has no [try] but the handler's own:
    when one of them is rejected in a run of a job, the handler logs 'failed'
    with the message and stack of that rejection.  They are, for every job,
    its first query or its one call to a collaborator; the service calls and
    queries inside the loops of the warning, preservation and daily-goal
    scans; the reminder the preservation scan creates; and the update by which
    the dispatch records FAILED. *)
Theorem rejections_that_end_a_run :
  forall (env : Env) (w : World),
    Forall (fun j =>
              let jobName := snd (fst j) in
              let evs := events_since w (exec (handler j) w) in
              forall c e,
                fatal jobName c = true ->
                In (EvCall c (Some e)) evs ->
                In (failed_line jobName (wall w) e) evs)
           (jobs env).
Proof.
  intros env w.
  pose proof (jobs_fail_on_fatal env) as Hf. pose proof (silent_jobs env) as Hs.
  rewrite Forall_forall in *. intros j Hj. specialize (Hf j Hj).
  destruct (Hs j Hj) as [Hq _]. clear Hs.
  intros jobName evs c e Hc Hin. unfold evs in *. clear evs.
  set (w1 := record (EvJobStatus (started_line jobName (wall w))) w).
  assert (Hrun : exec (handler j) w =
                 record (EvJobStatus (terminal_line jobName (wall (exec (snd j) w1))
                                                    (outcome (snd j) w1)))
                        (exec (snd j) w1)).
  { unfold handler, exec at 1. rewrite cron_job_run. reflexivity. }
  rewrite Hrun in *. clear Hrun.
  destruct (Hf w1) as (evs_b & T & Fb). destruct (Hq w1) as [Hw _].
  assert (Hev : forall l,
             events_since w (record l (exec (snd j) w1)) =
             [EvJobStatus (started_line jobName (wall w))] ++ evs_b ++ [l]).
  { intros l. apply events_since_app. cbn [trace record]. rewrite T. subst w1.
    cbn [trace record]. rewrite <- !app_assoc. reflexivity. }
  rewrite Hev in *. rewrite Hw. subst w1. cbn [wall record].
  apply in_app_or in Hin. destruct Hin as [[Hin|[]]|Hin]; [discriminate|].
  apply in_app_or in Hin. destruct Hin as [Hin|[Hin|[]]]; [|discriminate].
  rewrite (Fb c e Hc Hin).
  apply in_or_app. right. apply in_or_app. right. left. reflexivity.
Qed.

Section ThrowsOnly.

Variable F : Call -> bool.
Variable E : Err -> Prop.

Lemma throws_only_ret {A} (a : A) : throws_only F E (ret a).
Proof. intros w. exists []. cbn. rewrite app_nil_r. split; [reflexivity|discriminate]. Qed.

Lemma throws_only_Date_now : throws_only F E Date_now.
Proof. intros w. exists []. cbn. rewrite app_nil_r. split; [reflexivity|discriminate]. Qed.

Lemma throws_only_console_error line : throws_only F E (console_error line).
Proof. intros w. exists [EvConsoleError line]. split; [reflexivity|discriminate]. Qed.

Lemma throws_only_throw {A} (e : Err) : E e -> throws_only F E (@throw A e).
Proof.
  intros He w. exists []. cbn. rewrite app_nil_r. split; [reflexivity|].
  intros e' H. inversion H; subst. left. exact He.
Qed.

Lemma throws_only_external env {A} c (run : DB -> Outcome A * DB) :
  F c = true ->
  (forall d e, fst (run d) = Throw e -> E e) ->
  throws_only F E (external env c run).
Proof.
  intros Hc Hrun w. unfold exec, outcome, external.
  destruct (rejects env (List.length (trace w)) c) as [e0|].
  - exists [EvCall c (Some e0)]. split; [reflexivity|].
    intros e H. inversion H; subst. right. exists c. split; [exact Hc|left; reflexivity].
  - exists [EvCall c None]. specialize (Hrun (db w)).
    destruct (run (db w)) as [o d]. split; [reflexivity|].
    intros e H. left. apply Hrun. exact H.
Qed.

Lemma throws_only_bind {A B} (m : M A) (k : A -> M B) :
  throws_only F E m -> (forall a, throws_only F E (k a)) -> throws_only F E (bind m k).
Proof.
  intros Hm Hk w. destruct (Hm w) as (e1 & T1 & F1).
  unfold exec, outcome, bind in *. destruct (m w) as [[a|e0] w1]; cbn [fst snd] in *.
  - destruct (Hk a w1) as (e2 & T2 & F2). unfold exec, outcome in T2, F2. exists (e1 ++ e2).
    split; [rewrite T2, T1, app_assoc; reflexivity|].
    intros e H. destruct (F2 e H) as [He|(c & Hc & Hin)]; [left; exact He|].
    right. exists c. split; [exact Hc|apply in_or_app; right; exact Hin].
  - exists e1. split; [exact T1|].
    intros e H. inversion H; subst. destruct (F1 e eq_refl) as [He|(c & Hc & Hin)];
      [left; exact He|right; exists c; auto].
Qed.

Lemma throws_only_for_of {A S} (xs : list A) (body : A -> S -> M S) (acc : S) :
  (forall x s, throws_only F E (body x s)) -> throws_only F E (for_of xs body acc).
Proof.
  intros Hb. revert acc. induction xs as [|x xs IH]; intros acc; cbn [for_of].
  - apply throws_only_ret.
  - apply throws_only_bind; [apply Hb|]. intros a. apply IH.
Qed.

(** What a [try] block throws is caught: only its [catch] can throw. *)
Lemma throws_only_try_catch {A} (m : M A) (h : Err -> M A) :
  stable (events_in (fun _ => True)) m -> (forall e, throws_only F E (h e)) ->
  throws_only F E (try_catch m h).
Proof.
  intros Hm Hh w. destruct (Hm w) as (e1 & T1 & _).
  unfold exec, outcome, try_catch in *. destruct (m w) as [[a|e0] w1]; cbn [fst snd] in *.
  - exists e1. split; [exact T1|discriminate].
  - destruct (Hh e0 w1) as (e2 & T2 & F2). unfold exec, outcome in T2, F2. exists (e1 ++ e2).
    split; [rewrite T2, T1, app_assoc; reflexivity|].
    intros e H. destruct (F2 e H) as [He|(c & Hc & Hin)]; [left; exact He|].
    right. exists c. split; [exact Hc|apply in_or_app; right; exact Hin].
Qed.

End ThrowsOnly.

Lemma throws_only_prepareRemindersForNextDay F E env :
  F prepareRemindersForNextDay = true ->
  throws_only F E (reminderService_prepareRemindersForNextDay env).
Proof.
  intros HF w. unfold reminderService_prepareRemindersForNextDay.
  apply (throws_only_external F E env prepareRemindersForNextDay); [exact HF|].
  intros d e. destruct (svc_prepareRemindersForNextDay env d (wall w)). discriminate.
Qed.

Lemma update_throws_missing_row d id u e :
  fst (update_reminder d id u) = Throw e -> missing_row e.
Proof.
  unfold update_reminder. destruct (existsb (has_id id) (reminders d)); cbn; [discriminate|].
  intros H. inversion H. left. reflexivity.
Qed.

Ltac any_walk := events_walk (fun _ : Event => True) ltac:(fun r => exact I).

Ltac throws_walk F :=
  repeat match goal with
  | |- throws_only _ _ (bind _ _) => apply throws_only_bind; [|intros]
  | |- throws_only _ _ (for_of _ _ _) => apply throws_only_for_of; intros
  | |- throws_only _ _ (ret _) => apply throws_only_ret
  | |- throws_only _ _ (throw _) =>
      apply throws_only_throw; unfold missing_row; solve [auto]
  | |- throws_only _ _ Date_now => apply throws_only_Date_now
  | |- throws_only _ _ (console_error _) => apply throws_only_console_error
  | |- throws_only _ _ (reminderService_prepareRemindersForNextDay _) =>
      apply throws_only_prepareRemindersForNextDay; reflexivity
  | |- throws_only _ _ (external _ _ (fun d => update_reminder d _ _)) =>
      apply throws_only_external; [reflexivity|intros ? ?; apply update_throws_missing_row]
  | |- throws_only _ _ (external _ _ _) =>
      apply throws_only_external;
      [reflexivity
      |let H := fresh in
       intros ? ? H; cbn in H;
       repeat match type of H with
              | context [let (_, _) := ?x in _] => destruct x
              end;
       discriminate H]
  | |- throws_only _ _ (try_catch _ _) => apply throws_only_try_catch; [any_walk|intros]
  | |- throws_only _ _ (match ?x with _ => _ end) => destruct x
  end.

Lemma jobs_throw_only_fatal env :
  Forall (fun j => throws_only (fatal (snd (fst j))) missing_row (snd j)) (jobs env).
Proof.
  unfold jobs.
  repeat (apply Forall_cons; [cbn [fst snd]|]); try apply Forall_nil.
  all: unfold daily_streak_update_body, prepare_next_day_reminders_body,
         streakController_processDailyStreakUpdates; unfold_jobs; unfold_calls.
  - throws_walk (fatal "daily-streak-update").
  - throws_walk (fatal "streak-milestone-check").
  - throws_walk (fatal "streak-warning-check").
  - throws_walk (fatal "process-reminders").
  - throws_walk (fatal "streak-preservation-reminder").
  - throws_walk (fatal "prepare-next-day-reminders").
  - throws_walk (fatal "weekly-habit-review").
  - throws_walk (fatal "daily-goal-check").
  - throws_walk (fatal "new-user-welcome").
Qed.

Lemma in_job_lines l evs : In (EvJobStatus l) evs -> In l (job_lines evs).
Proof.
  intros H. unfold job_lines. apply in_flat_map. eexists. split; [exact H|]. left. reflexivity.
Qed.

(** X22.  A handler logs 'failed' only for one of those rejections, or for a row
    that is not there (a habit without its owner, an update of a reminder
    without a row): the rejection of any other call, by whichever job, is
    caught inside the job and by itself never makes the handler log
    'failed'. *)
Theorem a_run_ends_only_on_these :
  forall (env : Env) (w : World),
    Forall (fun j =>
              let jobName := snd (fst j) in
              let evs := events_since w (exec (handler j) w) in
              forall t e,
                In (failed_line jobName t e) evs ->
                missing_row e \/
                exists c, fatal jobName c = true /\ In (EvCall c (Some e)) evs)
           (jobs env).
Proof.
  intros env w.
  pose proof (jobs_throw_only_fatal env) as Hf. pose proof (silent_jobs env) as Hs.
  rewrite Forall_forall in *. intros j Hj. specialize (Hf j Hj).
  destruct (Hs j Hj) as [Hq _]. clear Hs.
  intros jobName evs t e Hin. unfold evs in *. clear evs.
  set (w1 := record (EvJobStatus (started_line jobName (wall w))) w).
  assert (Hrun : exec (handler j) w =
                 record (EvJobStatus (terminal_line jobName (wall (exec (snd j) w1))
                                                    (outcome (snd j) w1)))
                        (exec (snd j) w1)).
  { unfold handler, exec at 1. rewrite cron_job_run. reflexivity. }
  rewrite Hrun in *. clear Hrun.
  destruct (Hf w1) as (evs_b & T & Fb). destruct (Hq w1) as [_ (evs_q & Tq & Jq)].
  assert (evs_q = evs_b) by (rewrite T in Tq; apply app_inv_head in Tq; congruence).
  subst evs_q.
  assert (Hev : forall l,
             events_since w (record l (exec (snd j) w1)) =
             [EvJobStatus (started_line jobName (wall w))] ++ evs_b ++ [l]).
  { intros l. apply events_since_app. cbn [trace record]. rewrite T. subst w1.
    cbn [trace record]. rewrite <- !app_assoc. reflexivity. }
  rewrite Hev in *.
  apply in_app_or in Hin. destruct Hin as [[Hin|[]]|Hin]; [discriminate|].
  apply in_app_or in Hin. destruct Hin as [Hin|[Hin|[]]].
  - apply in_job_lines in Hin. rewrite Jq in Hin. destruct Hin.
  - unfold failed_line in Hin. inversion Hin as [Hl]. clear Hin.
    destruct (outcome (snd j) w1) as [d|e'] eqn:Ho; cbn in Hl; [discriminate|].
    assert (e' = e).
    { destruct e, e'. cbn in Hl. inversion Hl. reflexivity. }
    subst e'. destruct (Fb e eq_refl) as [He|(c & Hc & Hc')]; [left; exact He|].
    right. exists c. split; [exact Hc|].
    apply in_or_app. right. apply in_or_app. left. exact Hc'.
Qed.

(** ** The day of the daily goal *)


(** ** What the habit scans report and repeat *)

Lemma habitsChecked_of (env : Env) gt (loop : list HabitRow.t -> M Z) name w details :
  outcome (startTime <- Date_now ;;
           rows <- prisma_habit_findMany_active env gt ;;
           n <- loop rows ;;
           duration <- duration_since startTime ;;
           ret [("duration", JStr duration);
                ("habitsChecked", JNum (Z.of_nat (List.length rows)));
                (name, JNum n)]) w = Ok details ->
  In ("habitsChecked",
      JNum (Z.of_nat (List.length (filter Habit.is_active (habits (db w)))))) details.
Proof.
  unfold outcome, prisma_habit_findMany_active, duration_since.
  unfold bind, Date_now, external, ret.
  destruct (rejects env (List.length (trace w)) (habit_findMany_active gt));
    cbn [fst snd]; [discriminate|].
  cbn [db set_db record].
  destruct (loop (q_habit_findMany_active (db w) gt) _) as [[n|e] w']; cbn [fst];
    [|discriminate].
  intros H. inversion H. right. left.
  unfold q_habit_findMany_active. rewrite length_map. reflexivity.
Qed.

(** X24.  When the milestone, warning or preservation scan completes, the
    [habitsChecked] it reports is the number of active habits in the table,
    whatever their streaks: the threshold of a scan filters the streak rows
    the query includes, not the habits it returns. *)
Theorem habitsChecked_counts_the_active_habits :
  forall (env : Env) (w : World),
    let active := Z.of_nat (List.length (filter Habit.is_active (habits (db w)))) in
    Forall (fun scan =>
              forall details,
                outcome scan w = Ok details -> In ("habitsChecked", JNum active) details)
           [streak_milestone_check_body env;
            streak_warning_check_body env;
            streak_preservation_reminder_body env].
Proof.
  intros env w active. repeat (apply Forall_cons; [intros details H|]); [| | |constructor].
  - exact (habitsChecked_of env None (fun rows => for_of rows (milestone_step env) 0)
             "milestoneNotificationsSent" w details H).
  - exact (habitsChecked_of env (Some 2) (fun rows => for_of rows (warning_step env) 0)
             "warningsCreated" w details H).
  - unfold streak_preservation_reminder_body, preservation_scan in H.
    unfold outcome, prisma_habit_findMany_active, duration_since in H.
    unfold bind, Date_now, external, ret in H.
    destruct (rejects env (List.length (trace w)) (habit_findMany_active (Some 7)));
      cbn [fst snd] in H; [discriminate|].
    cbn [db set_db record wall] in H.
    destruct (for_of (q_habit_findMany_active (db w) (Some 7)) _ _ _) as [[n|e] w'];
      cbn [fst snd] in H; [|discriminate].
    inversion H. right. left.
    unfold active, q_habit_findMany_active. rewrite length_map. reflexivity.
Qed.

Lemma warning_body_appended env : stable (on_db appended) (streak_warning_check_body env).
Proof.
  unfold_jobs; unfold_calls.
  conserve appended appended_refl appended_trans appended_leaf.
Qed.

Lemma warning_rule_same_tables env w w' :
  wall w' = wall w -> same_tables (db w) (db w') ->
  habits (db w') = habits (db w) /\
  before_8pm env (wall w') = before_8pm env (wall w) /\
  (forall h, warning_due env w' h = warning_due env w h) /\
  (forall h, warning_attempt w' h = warning_attempt w h) /\
  (forall h, warning_reminder env w' h = warning_reminder env w h) /\
  (owners_present (db w) -> owners_present (db w')).
Proof.
  intros Hw (Hu & Hh & Hs & _).
  assert (St : forall hid gt, streaks_of (db w') hid gt = streaks_of (db w) hid gt)
    by (intros; unfold streaks_of; rewrite Hs; reflexivity).
  assert (Fu : forall uid, find_user (db w') uid = find_user (db w) uid)
    by (intros; unfold find_user; rewrite Hu; reflexivity).
  split; [exact Hh|]. split; [rewrite Hw; reflexivity|]. split; [|split; [|split]].
  - intros h. unfold warning_due. rewrite St, Fu, Hw. reflexivity.
  - intros h. unfold warning_attempt. rewrite St. reflexivity.
  - intros h. unfold warning_reminder. rewrite St, Hw. reflexivity.
  - intros Ho h Hin. rewrite Fu. apply Ho. rewrite <- Hh. exact Hin.
Qed.

(** X25.  The warning scan does not look for what it has already created: run
    again on the world its first run left, at the same time, it tries to
    create the same notifications and the same STREAK_WARNING reminders once
    more. *)
Theorem warning_scan_does_not_deduplicate :
  forall (env : Env) (w : World),
    let scan := streak_warning_check_body env in
    let w1 := exec scan w in
    rejects env (List.length (trace w)) (habit_findMany_active (Some 2)) = None ->
    rejects env (List.length (trace w1)) (habit_findMany_active (Some 2)) = None ->
    owners_present (db w) ->
    scheduled_never_rejected env ->
    completed_never_rejected env ->
    notification_attempts (events_since w1 (exec scan w1)) =
      notification_attempts (events_since w (exec scan w)) /\
    reminder_attempts (events_since w1 (exec scan w1)) =
      reminder_attempts (events_since w (exec scan w)).
Proof.
  intros env w scan w1 Hq Hq1 Ho Hs Hc.
  destruct (warning_body_appended env w) as (Hw & Ht & _). fold scan in Hw, Ht. fold w1 in Hw, Ht.
  destruct (warning_rule_same_tables env w w1 Hw Ht) as (Hh & Hb & Hd & Ha & Hr & Ho1).
  destruct (warning_scan_run env w Hq Ho Hs Hc) as (_ & N & R).
  destruct (warning_scan_run env w1 Hq1 (Ho1 Ho) Hs Hc) as (_ & N1 & R1).
  fold scan in N, R, N1, R1. rewrite N, R, N1, R1, Hh, Hb.
  rewrite (filter_ext _ _ Hd). split.
  - apply map_ext. exact Ha.
  - destruct (before_8pm env (wall w)); [|reflexivity]. apply map_ext. exact Hr.
Qed.

(** ** Concrete runs of the further properties *)



Lemma calm_completed : completed_never_rejected calm.
Proof. intros n hid uid date. reflexivity. Qed.

(** The dispatch run on [demo]: the reminder is SENT and due no more. *)
Lemma dispatched_reminder_is_due_again_iff_failed_witness :
  failed_update_never_rejected calm /\
  Forall (fun r =>
            exists r',
              find (has_id (ScheduledReminder.scheduled_reminder_id r))
                   (reminders (db (exec (dispatch calm) demo))) = Some r' /\
              terminal_status (ScheduledReminder.send_status r') = true /\
              forall later, wall demo <= later -> is_due later r' = is_failed r')
         [run_reminder].
Proof.
  split; [exact calm_failed_update|].
  exact (dispatched_reminder_is_due_again_iff_failed calm demo eq_refl calm_failed_update
           demo_reminder_ids).
Defined.

Lemma demo_reminder_owners : reminder_owners_present (db demo).
Proof. intros r [<-|[]]. discriminate. Qed.

(** Two dispatch runs on [demo], one after the other. *)
Lemma clean_dispatch_leaves_nothing_due_witness :
  never_rejects calm /\
  reminder_owners_present (db demo) /\
  outcome (dispatch calm) (exec (dispatch calm) demo) = Ok (Results.mk 0 0 0 0).
Proof.
  split; [exact calm_never_rejects|]. split; [exact demo_reminder_owners|].
  exact (proj2 (clean_dispatch_leaves_nothing_due calm demo calm_never_rejects
                  demo_reminder_ids demo_reminder_owners)).
Defined.


(** [testHabitReminder] for habit 10 of [demo], with every push rejected. *)
Lemma testHabitReminder_reports_success_witness :
  find_habit (db demo) 10 = Some run /\
  outcome (testHabitReminder push_down NotInEnum None 1 10 None) demo =
    Ok (TestResult.mk true "Test reminder sent").
Proof.
  split; [reflexivity|].
  exact (proj1 (testHabitReminder_reports_success push_down NotInEnum 1 10 None demo run
                  eq_refl)).
Defined.

(** The two helpers on [demo], for a milestone of 7 days. *)
Lemma test_helpers_of_the_enum_attempt_once_witness :
  safe_integer 7 /\
  outcome (testStreakMilestoneNotification calm NotInEnum 1 "Run" 7 10) demo = Ok tt /\
  outcome (testChallengeInviteNotification calm NotInEnum 1 "Run" 2 3) demo = Ok tt.
Proof.
  assert (Hs : safe_integer 7) by (unfold safe_integer; cbn; lia).
  split; [exact Hs|].
  destruct (test_helpers_of_the_enum_attempt_once calm NotInEnum demo 1 7 10 2 3 "Run" Hs)
    as [[H1 _] [H2 _]].
  split; [exact H1|exact H2].
Defined.

(** The welcome job on [demo]: ann is new and has no welcome. *)
Lemma welcome_count_counts_attempts_witness :
  rejects calm (List.length (trace demo)) (user_findMany_new (wall demo - 30 * 60 * 1000))
    = None /\
  exists details,
    outcome (new_user_welcome_body calm) demo = Ok details /\
    In ("welcomeNotificationsSent", JNum 1) details.
Proof.
  split; [reflexivity|].
  exact (proj1 (welcome_count_counts_attempts calm demo eq_refl)).
Defined.

Lemma keen_owners : owners_present (db keen).
Proof. intros h [<-|[]]. discriminate. Qed.

Lemma calm_preservation_queries : preservation_queries_return calm.
Proof. repeat split; intros; reflexivity. Qed.

(** The preservation scan on [keen]: Run is on a 9-day streak. *)
Lemma preservation_scan_exact_witness :
  owners_present (db keen) /\
  preservation_queries_return calm /\
  NoDup (map Habit.habit_id (habits (db keen))) /\
  reminder_attempts (events_since keen (exec (streak_preservation_reminder_body calm) keen)) =
  [urgent_reminder 2000 run 9].
Proof.
  assert (Hnd : NoDup (map Habit.habit_id (habits (db keen)))).
  { cbn. constructor; [intros []|constructor]. }
  split; [exact keen_owners|]. split; [exact calm_preservation_queries|].
  split; [exact Hnd|].
  exact (proj1 (proj2 (preservation_scan_exact calm keen eq_refl keen_owners
                         calm_preservation_queries Hnd))).
Defined.

(** The dispatch run on [demo] notifies ann of her one due reminder. *)
Lemma dispatch_notifies_exactly_the_sendable_witness :
  failed_update_never_rejected calm /\
  completed_never_rejected calm /\
  notification_attempts (events_since demo (exec (dispatch calm) demo)) =
  [reminder_notice (db demo) run_reminder].
Proof.
  split; [exact calm_failed_update|]. split; [exact calm_completed|].
  exact (dispatch_notifies_exactly_the_sendable calm demo eq_refl calm_failed_update
           calm_completed).
Defined.

Lemma dispatch_entry_listed env : In (dispatch_entry env) (jobs env).
Proof. right. right. right. left. reflexivity. Qed.

Lemma updates_down_run :
  In (EvCall (scheduledReminder_update 5 (mark_failed "Connection lost")) (Some ConnectionLost))
     (events_since demo (exec (handler (dispatch_entry updates_down)) demo)).
Proof. vm_compute. repeat (first [left; reflexivity|right]). Qed.

(** The dispatch job on [demo] with every update rejected: the update that
    should record FAILED is rejected too, and the handler logs 'failed'. *)
Lemma rejections_that_end_a_run_witness :
  fatal "process-reminders" (scheduledReminder_update 5 (mark_failed "Connection lost")) = true /\
  In (failed_line "process-reminders" 2000 ConnectionLost)
     (events_since demo (exec (handler (dispatch_entry updates_down)) demo)).
Proof.
  split; [reflexivity|].
  exact (proj1 (Forall_forall _ _) (rejections_that_end_a_run updates_down demo)
           (dispatch_entry updates_down) (dispatch_entry_listed updates_down)
           (scheduledReminder_update 5 (mark_failed "Connection lost")) ConnectionLost
           eq_refl updates_down_run).
Defined.

Lemma updates_down_failed :
  In (failed_line "process-reminders" 2000 ConnectionLost)
     (events_since demo (exec (handler (dispatch_entry updates_down)) demo)).
Proof. vm_compute. repeat (first [left; reflexivity|right]). Qed.

(** The same run, read the other way: the 'failed' line is there for a
    rejected call of the list. *)
Lemma a_run_ends_only_on_these_witness :
  missing_row ConnectionLost \/
  exists c,
    fatal "process-reminders" c = true /\
    In (EvCall c (Some ConnectionLost))
       (events_since demo (exec (handler (dispatch_entry updates_down)) demo)).
Proof.
  exact (proj1 (Forall_forall _ _) (a_run_ends_only_on_these updates_down demo)
           (dispatch_entry updates_down) (dispatch_entry_listed updates_down)
           2000 ConnectionLost updates_down_failed).
Defined.

(** The milestone scan on [demo] reports one habit checked. *)
Lemma habitsChecked_counts_the_active_habits_witness :
  exists details,
    outcome (streak_milestone_check_body calm) demo = Ok details /\
    In ("habitsChecked", JNum 1) details.
Proof.
  eexists. split; [reflexivity|].
  exact (Forall_inv (habitsChecked_counts_the_active_habits calm demo) _ eq_refl).
Defined.

Lemma calm_scheduled : scheduled_never_rejected calm.
Proof. intros n h date. reflexivity. Qed.

(** The warning scan twice on [demo]. *)
Lemma warning_scan_does_not_deduplicate_witness :
  owners_present (db demo) /\
  notification_attempts
    (events_since (exec (streak_warning_check_body calm) demo)
       (exec (streak_warning_check_body calm) (exec (streak_warning_check_body calm) demo))) =
  notification_attempts (events_since demo (exec (streak_warning_check_body calm) demo)).
Proof.
  split; [exact demo_owners|].
  exact (proj1 (warning_scan_does_not_deduplicate calm demo eq_refl eq_refl demo_owners
                  calm_scheduled calm_completed)).
Defined.
